(** * xCell job launcher ([run_cls.py]) and workspace I/O ([xcell/cls/tools.py])

    A shallow embedding of the scheduling, grouping, locking and caching
    logic of the launcher, followed by the properties established about it.

    Conventions.
    - Python [int] is [Z]; Python [str] is [string]; a list is a [list].
    - A call that may raise returns a [result]; the exception is kept.
    - The [Data] object of [xcell.cls.data] is an argument of every launcher
      function; the part of its interface that the launcher calls is the
      record [Data] below.
    - The filesystem is the list of paths of the regular files that exist
      ([os.path.isfile]) and the list of the directories that exist:
      [open(path, 'w')] raises [FileNotFoundError] when the directory of
      [path] is not among them.  Every observable action of the launcher is
      appended to a trace of [event]s. *)

From Stdlib Require Import ZArith List String Ascii Bool Lia DecimalString.
Import ListNotations.
Open Scope string_scope.
Open Scope Z_scope.

(** ** Exceptions and fallible computations *)

Inductive exn : Type :=
| ValueError (msg : string)
| KeyError (key : string)
| RuntimeError (msg : string)
| FileNotFoundError (path : string)
| OtherError (msg : string).

Inductive result (A : Type) : Type :=
| Ok (a : A)
| Raise (e : exn).
Arguments Ok {A} a.
Arguments Raise {A} e.

Definition bind {A B : Type} (r : result A) (k : A -> result B) : result B :=
  match r with
  | Ok a => k a
  | Raise e => Raise e
  end.

Notation "x <- r ;; k" := (bind r (fun x => k))
  (at level 61, r at next level, right associativity).

(** ** Python primitives used by the sources *)

Module Py.

(** [x in l] for a list [l] of strings. *)
Definition list_in (x : string) (l : list string) : bool :=
  existsb (String.eqb x) l.

(** [sub in s] for two strings: substring test. *)
Fixpoint str_in (sub s : string) : bool :=
  if String.prefix sub s then true
  else match s with
       | EmptyString => false
       | String _ s' => str_in sub s'
       end.

(** [s.endswith(c)] for a one-character [c]. *)
Fixpoint endswith (c : ascii) (s : string) : bool :=
  match s with
  | EmptyString => false
  | String x EmptyString => Ascii.eqb x c
  | String _ s' => endswith c s'
  end.

(** One step of [posixpath.join]. *)
Definition join2 (path b : string) : string :=
  if String.prefix "/" b then b
  else if (path =? "")%string || endswith "/" path then path ++ b
  else path ++ "/" ++ b.

(** [os.path.join(a, p1, p2, ...)]. *)
Definition os_path_join (a : string) (p : list string) : string :=
  fold_left join2 p a.

Fixpoint basename_from (s acc : string) : string :=
  match s with
  | EmptyString => acc
  | String c s' =>
      if Ascii.eqb c "/" then basename_from s' EmptyString
      else basename_from s' (acc ++ String c EmptyString)
  end.

(** [os.path.basename(p)]: what follows the last slash. *)
Definition os_path_basename (p : string) : string := basename_from p EmptyString.

(** [p[:i]] and [p[i:]] for [i = p.rfind('/') + 1]: the path up to and
    with its last slash, and what follows. *)
Fixpoint split_last_slash (p : string) : string * string :=
  match p with
  | EmptyString => (EmptyString, EmptyString)
  | String c p' =>
      let '(head, tail) := split_last_slash p' in
      if (head =? "")%string then
        if Ascii.eqb c "/" then (String c EmptyString, tail)
        else (EmptyString, String c tail)
      else (String c head, tail)
  end.

(** [s.rstrip('/')]. *)
Fixpoint rstrip_slash (s : string) : string :=
  match s with
  | EmptyString => EmptyString
  | String c s' =>
      let r := rstrip_slash s' in
      if Ascii.eqb c "/" && (r =? "")%string then EmptyString else String c r
  end.

(** [os.path.dirname(p)]: the head with its trailing slashes removed,
    unless it is made of slashes only. *)
Definition os_path_dirname (p : string) : string :=
  let head := fst (split_last_slash p) in
  let r := rstrip_slash head in
  if (r =? "")%string then head else r.

(** The directories above [p]: its prefixes that end before a slash. *)
Fixpoint parents_from (p acc : string) : list string :=
  match p with
  | EmptyString => []
  | String c p' =>
      if Ascii.eqb c "/" then
        (if (acc =? "")%string || endswith "/" acc then [] else [acc])
          ++ parents_from p' (acc ++ String c EmptyString)
      else parents_from p' (acc ++ String c EmptyString)
  end.

(** [str(n)] for an [int]. *)
Definition str_of_int (n : Z) : string := NilZero.string_of_int (Z.to_int n).

(** A slice bound of [l[a:b]], as CPython normalises it: a negative bound
    counts from the end, and the result is clamped to [0, len]. *)
Definition slice_bound (len i : Z) : nat :=
  Z.to_nat (Z.min len (Z.max 0 (if i <? 0 then i + len else i))).

(** [l[a:b]]. *)
Definition slice {A : Type} (l : list A) (a b : Z) : list A :=
  let len := Z.of_nat (List.length l) in
  let lo := slice_bound len a in
  let hi := slice_bound len b in
  skipn lo (firstn hi l).

(** [range(n)]. *)
Definition range (n : Z) : list Z :=
  map Z.of_nat (seq 0 (Z.to_nat n)).

Definition nl : string := String (ascii_of_nat 10) EmptyString.

End Py.

(** ** The [Data] object, as the launcher uses it *)

(** A 2-tracer task and a 4-tracer task: rows of the arrays that
    [np.unique(..., axis=0).tolist()] returns. *)
Definition cl_task : Type := string * string.
Definition cov_task : Type := string * string * string * string.

Definition cov_task_trs (t : cov_task) : list string :=
  let '(a, b, c, d) := t in [a; b; c; d].

(** The part of [xcell.cls.data.Data] that [run_cls.py] calls.  The class
    itself is outside the modelled sources; each field is one access. *)
Record Data : Type := {
  output : string;                              (* data.data['output'] *)
  recompute_cls : bool;                         (* data.data['recompute']['cls'] *)
  recompute_mcm : bool;
  recompute_cov : bool;
  recompute_cmcm : bool;
  has_tracer : string -> bool;                  (* tr in data.data['tracers'] *)
  mask_name : string -> option string;          (* the 'mask_name' entry of data.data['tracers'][tr] *)
  get_mapper_spin : string -> result Z;         (* data.get_mapper(tr).get_spin() *)
  get_tracer_bare_name : string -> string;
  get_tracers_bare_name_pair : string -> string -> string -> string;
  get_cl_trs_names : bool -> list cl_task;      (* argument: wsp *)
  get_cov_trs_names : bool -> list cov_task
}.

(** ** Resource estimator: [get_mem] *)

Fixpoint dict_get (d : list (Z * Z)) (k : Z) : result Z :=
  match d with
  | [] => Raise (KeyError (Py.str_of_int k))
  | (k', v) :: d' => if k =? k' then Ok v else dict_get d' k
  end.

(** The per-spin table [d] that [get_mem] fills for a mode. *)
Definition mem_table (compute : string) : result (list (Z * Z)) :=
  if (compute =? "cls")%string then Ok [(0, 16); (2, 25)]
  else if (compute =? "cov")%string then Ok [(0, 16); (2, 47)]
  else Raise (ValueError (compute ++ " not defined")).

(** The loop [for tr in trs: ... mem += d[s]], started with [mem]. *)
Fixpoint get_mem_loop (data : Data) (d : list (Z * Z)) (trs : list string)
    (mem : Z) : result Z :=
  match trs with
  | [] => Ok mem
  | tr :: rest =>
      s <- get_mapper_spin data tr ;;
      m <- dict_get d s ;;
      get_mem_loop data d rest (mem + m)
  end.

Definition get_mem (data : Data) (trs : list string) (compute : string) : result Z :=
  d <- mem_table compute ;;
  get_mem_loop data d trs 0.

(** ** Skip list: [check_skip] *)

Fixpoint check_skip (data : Data) (skip : list string) (trs : list string) : bool :=
  match trs with
  | [] => false
  | tr :: rest =>
      if Py.list_in tr skip then true
      else if Py.list_in (get_tracer_bare_name data tr) skip then true
      else check_skip data skip rest
  end.

(** ** Task lists: [np.unique(rows, axis=0).tolist()] *)

(** Rows are compared column by column, each column as a string by code
    point: the order in which [np.unique] sorts the rows of a 2-D array of
    strings. *)
Fixpoint row_compare (r1 r2 : list string) : comparison :=
  match r1, r2 with
  | [], [] => Eq
  | [], _ :: _ => Lt
  | _ :: _, [] => Gt
  | x :: r1', y :: r2' =>
      match String.compare x y with
      | Eq => row_compare r1' r2'
      | ne => ne
      end
  end.

Definition cl_task_trs (t : cl_task) : list string :=
  let '(a, b) := t in [a; b].

Definition cl_task_compare (t1 t2 : cl_task) : comparison :=
  row_compare (cl_task_trs t1) (cl_task_trs t2).

Definition cov_task_compare (t1 t2 : cov_task) : comparison :=
  row_compare (cov_task_trs t1) (cov_task_trs t2).

Section Unique.
Context {A : Type} (cmp : A -> A -> comparison).

Fixpoint insert_row (x : A) (l : list A) : list A :=
  match l with
  | [] => [x]
  | y :: l' =>
      match cmp x y with
      | Gt => y :: insert_row x l'
      | _ => x :: l
      end
  end.

Definition sort_rows (l : list A) : list A := fold_right insert_row [] l.

(** Keep a row only when it differs from the next one. *)
Fixpoint drop_repeats (l : list A) : list A :=
  match l with
  | [] => []
  | x :: l' =>
      match l' with
      | [] => [x]
      | y :: _ =>
          match cmp x y with
          | Eq => drop_repeats l'
          | _ => x :: drop_repeats l'
          end
      end
  end.

(** [np.unique(l, axis=0)]: the rows sorted, each distinct row once. *)
Definition np_unique (l : list A) : list A := drop_repeats (sort_rows l).

(** [x] does not come after [y]; a list in ascending order. *)
Definition not_after (x y : A) : Prop := cmp x y <> Gt.

Fixpoint ascending (l : list A) : Prop :=
  match l with
  | [] => True
  | x :: l' => Forall (not_after x) l' /\ ascending l'
  end.
End Unique.

(** The list [cov_tracers] that [get_jobs_with_same_cwsp], [launch_cov] build. *)
Definition cov_tracers (data : Data) : list cov_task :=
  np_unique cov_task_compare
    (get_cov_trs_names data true ++ get_cov_trs_names data false)%list.

(** The list [cl_tracers] of [launch_cls]. *)
Definition cl_tracers (data : Data) : list cl_task :=
  np_unique cl_task_compare
    (get_cl_trs_names data true ++ get_cl_trs_names data false)%list.

(** ** Workspace grouping: [get_jobs_with_same_cwsp] *)

(** [data.data['tracers'][tr]["mask_name"]]: two lookups, the tracer in the
    configuration and then its ['mask_name'] entry; each raises [KeyError]
    with the key it misses. *)
Definition lookup_mask (data : Data) (tr : string) : result string :=
  if has_tracer data tr then
    match mask_name data tr with
    | Some m => Ok m
    | None => Raise (KeyError "mask_name")
    end
  else Raise (KeyError tr).

(** The f-string [cov/cw__{mask1}__{mask2}__{mask3}__{mask4}.fits]. *)
Definition cw_relname (m1 m2 m3 m4 : string) : string :=
  "cov/cw__" ++ m1 ++ "__" ++ m2 ++ "__" ++ m3 ++ "__" ++ m4 ++ ".fits".

(** [[data.data['tracers'][trsi]["mask_name"] for trsi in trs]]: the four
    masks are looked up in task order, the first missing one raises. *)
Definition task_masks (data : Data) (trs : cov_task)
    : result (string * string * string * string) :=
  let '(t1, t2, t3, t4) := trs in
  mask1 <- lookup_mask data t1 ;;
  mask2 <- lookup_mask data t2 ;;
  mask3 <- lookup_mask data t3 ;;
  mask4 <- lookup_mask data t4 ;;
  Ok (mask1, mask2, mask3, mask4).

(** The path of the workspace for four masks. *)
Definition cw_path (data : Data) (masks : string * string * string * string) : string :=
  let '(mask1, mask2, mask3, mask4) := masks in
  Py.os_path_join (output data) [cw_relname mask1 mask2 mask3 mask4].

(** [fname] of one task. *)
Definition cwsp_fname (data : Data) (trs : cov_task) : result string :=
  masks <- task_masks data trs ;;
  Ok (cw_path data masks).

(** The dict [cwsp]: keys in insertion order, as Python iterates them. *)
Definition cwsp_dict : Type := list (string * list cov_task).

(** [if fname in cwsp: cwsp[fname].append(trs) else: cwsp[fname] = [trs]]. *)
Fixpoint cwsp_add (cwsp : cwsp_dict) (fname : string) (trs : cov_task) : cwsp_dict :=
  match cwsp with
  | [] => [(fname, [trs])]
  | (k, l) :: cwsp' =>
      if (fname =? k)%string then (k, (l ++ [trs])%list) :: cwsp'
      else (k, l) :: cwsp_add cwsp' fname trs
  end.

Fixpoint cwsp_loop (data : Data) (tasks : list cov_task) (cwsp : cwsp_dict)
    : result cwsp_dict :=
  match tasks with
  | [] => Ok cwsp
  | trs :: rest =>
      fname <- cwsp_fname data trs ;;
      cwsp_loop data rest (cwsp_add cwsp fname trs)
  end.

Definition get_jobs_with_same_cwsp (data : Data) : result cwsp_dict :=
  cwsp_loop data (cov_tracers data) [].

Fixpoint cwsp_get (cwsp : cwsp_dict) (fname : string) : option (list cov_task) :=
  match cwsp with
  | [] => None
  | (k, l) :: cwsp' => if (fname =? k)%string then Some l else cwsp_get cwsp' fname
  end.

(** ** The world the launcher acts on *)

Inductive event : Type :=
| IsFile (path : string) (answer : bool)        (* os.path.isfile(path) *)
| ConsultSkip (trs : list string) (answer : bool) (* check_skip(data, skip, trs) *)
| WriteFile (path : string) (chunks : list string) (* open(path,'w'), then f.write of each chunk *)
| System (cmd : string).                        (* os.system(cmd) *)

Record world : Type := {
  files : list string;      (* the regular files that exist *)
  dirs : list string;       (* the directories that exist, as the launcher spells them *)
  trace : list event        (* what the process did so far, oldest first *)
}.

Definition IO (A : Type) : Type := world -> A * world.

Definition ret {A : Type} (a : A) : IO A := fun w => (a, w).

Definition bindIO {A B : Type} (m : IO A) (k : A -> IO B) : IO B :=
  fun w => let '(a, w') := m w in k a w'.

Notation "x <~ m ;; k" := (bindIO m (fun x => k))
  (at level 61, m at next level, right associativity).
Notation "m ;;; k" := (bindIO m (fun _ => k))
  (at level 61, right associativity).

Definition emit (e : event) : IO unit :=
  fun w => (tt, {| files := files w; dirs := dirs w;
                   trace := (trace w ++ [e])%list |}).

Definition os_path_isfile (path : string) : IO bool :=
  fun w => let b := Py.list_in path (files w) in
           (b, {| files := files w; dirs := dirs w;
                  trace := (trace w ++ [IsFile path b])%list |}).

(** [check_skip], with the consultation recorded in the trace. *)
Definition consult_skip (data : Data) (skip : list string) (trs : list string) : IO bool :=
  fun w => let b := check_skip data skip trs in
           (b, {| files := files w; dirs := dirs w;
                  trace := (trace w ++ [ConsultSkip trs b])%list |}).

(** The files once [path] has been opened for writing. *)
Definition add_path (path : string) (fs : list string) : list string :=
  if Py.list_in path fs then fs else (fs ++ [path])%list.

(** Computations of the launcher that may raise; the world reached when the
    exception is raised is kept. *)
Definition IOE (A : Type) : Type := world -> result A * world.

Definition retE {A : Type} (a : A) : IOE A := fun w => (Ok a, w).

Definition bindE {A B : Type} (m : IOE A) (k : A -> IOE B) : IOE B :=
  fun w => match m w with
           | (Ok a, w') => k a w'
           | (Raise e, w') => (Raise e, w')
           end.

Definition liftIO {A : Type} (m : IO A) : IOE A :=
  fun w => let '(a, w') := m w in (Ok a, w').

Notation "x <! m ;; k" := (bindE m (fun x => k))
  (at level 61, m at next level, right associativity).
Notation "m !;; k" := (bindE m (fun _ => k))
  (at level 61, right associativity).

(** [os.makedirs(name, exist_ok=True)]: afterwards the directory and the
    directories above it exist.  The names that the launcher makes
    ([run_batches], [log]) are taken not to be those of regular files, for
    which the call would raise. *)
Definition os_makedirs (name : string) : IO unit :=
  fun w => (tt, {| files := files w;
                   dirs := fold_left (fun ds d => add_path d ds)
                             (Py.parents_from name EmptyString ++ [name])%list (dirs w);
                   trace := trace w |}).

(** Whether [open(path, 'w')] finds the directory of [path]: it is the
    current directory or a directory that exists. *)
Definition parent_exists (path : string) (ds : list string) : bool :=
  let d := Py.os_path_dirname path in
  (d =? "")%string || Py.list_in d ds.

(** [with open(path, 'w') as f: f.write(c) for c in chunks].  [open] raises
    [FileNotFoundError] when the directory of [path] does not exist; nothing
    is written then.  Permissions and quotas are not part of the world. *)
Definition write_file (path : string) (chunks : list string) : IOE unit :=
  fun w =>
    if parent_exists path (dirs w) then
      (Ok tt, {| files := add_path path (files w); dirs := dirs w;
                 trace := (trace w ++ [WriteFile path chunks])%list |})
    else (Raise (FileNotFoundError path), w).

(** [os.system(cmd)]: the job is handed to the queue.  The files that the
    launcher looks at afterwards (locks and outputs of other tasks) are taken
    as the job found them. *)
Definition os_system (cmd : string) : IO unit := emit (System cmd).

(** ** Command-line arguments read by the launchers *)

Record Args : Type := {
  INPUT : string;          (* args.INPUT *)
  queue : string;
  nc : Z;
  mem : string;            (* str(mem): the option is a float or an int *)
  onlogin : bool
}.

(** The string that [get_pyexec] returns. *)
Definition get_pyexec (comment : string) (a : Args) (mem_ : string) (outdir : string)
    (batches : bool) (logfname : option string) : string :=
  let pyexec := if batches then "/bin/bash" else "/usr/bin/python3" in
  if negb (onlogin a) then
    let logdir := Py.os_path_join outdir ["log"] in
    let logfname := match logfname with
                    | None => Py.os_path_join logdir [comment ++ ".log"]
                    | Some f => f
                    end in
    "addqueue -o " ++ logfname ++ " -c " ++ comment ++ " -n 1x" ++ Py.str_of_int (nc a)
      ++ " -s -q " ++ queue a ++ " -m " ++ mem_ ++ " " ++ pyexec
  else pyexec.

(** The call of [get_pyexec]: the string, and the log directory that the
    function makes ([os.makedirs(logdir, exist_ok=True)]) when the job goes
    to the queue. *)
Definition call_get_pyexec (comment : string) (a : Args) (mem_ : string)
    (outdir : string) (batches : bool) (logfname : option string) : IO string :=
  (if negb (onlogin a) then os_makedirs (Py.os_path_join outdir ["log"]) else ret tt) ;;;
  ret (get_pyexec comment a mem_ outdir batches logfname).

(** ** Batched covariance launcher: [launch_cov_batches2] *)

(** ['cov/cov_{}_{}_{}_{}.npz'] filled with the four tracers, under [outdir]. *)
Definition cov_npz (outdir : string) (trs : cov_task) : string :=
  let '(a, b, c, d) := trs in
  Py.os_path_join outdir ["cov/cov_" ++ a ++ "_" ++ b ++ "_" ++ c ++ "_" ++ d ++ ".npz"].

(** The line appended to [covs_tbc] for one task (it ends with a newline). *)
Definition cov_line (input : string) (trs : cov_task) : string :=
  let '(a, b, c, d) := trs in
  "/usr/bin/python3 -m xcell.cls.cov " ++ input ++ " " ++ a ++ " " ++ b ++ " " ++ c
    ++ " " ++ d ++ Py.nl.

(** The inner loop [for trs in trs_list], which fills [covs_tbc]. The test is
    [(os.path.isfile(fname) and (not recompute)) or check_skip(...)]:
    [check_skip] is evaluated only when the left disjunct is false. *)
Fixpoint covs_loop (data : Data) (skip : list string) (a : Args)
    (trs_list : list cov_task) (covs_tbc : list string) : IO (list string) :=
  match trs_list with
  | [] => ret covs_tbc
  | trs :: rest =>
      let fname := cov_npz (output data) trs in
      let recompute := recompute_cov data || recompute_cmcm data in
      present <~ os_path_isfile fname ;;
      if present && negb recompute then covs_loop data skip a rest covs_tbc
      else
        skipped <~ consult_skip data skip (cov_task_trs trs) ;;
        if skipped then covs_loop data skip a rest covs_tbc
        else covs_loop data skip a rest (covs_tbc ++ [cov_line (INPUT a) trs])%list
  end.

(** [create_lock_file(fname)]: an empty file [fname + '.lock'].  The
    launcher makes no directory for it: in a fresh output tree, where
    [<output>/cov] does not exist yet, the [open] raises. *)
Definition create_lock_file (fname : string) : IOE unit :=
  write_file (fname ++ ".lock") [""].

(** The chunks written to the script of one group, one per [f.write].
    After the [for covi in covs_tbc] loop, [covi] is the last line of
    [covs_tbc] (the list is not empty when the script is written). *)
Definition group_script (cw : string) (covs_tbc : list string) (remove_cwsp : bool)
    : list string :=
  List.concat
    [ ["#!/bin/bash" ++ Py.nl];
      flat_map (fun covi => ["echo Running " ++ covi ++ Py.nl; covi]) covs_tbc;
      ["echo Removing lock file: " ++ cw ++ ".lock" ++ Py.nl;
       "rm " ++ cw ++ ".lock" ++ Py.nl];
      (if remove_cwsp
       then ["echo Removing " ++ cw ++ Py.nl; "rm " ++ cw ++ Py.nl]
       else []);
      ["echo Finished running " ++ last covs_tbc "" ++ Py.nl ++ Py.nl] ].

Definition group_sh_name (outdir_batches cw : string) : string :=
  Py.os_path_join outdir_batches [Py.os_path_basename cw ++ ".sh"].

(** The body of the first loop for one group, after the [break] test: the
    name of the script it wrote, or [None] when the group is passed over
    ([continue]). *)
Definition group_step (data : Data) (skip : list string) (a : Args)
    (remove_cwsp : bool) (outdir_batches : string)
    (cw : string) (trs_list : list cov_task) : IOE (option string) :=
  locked <! liftIO (os_path_isfile (cw ++ ".lock")) ;;
  if locked then retE None
  else
    covs_tbc <! liftIO (covs_loop data skip a trs_list []) ;;
    match covs_tbc with
    | [] => retE None
    | _ :: _ =>
        create_lock_file cw !;;
        let sh_name := group_sh_name outdir_batches cw in
        write_file sh_name (group_script cw covs_tbc remove_cwsp) !;;
        retE (Some sh_name)
    end.

(** The first loop, [for ni, (cw, trs_list) in enumerate(cwsp.items())],
    with its two loop variables [c] and [sh_tbc]; [cap] is [njobs * nnodes]. *)
Fixpoint groups_loop (data : Data) (skip : list string) (a : Args)
    (remove_cwsp : bool) (cap : Z) (outdir_batches : string)
    (groups : cwsp_dict) (c : Z) (sh_tbc : list string) : IOE (Z * list string) :=
  match groups with
  | [] => retE (c, sh_tbc)
  | (cw, trs_list) :: rest =>
      if c >=? cap then retE (c, sh_tbc)                           (* break *)
      else
        written <! group_step data skip a remove_cwsp outdir_batches cw trs_list ;;
        match written with
        | None =>
            groups_loop data skip a remove_cwsp cap outdir_batches rest c sh_tbc
        | Some sh_name =>
            groups_loop data skip a remove_cwsp cap outdir_batches rest
              (c + 1) (sh_tbc ++ [sh_name])%list
        end
  end.

(** What the clock and the float formatting give to one invocation:
    [timestamp] is the UTC date printed as year, month, day, hour, minute,
    second and [fmt_days njobs] is
    [njobs / (60 * 24)] printed with [:.1f]. *)
Record Clock : Type := {
  timestamp : string;
  fmt_days : Z -> string
}.

(** The update of [njobs] at the top of the second loop:
    [if njobs > n_total_jobs / nnodes: njobs = int(n_total_jobs / nnodes + 1)].
    The loop body runs only for [nnodes >= 1] and [n_total_jobs] is a length,
    so the true division compares as [njobs * nnodes > n_total_jobs] and the
    truncation is the integer quotient plus one. *)
Definition njobs_per_node (njobs n_total_jobs nnodes : Z) : Z :=
  if njobs * nnodes >? n_total_jobs then n_total_jobs / nnodes + 1 else njobs.

(** The inner scripts that the outer script of node [nodei] invokes:
    [sh_tbc[nodei : (nodei + 1) * njobs]]. *)
Definition node_chunk (sh_tbc : list string) (nodei njobs : Z) : list string :=
  Py.slice sh_tbc nodei ((nodei + 1) * njobs).

(** The chunks written to the outer script of one node. *)
Definition node_script (chunk : list string) : list string :=
  ("#!/bin/bash" ++ Py.nl)
  :: flat_map (fun shi =>
       let command := "/bin/bash " ++ shi in
       ["echo Running " ++ command ++ Py.nl;
        command ++ Py.nl;
        "echo Finished " ++ command ++ Py.nl ++ Py.nl]) chunk.

Definition node_name (clk : Clock) (nodei njobs : Z) : string :=
  "batch" ++ Py.str_of_int nodei ++ "-" ++ Py.str_of_int njobs ++ "_" ++ timestamp clk.

(** The second loop, [for nodei in range(nnodes)]; [njobs] is reassigned in
    the body and carried to the next iteration. *)
Fixpoint nodes_loop (a : Args) (clk : Clock) (outdir outdir_batches logfolder : string)
    (n_total_jobs nnodes : Z) (sh_tbc : list string)
    (nodes : list Z) (njobs : Z) : IOE unit :=
  match nodes with
  | [] => retE tt
  | nodei :: rest =>
      let njobs := njobs_per_node njobs n_total_jobs nnodes in
      let name := node_name clk nodei njobs in
      let comment := name ++ "\(~" ++ fmt_days clk njobs ++ "days\)" in
      let sh_name := Py.os_path_join outdir_batches [name ++ ".sh"] in
      let logfname := Py.os_path_join logfolder [name ++ ".sh.log"] in
      write_file sh_name (node_script (node_chunk sh_tbc nodei njobs)) !;;
      pyexec <! liftIO (call_get_pyexec comment a (mem a) outdir true (Some logfname)) ;;
      liftIO (os_system (pyexec ++ " " ++ sh_name)) !;;
      nodes_loop a clk outdir outdir_batches logfolder n_total_jobs nnodes sh_tbc
        rest njobs
  end.

Definition launch_cov_batches2 (data : Data) (a : Args) (clk : Clock) (njobs : Z)
    (skip : list string) (remove_cwsp : bool) (nnodes : Z) : world -> result world :=
  fun w =>
    let outdir := output data in
    cwsp <- get_jobs_with_same_cwsp data ;;
    let outdir_batches := Py.os_path_join outdir ["run_batches"] in
    let logfolder := Py.os_path_join outdir ["log"] in
    let n_total_jobs := Z.of_nat (List.length cwsp) in
    let run : IOE unit :=
      liftIO (os_makedirs outdir_batches) !;;
      r <! groups_loop data skip a remove_cwsp (njobs * nnodes) outdir_batches cwsp 0 [] ;;
      nodes_loop a clk outdir outdir_batches logfolder n_total_jobs nnodes (snd r)
        (Py.range nnodes) njobs in
    match run w with
    | (Ok _, w2) => Ok w2
    | (Raise e, _) => Raise e
    end.

(** The outer scripts written by an invocation, in order: for each node the
    list of inner scripts it invokes. *)
Fixpoint node_chunks (n_total_jobs nnodes : Z) (sh_tbc : list string)
    (nodes : list Z) (njobs : Z) : list (list string) :=
  match nodes with
  | [] => []
  | nodei :: rest =>
      let njobs := njobs_per_node njobs n_total_jobs nnodes in
      node_chunk sh_tbc nodei njobs :: node_chunks n_total_jobs nnodes sh_tbc rest njobs
  end.

(** ** Unbatched drivers: [launch_cov] and [launch_cls] *)

Definition cov_comment (trs : cov_task) : string :=
  let '(a, b, c, d) := trs in "cov_" ++ a ++ "_" ++ b ++ "_" ++ c ++ "_" ++ d.

Definition cov_pyrun (input : string) (trs : cov_task) : string :=
  let '(a, b, c, d) := trs in
  "-m xcell.cls.cov " ++ input ++ " " ++ a ++ " " ++ b ++ " " ++ c ++ " " ++ d.

(** The command that [launch_cov] hands to [os.system] for one task. *)
Definition cov_submission (data : Data) (a : Args) (trs : cov_task) : string :=
  get_pyexec (cov_comment trs) a (mem a) (output data) false None
    ++ " " ++ cov_pyrun (INPUT a) trs.

(** The loop of [launch_cov]; [qjobs] is the snapshot of the queue taken
    before the loop (the empty string away from the cluster head node). *)
Fixpoint launch_cov_loop (data : Data) (a : Args) (qjobs : string) (njobs : Z)
    (skip : list string) (tasks : list cov_task) (c : Z) : IO Z :=
  match tasks with
  | [] => ret c
  | trs :: rest =>
      let comment := cov_comment trs in
      if c >=? njobs then ret c                                     (* break *)
      else if Py.str_in comment qjobs then
        launch_cov_loop data a qjobs njobs skip rest c
      else
        skipped <~ consult_skip data skip (cov_task_trs trs) ;;
        if skipped then launch_cov_loop data a qjobs njobs skip rest c
        else
          let fname := Py.os_path_join (output data) ["cov"; comment ++ ".npz"] in
          let recompute := recompute_cov data || recompute_cmcm data in
          present <~ os_path_isfile fname ;;
          if present && negb recompute then
            launch_cov_loop data a qjobs njobs skip rest c
          else
            pyexec <~ call_get_pyexec comment a (mem a) (output data) false None ;;
            os_system (pyexec ++ " " ++ cov_pyrun (INPUT a) trs) ;;;
            launch_cov_loop data a qjobs njobs skip rest (c + 1)
  end.

(** [launch_cov]; the Python function returns nothing, the final value of
    its counter [c] is kept here. *)
Definition launch_cov (data : Data) (a : Args) (qjobs : string) (njobs : Z)
    (skip : list string) : IO Z :=
  launch_cov_loop data a qjobs njobs skip (cov_tracers data) 0.

Definition cl_comment (t : cl_task) : string :=
  let '(tr1, tr2) := t in "cl_" ++ tr1 ++ "_" ++ tr2.

Definition cls_outdir (data : Data) (fiducial : bool) : string :=
  if fiducial then Py.os_path_join (output data) ["fiducial"] else output data.

(** The command that [launch_cls] hands to [os.system] for one task. *)
Definition cl_submission (data : Data) (a : Args) (fiducial : bool) (t : cl_task)
    : string :=
  let '(tr1, tr2) := t in
  let outdir := cls_outdir data fiducial in
  if negb fiducial then
    get_pyexec (cl_comment t) a (mem a) outdir false None
      ++ " " ++ ("-m xcell.cls.cl " ++ INPUT a ++ " " ++ tr1 ++ " " ++ tr2)
  else
    get_pyexec (cl_comment t) a "2" outdir false None
      ++ " " ++ ("-m xcell.cls.cl " ++ INPUT a ++ " " ++ tr1 ++ " " ++ tr2 ++ " --fiducial").

(** The arguments of the interpreter in that command. *)
Definition cl_pyrun (input : string) (fiducial : bool) (t : cl_task) : string :=
  let '(tr1, tr2) := t in
  if negb fiducial then "-m xcell.cls.cl " ++ input ++ " " ++ tr1 ++ " " ++ tr2
  else "-m xcell.cls.cl " ++ input ++ " " ++ tr1 ++ " " ++ tr2 ++ " --fiducial".

Fixpoint launch_cls_loop (data : Data) (a : Args) (qjobs : string) (njobs : Z)
    (fiducial : bool) (skip : list string) (tasks : list cl_task) (c : Z) : IO Z :=
  match tasks with
  | [] => ret c
  | t :: rest =>
      let '(tr1, tr2) := t in
      let comment := cl_comment t in
      if c >=? njobs then ret c                                     (* break *)
      else if Py.str_in comment qjobs then
        launch_cls_loop data a qjobs njobs fiducial skip rest c
      else
        skipped <~ consult_skip data skip [tr1; tr2] ;;
        if skipped then launch_cls_loop data a qjobs njobs fiducial skip rest c
        else
          let trreq := get_tracers_bare_name_pair data tr1 tr2 "_" in
          let fname := Py.os_path_join (cls_outdir data fiducial)
                         [trreq; comment ++ ".npz"] in
          let recompute := recompute_cls data || recompute_mcm data in
          present <~ os_path_isfile fname ;;
          if present && negb recompute then
            launch_cls_loop data a qjobs njobs fiducial skip rest c
          else
            pyexec <~ call_get_pyexec comment a (if fiducial then "2" else mem a)
                        (cls_outdir data fiducial) false None ;;
            os_system (pyexec ++ " " ++ cl_pyrun (INPUT a) fiducial t) ;;;
            launch_cls_loop data a qjobs njobs fiducial skip rest (c + 1)
  end.

Definition launch_cls (data : Data) (a : Args) (qjobs : string) (njobs : Z)
    (fiducial : bool) (skip : list string) : IO Z :=
  launch_cls_loop data a qjobs njobs fiducial skip (cl_tracers data) 0.

(** A task that none of the driver's three tests passes over. *)
Definition cov_eligible (data : Data) (qjobs : string) (skip : list string)
    (fs : list string) (trs : cov_task) : bool :=
  negb (Py.str_in (cov_comment trs) qjobs)
  && negb (check_skip data skip (cov_task_trs trs))
  && negb (Py.list_in (Py.os_path_join (output data) ["cov"; cov_comment trs ++ ".npz"]) fs
           && negb (recompute_cov data || recompute_cmcm data)).

Definition cl_eligible (data : Data) (qjobs : string) (fiducial : bool)
    (skip : list string) (fs : list string) (t : cl_task) : bool :=
  negb (Py.str_in (cl_comment t) qjobs)
  && negb (check_skip data skip (cl_task_trs t))
  && negb (Py.list_in
             (Py.os_path_join (cls_outdir data fiducial)
                [get_tracers_bare_name_pair data (fst t) (snd t) "_";
                 cl_comment t ++ ".npz"]) fs
           && negb (recompute_cls data || recompute_mcm data)).

(** The commands handed to [os.system], in order. *)
Fixpoint submissions (tr : list event) : list string :=
  match tr with
  | [] => []
  | System cmd :: tr' => cmd :: submissions tr'
  | _ :: tr' => submissions tr'
  end.

(** ** The generated per-group script, as bash runs it *)

Module Sh.

(** One line of a generated script.  The scripts contain no [set -e], no
    [exit], no [&&] and no conditional: bash runs the lines one after the
    other whatever their exit status. *)
Inductive cmd : Type :=
| Shebang
| Blank
| Echo (text : string)
| Rm (path : string)
| Run (line : string).

(** The text of a line, as it stands in the file. *)
Definition render (c : cmd) : string :=
  match c with
  | Shebang => "#!/bin/bash" ++ Py.nl
  | Blank => Py.nl
  | Echo text => "echo " ++ text ++ Py.nl
  | Rm path => "rm " ++ path ++ Py.nl
  | Run line => line ++ Py.nl
  end.

(** [cov_line] without its final newline. *)
Definition cov_cmd (input : string) (trs : cov_task) : string :=
  let '(a, b, c, d) := trs in
  "/usr/bin/python3 -m xcell.cls.cov " ++ input ++ " " ++ a ++ " " ++ b ++ " " ++ c
    ++ " " ++ d.

(** The lines of the script that [launch_cov_batches2] writes for a group
    whose tasks to be computed are [tasks]. *)
Definition group_cmds (cw : string) (input : string) (tasks : list cov_task)
    (remove_cwsp : bool) : list cmd :=
  List.concat
    [ [Shebang];
      flat_map (fun t => [Echo ("Running " ++ cov_cmd input t); Blank;
                          Run (cov_cmd input t)]) tasks;
      [Echo ("Removing lock file: " ++ cw ++ ".lock"); Rm (cw ++ ".lock")];
      (if remove_cwsp then [Echo ("Removing " ++ cw); Rm cw] else []);
      [Echo ("Finished running "
             ++ last (map (cov_cmd input) tasks) ""); Blank; Blank] ].

Fixpoint remove_path (path : string) (fs : list string) : list string :=
  match fs with
  | [] => []
  | p :: fs' => if (p =? path)%string then remove_path path fs'
                else p :: remove_path path fs'
  end.

(** The lines are written into the script without quotes, so bash splits
    them into words at spaces and gives a meaning of its own to many
    characters.  The characters that it takes literally inside a word:
    letters, digits and [_ - . / :]. *)
Definition word_char (c : ascii) : bool :=
  let n := nat_of_ascii c in
  ((48 <=? n) && (n <=? 57) || (65 <=? n) && (n <=? 90) || (97 <=? n) && (n <=? 122)
   || (n =? 95) || (n =? 45) || (n =? 46) || (n =? 47) || (n =? 58))%nat.

Fixpoint all_chars (p : ascii -> bool) (s : string) : bool :=
  match s with
  | EmptyString => true
  | String c s' => p c && all_chars p s'
  end.

Definition first_char_is (c : ascii) (s : string) : bool :=
  match s with
  | EmptyString => false
  | String x _ => Ascii.eqb x c
  end.

(** A text that bash reads as plain words separated by spaces. *)
Definition plain_words (s : string) : bool :=
  all_chars (fun c => word_char c || Ascii.eqb c " ") s.

(** A text that bash reads as one plain word, and that a command does not
    take for an option. *)
Definition plain_word (s : string) : bool :=
  negb (s =? "")%string && all_chars word_char s && negb (first_char_is "-" s).

(** The words of a line of plain words. *)
Fixpoint words_from (s acc : string) : list string :=
  match s with
  | EmptyString => if (acc =? "")%string then [] else [acc]
  | String c s' =>
      if Ascii.eqb c " " then
        (if (acc =? "")%string then [] else [acc]) ++ words_from s' EmptyString
      else words_from s' (acc ++ String c EmptyString)
  end.

Definition words (s : string) : list string := words_from s EmptyString.

(** What an external command does when it is run on the files [fs]: it
    exits, with the files it leaves and its status, or it never gives the
    control back to the shell: the job is killed while it runs (out of
    memory, out of time, a node going down) and the shell of the script dies
    with it.  Nothing else is assumed about it. *)
Inductive outcome : Type :=
| Exited (fs : list string) (status : Z)
| ShellKilled (fs : list string).

Definition process : Type := string -> list string -> outcome.

(** Where the run of a script stands: the shell goes on to the next line,
    the shell has been killed, or a line was met whose meaning for bash is
    not described here (a character outside plain words, an option). *)
Inductive run_state : Type :=
| Running (fs : list string)
| Killed (fs : list string)
| Unmodelled.

(** One line, run by bash on the files [fs].  [rm] removes each of its
    words that is a file: a path with a space in it is not removed, its
    pieces are.  A command line is handed to the program only when its first
    word is an absolute path.  The exit status of a line is never looked
    at. *)
Definition exec (run : process) (c : cmd) (fs : list string) : run_state :=
  match c with
  | Shebang | Blank => Running fs
  | Echo text => if plain_words text then Running fs else Unmodelled
  | Rm path =>
      if plain_words path && negb (existsb (first_char_is "-") (words path)) then
        Running (fold_left (fun fs p => remove_path p fs) (words path) fs)
      else Unmodelled
  | Run line =>
      if plain_words line && first_char_is "/" line then
        match run line fs with
        | Exited fs' _ => Running fs'
        | ShellKilled fs' => Killed fs'
        end
      else Unmodelled
  end.

(** The lines one after the other, for as long as the shell runs. *)
Fixpoint exec_all (run : process) (script : list cmd) (st : run_state) : run_state :=
  match script, st with
  | c :: rest, Running fs => exec_all run rest (exec run c fs)
  | _, _ => st
  end.

(** The last line of a script that is not blank. *)
Definition final_step (script : list cmd) : option cmd :=
  last (map Some (filter (fun c => match c with Blank => false | _ => true end)
                         script)) None.

Definition is_rm (path : string) (c : cmd) : bool :=
  match c with
  | Rm p => (p =? path)%string
  | _ => false
  end.

Definition is_run (c : cmd) : bool :=
  match c with
  | Run _ => true
  | _ => false
  end.

End Sh.

(** ** Workspace files: [save_wsp] and [read_wsp] of [xcell/cls/tools.py] *)

Module Tools.

(** What one call of [wsp.write_to] or [wsp.read_from] does: it returns, or
    it raises; a write that raises may leave a (partial) file behind. *)
Inductive outcome : Type :=
| Returns
| Raises (e : exn) (leaves_file : bool).

(** The workspace object: the outcome of its [k]-th call of each method. *)
Record Workspace : Type := {
  write_to : nat -> outcome;
  read_from : nat -> outcome
}.

Record state : Type := {
  files : list string;   (* the regular files that exist *)
  writes : nat;          (* calls of wsp.write_to so far *)
  reads : nat            (* calls of wsp.read_from so far *)
}.

Definition M (A : Type) : Type := state -> result A * state.

Definition isfile (fname : string) (s : state) : bool :=
  Py.list_in fname (files s).

Definition add_file (fname : string) (fs : list string) : list string :=
  if Py.list_in fname fs then fs else (fs ++ [fname])%list.

Definition call_write_to (wsp : Workspace) (fname : string) : M unit :=
  fun s =>
    match write_to wsp (writes s) with
    | Returns =>
        (Ok tt, {| files := add_file fname (files s);
                   writes := S (writes s); reads := reads s |})
    | Raises e leaves =>
        (Raise e, {| files := if leaves then add_file fname (files s) else files s;
                     writes := S (writes s); reads := reads s |})
    end.

Definition call_read_from (wsp : Workspace) (fname : string)
    (read_unbinned_MCM : bool) : M unit :=
  fun s =>
    let s' := {| files := files s; writes := writes s; reads := S (reads s) |} in
    match read_from wsp (reads s) with
    | Returns => (Ok tt, s')
    | Raises e _ => (Raise e, s')
    end.

(** [os.remove(fname)]. *)
Definition os_remove (fname : string) : M unit :=
  fun s =>
    if isfile fname s then
      (Ok tt, {| files := Sh.remove_path fname (files s);
                 writes := writes s; reads := reads s |})
    else (Raise (FileNotFoundError fname), s).

Definition save_wsp (wsp : Workspace) (fname : string) : M unit :=
  fun s =>
    if isfile fname s then (Ok tt, s)
    else
      match call_write_to wsp fname s with
      | (Raise (RuntimeError msg), s1) =>            (* except RuntimeError as e *)
          if Py.str_in "Error writing" msg then
            match os_remove fname s1 with
            | (Ok _, s2) => call_write_to wsp fname s2
            | (Raise e', s2) => (Raise e', s2)
            end
          else (Raise (RuntimeError msg), s1)
      | r => r
      end.

Definition read_wsp (wsp : Workspace) (fname : string) (read_unbinned_MCM : bool)
    : M unit :=
  fun s =>
    match call_read_from wsp fname read_unbinned_MCM s with
    | (Raise (RuntimeError msg), s1) =>              (* except RuntimeError as e *)
        if Py.str_in "Error reading" msg then
          match os_remove fname s1 with
          | (Ok _, s2) => (Raise (RuntimeError msg), s2)
          | (Raise e', s2) => (Raise e', s2)
          end
        else (Raise (RuntimeError msg), s1)
    | r => r
    end.

End Tools.

(** ** Batched covariance launcher without locks: [launch_cov_batches] *)





(** ** Beams of a mapper: [MapperBase.get_beam] *)

Module Mapper.

(** The numerical side is outside this development: the arrays, their
    product, and the factor that each kind of beam contributes are taken as
    given.  A factor may raise (a missing key of [info], for instance). *)
Record Numerics : Type := {
  array : Type;
  ones : Z -> array;                         (* np.ones(n) *)
  mul : array -> array -> array;             (* self.beam *= b *)
  info : Type;                               (* one entry of beam_info *)
  info_type : info -> result string;         (* info['type'] *)
  gaussian : Z -> info -> result array;      (* the normalised Gaussian, for nside *)
  pixwin : Z -> info -> result array;        (* the pixel window, for nside *)
  custom : info -> result array              (* self._get_custom_beam(info) *)
}.

Inductive beam_exn : Type :=
| NotImplementedError (msg : string)
| FromFactor (e : exn).

Inductive outcome (A : Type) : Type :=
| Returned (a : A)
| Raised (e : beam_exn).
Arguments Returned {A} a.
Arguments Raised {A} e.

Definition lift {A : Type} (r : result A) : outcome A :=
  match r with
  | Ok a => Returned a
  | Raise e => Raised (FromFactor e)
  end.

(** [_get_custom_beam] of the base class. *)
Definition base_custom {I A : Type} (i : I) : result A :=
  Raise (ValueError "This mapper does not support custom beams").

(** The factor [b] that one entry of [beam_info] contributes. *)
Definition factor (N : Numerics) (nside : Z) (i : info N) : outcome (array N) :=
  match info_type N i with
  | Raise e => Raised (FromFactor e)
  | Ok ty =>
      if (ty =? "Gaussian")%string then lift (gaussian N nside i)
      else if (ty =? "PixWin")%string then lift (pixwin N nside i)
      else if (ty =? "Custom")%string then lift (custom N i)
      else Raised (NotImplementedError "Unknown beam type.")
  end.

(** The loop [for info in self.beam_info], on the array [self.beam], which
    is updated in place: when an entry raises, the array keeps the factors
    multiplied in so far. *)
Fixpoint beam_loop (N : Numerics) (nside : Z) (beam_info : list (info N))
    (beam : array N) : outcome unit * array N :=
  match beam_info with
  | [] => (Returned tt, beam)
  | i :: rest =>
      match factor N nside i with
      | Returned b => beam_loop N nside rest (mul N beam b)
      | Raised e => (Raised e, beam)
      end
  end.

(** The attributes of the mapper that [get_beam] reads and writes. *)
Record state (N : Numerics) : Type := {
  nside : Z;
  beam_info : list (info N);
  beam : option (array N)                    (* self.beam *)
}.
Arguments nside {N} s.
Arguments beam_info {N} s.
Arguments beam {N} s.

Definition get_beam (N : Numerics) (s : state N) : outcome (array N) * state N :=
  match beam s with
  | Some b => (Returned b, s)
  | None =>
      let '(r, b) := beam_loop N (nside s) (beam_info s) (ones N (3 * nside s)) in
      let s' := {| nside := nside s; beam_info := beam_info s; beam := Some b |} in
      match r with
      | Returned _ => (Returned b, s')
      | Raised e => (Raised e, s')
      end
  end.

(** A stand-in for the numerics, with numbers for arrays: the Gaussian
    factor is 2, the pixel window 3, and custom beams are not supported. *)
Definition toy : Numerics :=
  {| array := Z; ones := fun _ => 1; mul := Z.mul;
     info := string; info_type := fun i => Ok i;
     gaussian := fun _ _ => Ok 2; pixwin := fun _ _ => Ok 3;
     custom := base_custom |}.

End Mapper.

(** ** Auxiliary notions used in the statements *)

(** A task whose tracer names are plain words for bash. *)
Definition task_plain (t : cov_task) : bool :=
  forallb Sh.plain_words (cov_task_trs t).

(** A name without a slash. *)
Fixpoint no_slash (s : string) : bool :=
  match s with
  | EmptyString => true
  | String c s' => negb (Ascii.eqb c "/") && no_slash s'
  end.

(** The content of a file after the chunks have been written to it. *)
Definition file_text (chunks : list string) : string :=
  fold_right String.append "" chunks.

(** A mask name that cannot be confused with the [__] separator of the
    workspace file name: it contains no [__] and does not end with [_]. *)
Definition mask_clean (m : string) : bool :=
  negb (Py.str_in "__" m) && negb (Py.endswith "_" m).

(** The tasks of a list whose workspace path is [k]. *)
Definition has_fname (data : Data) (k : string) (t : cov_task) : bool :=
  match cwsp_fname data t with
  | Ok f => (f =? k)%string
  | Raise _ => false
  end.

(** A task whose output is there and need not be computed again. *)
Definition task_done (data : Data) (fs : list string) (t : cov_task) : bool :=
  Py.list_in (cov_npz (output data) t) fs
  && negb (recompute_cov data || recompute_cmcm data).

(** A task that is neither done nor excluded by the skip list. *)
Definition task_survives (data : Data) (skip : list string) (fs : list string)
    (t : cov_task) : bool :=
  negb (task_done data fs t) && negb (check_skip data skip (cov_task_trs t)).

(** What the inner loop consults for one task: its output file and, unless
    the task is done, the skip list. *)
Definition task_probes (data : Data) (skip : list string) (fs : list string)
    (t : cov_task) : list event :=
  IsFile (cov_npz (output data) t) (Py.list_in (cov_npz (output data) t) fs)
  :: (if task_done data fs t then []
      else [ConsultSkip (cov_task_trs t) (check_skip data skip (cov_task_trs t))]).

(** The order of consultation that puts the output file before the lock:
    whenever the lock is looked at, the output of every task of the group
    has been looked at before. *)
Definition output_consulted_before_lock (lock : string) (outputs : list string)
    (tr : list event) : Prop :=
  forall pre b post, tr = (pre ++ IsFile lock b :: post)%list ->
  forall o, In o outputs -> exists b', In (IsFile o b') pre.

(** The files written, in order, with their chunks. *)
Fixpoint written (tr : list event) : list (string * list string) :=
  match tr with
  | [] => []
  | WriteFile path chunks :: tr' => (path, chunks) :: written tr'
  | _ :: tr' => written tr'
  end.

(** A group that a pass of the launcher does not dispatch: its lock is
    there, or none of its tasks is left to compute. *)
Definition group_settled (data : Data) (skip : list string) (fs : list string)
    (g : string * list cov_task) : Prop :=
  Py.list_in (fst g ++ ".lock") fs = true
  \/ filter (task_survives data skip fs) (snd g) = [].

(** The two files written for a dispatched group [d] (its workspace path and
    the chunks of its script): the lock, then the script. *)
Definition lock_and_script (outdir_batches : string) (d : string * list string)
    : list (string * list string) :=
  [(fst d ++ ".lock", [""]); (group_sh_name outdir_batches (fst d), snd d)].

(** ** Sample configurations *)

Module Sample.

(** The part of an identifier before its first [__]. *)
Fixpoint before_sep (s : string) : string :=
  match s with
  | EmptyString => EmptyString
  | String c s' => if String.prefix "__" s then EmptyString
                   else String c (before_sep s')
  end.

Definition lookup (table : list (string * string)) (k : string) : option string :=
  option_map snd (find (fun kv => (fst kv =? k)%string) table).

(** A configuration with output directory [out], nothing forced, the given
    masks per tracer (spin 0 for all), and the given covariance tasks. *)
Definition config (masks : list (string * string))
    (cov_wsp cov_nowsp : list cov_task) : Data :=
  {| output := "out";
     recompute_cls := false; recompute_mcm := false;
     recompute_cov := false; recompute_cmcm := false;
     has_tracer := fun tr => match lookup masks tr with Some _ => true | None => false end;
     mask_name := lookup masks;
     get_mapper_spin := fun _ => Ok 0;
     get_tracer_bare_name := before_sep;
     get_tracers_bare_name_pair :=
       fun tr1 tr2 sep => before_sep tr1 ++ sep ++ before_sep tr2;
     get_cl_trs_names := fun _ => [];
     get_cov_trs_names := fun wsp => if wsp then cov_wsp else cov_nowsp |}.

(** Two tracers with different masks, and the two covariance tasks
    (A,B,A,B) and (B,A,B,A). *)
Definition permuted : Data :=
  config [("A", "mA"); ("B", "mB")] [("A", "B", "A", "B")] [("B", "A", "B", "A")].

(** The same two tasks as [permuted], listed under the other partitions. *)
Definition permuted_swapped : Data :=
  config [("A", "mA"); ("B", "mB")] [("B", "A", "B", "A")] [("A", "B", "A", "B")].

(** Mask names that contain the separator. *)
Definition colliding : Data :=
  config [("G1", "gal__north"); ("K", "kappa"); ("G2", "gal"); ("N", "north__kappa")]
         [("G1", "K", "G1", "K"); ("G2", "N", "G2", "N")] [].

(** Two tracers on one mask: two tasks that share a workspace. *)
Definition shared : Data :=
  config [("A", "mA"); ("A2", "mA"); ("B", "mB")]
         [("A", "B", "A", "B")] [("A2", "B", "A2", "B")].

(** Four groups, one task each, on masks without separator. *)
Definition four_groups : Data :=
  config [("A", "mA"); ("B", "mB"); ("C", "mC"); ("D", "mD")]
         [("A", "A", "A", "A"); ("B", "B", "B", "B");
          ("C", "C", "C", "C"); ("D", "D", "D", "D")] [].

(** A configuration with the 2-tracer tasks [cls] added. *)
Definition with_cls (d : Data) (cls : list cl_task) : Data :=
  {| output := output d;
     recompute_cls := recompute_cls d; recompute_mcm := recompute_mcm d;
     recompute_cov := recompute_cov d; recompute_cmcm := recompute_cmcm d;
     has_tracer := has_tracer d;
     mask_name := mask_name d;
     get_mapper_spin := get_mapper_spin d;
     get_tracer_bare_name := get_tracer_bare_name d;
     get_tracers_bare_name_pair := get_tracers_bare_name_pair d;
     get_cl_trs_names := fun wsp => if wsp then cls else [];
     get_cov_trs_names := get_cov_trs_names d |}.

Definition args : Args :=
  {| INPUT := "data.yml"; queue := "berg"; nc := 28; mem := "7.0"; onlogin := false |}.

Definition clock : Clock :=
  {| timestamp := "20240101000000"; fmt_days := fun _ => "0.0" |}.

(** An output tree whose directories exist and that holds no file yet. *)
Definition empty_world : world :=
  {| files := []; dirs := ["out"; "out/cov"; "out/run_batches"]; trace := [] |}.

End Sample.

(** * Properties *)

(** ** Resource estimator *)

Section Estimator.
Variable data : Data.

Lemma get_mem_loop_shift (d : list (Z * Z)) (trs : list string) (m : Z) :
  get_mem_loop data d trs m = (r <- get_mem_loop data d trs 0 ;; Ok (m + r)).
Proof.
  revert m. induction trs as [|tr rest IH]; intros m; simpl.
  - f_equal. lia.
  - destruct (get_mapper_spin data tr) as [s|e]; simpl; [|reflexivity].
    destruct (dict_get d s) as [c|e]; simpl; [|reflexivity].
    rewrite (IH (m + c)), (IH c).
    destruct (get_mem_loop data d rest 0) as [r|e]; simpl; [|reflexivity].
    f_equal. lia.
Qed.

Lemma get_mem_loop_app (d : list (Z * Z)) (l1 l2 : list string) (m : Z) :
  get_mem_loop data d (l1 ++ l2)%list m =
  (a <- get_mem_loop data d l1 m ;; get_mem_loop data d l2 a).
Proof.
  revert m. induction l1 as [|tr rest IH]; intros m; simpl; [reflexivity|].
  destruct (get_mapper_spin data tr) as [s|e]; simpl; [|reflexivity].
  destruct (dict_get d s) as [c|e]; simpl; [|reflexivity].
  apply IH.
Qed.

(** Each spin that the [cls] table knows, the [cov] table knows too, at a
    cost that is not smaller; a spin unknown to one is unknown to both. *)
Lemma table_cls_le_cov (s : Z) :
  match dict_get [(0, 16); (2, 25)] s, dict_get [(0, 16); (2, 47)] s with
  | Ok a, Ok b => a <= b
  | Raise e1, Raise e2 => e1 = e2
  | _, _ => False
  end.
Proof.
  simpl. destruct (s =? 0); [lia|]. destruct (s =? 2); [lia|reflexivity].
Qed.

Lemma get_mem_loop_cls_le_cov (trs : list string) (m1 m2 : Z) :
  m1 <= m2 ->
  match get_mem_loop data [(0, 16); (2, 25)] trs m1,
        get_mem_loop data [(0, 16); (2, 47)] trs m2 with
  | Ok a, Ok b => a <= b
  | Raise e1, Raise e2 => e1 = e2
  | _, _ => False
  end.
Proof.
  revert m1 m2. induction trs as [|tr rest IH]; intros m1 m2 Hle.
  - exact Hle.
  - cbn [get_mem_loop].
    destruct (get_mapper_spin data tr) as [s|e]; [|reflexivity].
    cbn [bind].
    pose proof (table_cls_le_cov s) as Ht.
    destruct (dict_get [(0, 16); (2, 25)] s) as [c1|e1],
             (dict_get [(0, 16); (2, 47)] s) as [c2|e2];
      cbn [bind]; try contradiction; [|exact Ht].
    apply IH. lia.
Qed.
End Estimator.

(** C9. [get_mem] is additive over the tracers of a fixed mode: the memory of
    two tracer lists put together is the sum of their memories (and raises
    what the first failing part raises); and on one tracer list the [cls]
    total is at most the [cov] total, both modes failing together. *)
Theorem get_mem_additive_and_cls_le_cov (data : Data) (A B : list string)
    (compute : string) :
  get_mem data (A ++ B)%list compute =
    (a <- get_mem data A compute ;; b <- get_mem data B compute ;; Ok (a + b))
  /\ match get_mem data A "cls", get_mem data A "cov" with
     | Ok mcls, Ok mcov => mcls <= mcov
     | Raise e1, Raise e2 => e1 = e2
     | _, _ => False
     end.
Proof.
  split.
  - unfold get_mem. destruct (mem_table compute) as [d|e]; simpl; [|reflexivity].
    rewrite get_mem_loop_app.
    destruct (get_mem_loop data d A 0) as [a|e]; simpl; [|reflexivity].
    apply get_mem_loop_shift.
  - unfold get_mem. simpl. apply get_mem_loop_cls_le_cov. lia.
Qed.

(** ** Skip list *)

Lemma list_in_iff (x : string) (l : list string) :
  Py.list_in x l = true <-> In x l.
Proof.
  unfold Py.list_in. rewrite existsb_exists. split.
  - intros [y [Hy He]]. apply String.eqb_eq in He. subst. exact Hy.
  - intros H. exists x. split; [exact H|apply String.eqb_refl].
Qed.

Lemma list_in_false_iff (x : string) (l : list string) :
  Py.list_in x l = false <-> ~ In x l.
Proof.
  rewrite <- list_in_iff. destruct (Py.list_in x l); split; congruence.
Qed.

(** C8. [check_skip] answers [True] exactly when one of the task's tracers is
    in the skip list under its full identifier or under its bare name; for a
    single tracer, exactly when its identifier or its bare name is listed. *)
Theorem check_skip_iff (data : Data) (skip : list string) :
  (forall trs : list string,
     check_skip data skip trs = true <->
     exists tr, In tr trs /\ (In tr skip \/ In (get_tracer_bare_name data tr) skip))
  /\ (forall tr : string,
        check_skip data skip [tr] = true <->
        In tr skip \/ In (get_tracer_bare_name data tr) skip).
Proof.
  assert (Hgen : forall trs : list string,
     check_skip data skip trs = true <->
     exists tr, In tr trs /\ (In tr skip \/ In (get_tracer_bare_name data tr) skip)).
  { induction trs as [|tr rest IH]; simpl.
    - split; [discriminate|]. intros [tr [[] _]].
    - destruct (Py.list_in tr skip) eqn:E1.
      + split; [|reflexivity]. intros _. exists tr. split; [now left|].
        left. now apply list_in_iff.
      + destruct (Py.list_in (get_tracer_bare_name data tr) skip) eqn:E2.
        * split; [|reflexivity]. intros _. exists tr. split; [now left|].
          right. now apply list_in_iff.
        * rewrite IH. split.
          -- intros [x [Hx Hs]]. exists x. split; [now right|exact Hs].
          -- intros [x [[Hx|Hx] Hs]].
             ++ subst x. apply list_in_false_iff in E1, E2. tauto.
             ++ exists x. split; assumption. }
  split; [exact Hgen|].
  intros tr. rewrite Hgen. split.
  - intros [x [[Hx|[]] Hs]]. subst x. exact Hs.
  - intros Hs. exists tr. split; [now left|exact Hs].
Qed.

(** ** Workspace files *)

Lemma remove_path_not_in (path : string) (fs : list string) :
  Py.list_in path (Sh.remove_path path fs) = false.
Proof.
  induction fs as [|p fs IH]; simpl; [reflexivity|].
  destruct (String.eqb_spec p path) as [->|Hne]; [exact IH|].
  simpl. rewrite IH.
  destruct (String.eqb_spec path p) as [->|_]; [contradiction|reflexivity].
Qed.

Lemma remove_path_absent (path : string) (fs : list string) :
  Py.list_in path fs = false -> Sh.remove_path path fs = fs.
Proof.
  induction fs as [|p fs IH]; simpl; [reflexivity|].
  intros H. apply orb_false_iff in H. destruct H as [Hp Hfs].
  rewrite String.eqb_sym in Hp. rewrite Hp, (IH Hfs). reflexivity.
Qed.

Lemma remove_path_added (path : string) (fs : list string) :
  Py.list_in path fs = false ->
  Sh.remove_path path (Tools.add_file path fs) = fs.
Proof.
  intros H. unfold Tools.add_file. rewrite H.
  induction fs as [|p fs IH]; simpl.
  - now rewrite String.eqb_refl.
  - simpl in H. apply orb_false_iff in H. destruct H as [Hp Hfs].
    rewrite String.eqb_sym in Hp. rewrite Hp, (IH Hfs). reflexivity.
Qed.

Lemma list_in_add_file (path : string) (fs : list string) :
  Py.list_in path (Tools.add_file path fs) = true.
Proof.
  unfold Tools.add_file. destruct (Py.list_in path fs) eqn:E; [exact E|].
  unfold Py.list_in. rewrite existsb_app. simpl.
  rewrite String.eqb_refl. now rewrite orb_true_r.
Qed.

(** C10. When a file already exists at the target path, [save_wsp] returns at
    once: [write_to] is not called and the files are left as they are. *)
Theorem save_wsp_existing_file_untouched (wsp : Tools.Workspace) (fname : string)
    (s : Tools.state) :
  Tools.isfile fname s = true ->
  Tools.save_wsp wsp fname s = (Ok tt, s).
Proof.
  intros H. unfold Tools.save_wsp. rewrite H. reflexivity.
Qed.

(** A workspace whose every write would fail: it is not consulted when the
    file is there. *)
Lemma save_wsp_existing_file_untouched_witness :
  let wsp := {| Tools.write_to := fun _ => Tools.Raises (RuntimeError "Error writing") true;
                Tools.read_from := fun _ => Tools.Returns |} in
  let s := {| Tools.files := ["out/cov/cw__mA__mB__mA__mB.fits"];
              Tools.writes := 0; Tools.reads := 0 |} in
  Tools.isfile "out/cov/cw__mA__mB__mA__mB.fits" s = true
  /\ Tools.save_wsp wsp "out/cov/cw__mA__mB__mA__mB.fits" s = (Ok tt, s).
Proof.
  split; [reflexivity|].
  apply save_wsp_existing_file_untouched. reflexivity.
Defined.

(** C5, as stated, fails for reads: a read that fails with the recognised
    signal is not tried again, although a second call would have returned. *)
Lemma read_wsp_is_not_retried :
  let wsp := {| Tools.write_to := fun _ => Tools.Returns;
                Tools.read_from := fun k =>
                  match k with
                  | O => Tools.Raises (RuntimeError "Error reading workspace") false
                  | S _ => Tools.Returns
                  end |} in
  let s := {| Tools.files := ["out/cov/cw__mA__mB__mA__mB.fits"];
              Tools.writes := 0; Tools.reads := 0 |} in
  Tools.read_from wsp 1 = Tools.Returns
  /\ Tools.read_wsp wsp "out/cov/cw__mA__mB__mA__mB.fits" false s =
     (Raise (RuntimeError "Error reading workspace"),
      {| Tools.files := []; Tools.writes := 0; Tools.reads := 1 |}).
Proof.
  split; reflexivity.
Qed.

(** C5, amended. A write that fails with ['Error writing'] and leaves a file
    behind has that file deleted and is tried once more, the outcome of the
    second call (success or exception) being the outcome of [save_wsp].  A
    read that fails with ['Error reading'] is never tried again: after the
    one call of [read_from], when the artifact exists it is deleted and the
    same exception is raised again; when no such file exists, [os.remove]
    raises [FileNotFoundError] and that exception reaches the caller
    instead. *)
Theorem corrupt_write_retried_once_corrupt_read_reraised
    (wsp : Tools.Workspace) (fname : string) (mcm : bool)
    (sw sr : Tools.state) (wmsg rmsg : string) (left_behind : bool) :
  Tools.isfile fname sw = false ->
  Tools.write_to wsp (Tools.writes sw) = Tools.Raises (RuntimeError wmsg) true ->
  Py.str_in "Error writing" wmsg = true ->
  Tools.read_from wsp (Tools.reads sr) = Tools.Raises (RuntimeError rmsg) left_behind ->
  Py.str_in "Error reading" rmsg = true ->
  let retry := {| Tools.files := Tools.files sw;
                  Tools.writes := S (Tools.writes sw);
                  Tools.reads := Tools.reads sw |} in
  Tools.save_wsp wsp fname sw = Tools.call_write_to wsp fname retry
  /\ Tools.writes (snd (Tools.save_wsp wsp fname sw)) = S (S (Tools.writes sw))
  /\ fst (Tools.save_wsp wsp fname sw) =
       match Tools.write_to wsp (S (Tools.writes sw)) with
       | Tools.Returns => Ok tt
       | Tools.Raises e _ => Raise e
       end
  /\ Tools.read_wsp wsp fname mcm sr =
       (if Tools.isfile fname sr then
          (Raise (RuntimeError rmsg),
           {| Tools.files := Sh.remove_path fname (Tools.files sr);
              Tools.writes := Tools.writes sr;
              Tools.reads := S (Tools.reads sr) |})
        else
          (Raise (FileNotFoundError fname),
           {| Tools.files := Tools.files sr;
              Tools.writes := Tools.writes sr;
              Tools.reads := S (Tools.reads sr) |})).
Proof.
  intros Habsent Hw Hwm Hr Hrm retry.
  assert (Hsave : Tools.save_wsp wsp fname sw = Tools.call_write_to wsp fname retry).
  { unfold Tools.save_wsp. rewrite Habsent.
    unfold Tools.call_write_to at 1. rewrite Hw, Hwm.
    unfold Tools.os_remove, Tools.isfile. cbn [Tools.files Tools.writes Tools.reads].
    rewrite list_in_add_file.
    unfold Tools.isfile in Habsent. rewrite (remove_path_added _ _ Habsent).
    reflexivity. }
  rewrite Hsave. repeat split.
  - unfold Tools.call_write_to, retry. cbn [Tools.writes].
    destruct (Tools.write_to wsp (S (Tools.writes sw))); reflexivity.
  - unfold Tools.call_write_to, retry. cbn [Tools.writes].
    destruct (Tools.write_to wsp (S (Tools.writes sw))); reflexivity.
  - unfold Tools.read_wsp, Tools.call_read_from. rewrite Hr, Hrm.
    unfold Tools.os_remove, Tools.isfile. cbn [Tools.files Tools.writes Tools.reads].
    destruct (Py.list_in fname (Tools.files sr)); reflexivity.
Qed.

Lemma corrupt_write_retried_once_corrupt_read_reraised_witness :
  let wsp := {| Tools.write_to := fun k =>
                  match k with
                  | O => Tools.Raises (RuntimeError "Error writing workspace") true
                  | S _ => Tools.Raises (RuntimeError "Error writing workspace") true
                  end;
                Tools.read_from := fun _ =>
                  Tools.Raises (RuntimeError "Error reading workspace") false |} in
  let sw := {| Tools.files := []; Tools.writes := 0; Tools.reads := 0 |} in
  let sr := {| Tools.files := ["out/cov/cw.fits"]; Tools.writes := 0; Tools.reads := 0 |} in
  Tools.save_wsp wsp "out/cov/cw.fits" sw =
    (Raise (RuntimeError "Error writing workspace"),
     {| Tools.files := ["out/cov/cw.fits"]; Tools.writes := 2; Tools.reads := 0 |})
  /\ Tools.read_wsp wsp "out/cov/cw.fits" false sr =
    (Raise (RuntimeError "Error reading workspace"),
     {| Tools.files := []; Tools.writes := 0; Tools.reads := 1 |})
  /\ Tools.read_wsp wsp "out/cov/cw.fits" false sw =
    (Raise (FileNotFoundError "out/cov/cw.fits"),
     {| Tools.files := []; Tools.writes := 0; Tools.reads := 1 |}).
Proof.
  intros wsp sw sr.
  destruct (corrupt_write_retried_once_corrupt_read_reraised wsp "out/cov/cw.fits"
              false sw sr "Error writing workspace" "Error reading workspace" false)
    as [Hs [_ [_ Hr]]]; try reflexivity.
  destruct (corrupt_write_retried_once_corrupt_read_reraised wsp "out/cov/cw.fits"
              false sw sw "Error writing workspace" "Error reading workspace" false)
    as [_ [_ [_ Hr']]]; try reflexivity.
  split; [rewrite Hs; reflexivity | split; [rewrite Hr | rewrite Hr']; reflexivity].
Defined.

(** ** Task lists *)

Lemma ascii_compare_refl (a : ascii) : Ascii.compare a a = Eq.
Proof. unfold Ascii.compare. apply N.compare_refl. Qed.

Lemma ascii_compare_trans (a b c : ascii) :
  Ascii.compare a b = Lt -> Ascii.compare b c = Lt -> Ascii.compare a c = Lt.
Proof.
  unfold Ascii.compare. rewrite !N.compare_lt_iff. apply N.lt_trans.
Qed.

Lemma string_compare_refl (s : string) : String.compare s s = Eq.
Proof.
  induction s as [|a s IH]; simpl; [reflexivity|].
  now rewrite ascii_compare_refl.
Qed.

Lemma string_compare_trans (s1 s2 s3 : string) :
  String.compare s1 s2 = Lt -> String.compare s2 s3 = Lt -> String.compare s1 s3 = Lt.
Proof.
  revert s2 s3. induction s1 as [|a s1 IH]; intros [|b s2] [|c s3]; simpl;
    try discriminate; try reflexivity.
  destruct (Ascii.compare a b) eqn:Eab; try discriminate;
    destruct (Ascii.compare b c) eqn:Ebc; try discriminate; intros H12 H23.
  - apply Ascii.compare_eq_iff in Eab, Ebc. subst.
    rewrite ascii_compare_refl. eapply IH; eassumption.
  - apply Ascii.compare_eq_iff in Eab. subst. now rewrite Ebc.
  - apply Ascii.compare_eq_iff in Ebc. subst. now rewrite Eab.
  - now rewrite (ascii_compare_trans _ _ _ Eab Ebc).
Qed.

Lemma row_compare_eq (r1 r2 : list string) : row_compare r1 r2 = Eq <-> r1 = r2.
Proof.
  revert r2. induction r1 as [|x r1 IH]; intros [|y r2]; simpl;
    try (split; [discriminate|discriminate]); [tauto|].
  destruct (String.compare x y) eqn:E.
  - apply String.compare_eq_iff in E. subst. rewrite IH.
    split; [intros ->; reflexivity | intros H; now inversion H].
  - split; [discriminate|]. intros H. inversion H; subst.
    rewrite string_compare_refl in E. discriminate.
  - split; [discriminate|]. intros H. inversion H; subst.
    rewrite string_compare_refl in E. discriminate.
Qed.

Lemma row_compare_antisym (r1 r2 : list string) :
  row_compare r1 r2 = CompOpp (row_compare r2 r1).
Proof.
  revert r2. induction r1 as [|x r1 IH]; intros [|y r2]; simpl; try reflexivity.
  rewrite (String.compare_antisym y x).
  destruct (String.compare x y); simpl; [apply IH|reflexivity|reflexivity].
Qed.

Lemma row_compare_trans (r1 r2 r3 : list string) :
  row_compare r1 r2 = Lt -> row_compare r2 r3 = Lt -> row_compare r1 r3 = Lt.
Proof.
  revert r2 r3. induction r1 as [|x r1 IH]; intros [|y r2] [|z r3]; simpl;
    try discriminate; try reflexivity.
  destruct (String.compare x y) eqn:Exy; try discriminate;
    destruct (String.compare y z) eqn:Eyz; try discriminate; intros H12 H23.
  - apply String.compare_eq_iff in Exy, Eyz. subst.
    rewrite string_compare_refl. eapply IH; eassumption.
  - apply String.compare_eq_iff in Exy. subst. now rewrite Eyz.
  - apply String.compare_eq_iff in Eyz. subst. now rewrite Exy.
  - now rewrite (string_compare_trans _ _ _ Exy Eyz).
Qed.

Section UniqueFacts.
Context {A : Type} (cmp : A -> A -> comparison).
Hypothesis cmp_eq : forall x y, cmp x y = Eq <-> x = y.
Hypothesis cmp_antisym : forall x y, cmp x y = CompOpp (cmp y x).
Hypothesis cmp_trans : forall x y z, cmp x y = Lt -> cmp y z = Lt -> cmp x z = Lt.

Lemma not_after_trans (x y z : A) :
  not_after cmp x y -> not_after cmp y z -> not_after cmp x z.
Proof.
  unfold not_after. intros Hxy Hyz.
  destruct (cmp x y) eqn:Exy; [| |congruence].
  - apply cmp_eq in Exy. now subst.
  - destruct (cmp y z) eqn:Eyz; [| |congruence].
    + apply cmp_eq in Eyz. subst. congruence.
    + rewrite (cmp_trans _ _ _ Exy Eyz). discriminate.
Qed.

Lemma insert_row_In (x y : A) (l : list A) :
  In y (insert_row cmp x l) <-> y = x \/ In y l.
Proof.
  induction l as [|z l IH]; simpl.
  - intuition.
  - destruct (cmp x z); simpl; try rewrite IH; intuition.
Qed.

Lemma insert_row_ascending (x : A) (l : list A) :
  ascending cmp l -> ascending cmp (insert_row cmp x l).
Proof.
  induction l as [|z l IH]; simpl.
  - intros _. split; [constructor|exact I].
  - intros [Hz Hl].
    assert (Hcase : cmp x z <> Gt ->
                    Forall (not_after cmp x) (z :: l) /\ Forall (not_after cmp z) l
                    /\ ascending cmp l).
    { intros Hxz. split; [|split; assumption].
      constructor; [exact Hxz|].
      eapply Forall_impl; [|exact Hz].
      intros w Hw. now apply (not_after_trans x z w). }
    destruct (cmp x z) eqn:Exz.
    + apply Hcase. discriminate.
    + apply Hcase. discriminate.
    + simpl. split; [|now apply IH].
      apply Forall_forall. intros w Hw. apply insert_row_In in Hw.
      destruct Hw as [->|Hw].
      * unfold not_after. rewrite cmp_antisym, Exz. discriminate.
      * rewrite Forall_forall in Hz. now apply Hz.
Qed.

Lemma sort_rows_In (y : A) (l : list A) : In y (sort_rows cmp l) <-> In y l.
Proof.
  induction l as [|x l IH]; simpl; [tauto|].
  rewrite insert_row_In, IH. intuition.
Qed.

Lemma sort_rows_ascending (l : list A) : ascending cmp (sort_rows cmp l).
Proof.
  induction l as [|x l IH]; simpl; [exact I|].
  now apply insert_row_ascending.
Qed.

Lemma drop_repeats_In (y : A) (l : list A) :
  In y (drop_repeats cmp l) <-> In y l.
Proof.
  induction l as [|x l IH]; [simpl; tauto|].
  destruct l as [|z l]; [simpl; tauto|].
  change (drop_repeats cmp (x :: z :: l))
    with (match cmp x z with
          | Eq => drop_repeats cmp (z :: l)
          | _ => x :: drop_repeats cmp (z :: l)
          end).
  destruct (cmp x z) eqn:Exz.
  - apply cmp_eq in Exz. subst z. rewrite IH. simpl. tauto.
  - simpl In at 1. rewrite IH. simpl. tauto.
  - simpl In at 1. rewrite IH. simpl. tauto.
Qed.

Lemma ascending_head_not_in (x z : A) (l : list A) :
  ascending cmp (x :: z :: l) -> cmp x z <> Eq -> ~ In x (z :: l).
Proof.
  intros [Hx [Hz _]] Hne Hin.
  destruct Hin as [->|Hin]; [apply Hne; now apply cmp_eq|].
  rewrite Forall_forall in Hz. specialize (Hz x Hin).
  inversion Hx as [|? ? Hxz _]; subst.
  unfold not_after in *.
  rewrite (cmp_antisym z x) in Hz.
  destruct (cmp x z); simpl in Hz; congruence.
Qed.

Lemma drop_repeats_NoDup (l : list A) : ascending cmp l -> NoDup (drop_repeats cmp l).
Proof.
  induction l as [|x l IH]; [intros _; constructor|].
  destruct l as [|z l]; [intros _; simpl; constructor; [tauto|constructor]|].
  intros Hasc.
  assert (Htl : ascending cmp (z :: l)) by (destruct Hasc as [_ H]; exact H).
  change (drop_repeats cmp (x :: z :: l))
    with (match cmp x z with
          | Eq => drop_repeats cmp (z :: l)
          | _ => x :: drop_repeats cmp (z :: l)
          end).
  destruct (cmp x z) eqn:Exz; [now apply IH| |].
  - constructor; [|now apply IH].
    rewrite drop_repeats_In. apply ascending_head_not_in; [exact Hasc|congruence].
  - constructor; [|now apply IH].
    rewrite drop_repeats_In. apply ascending_head_not_in; [exact Hasc|congruence].
Qed.

Lemma np_unique_In (y : A) (l : list A) : In y (np_unique cmp l) <-> In y l.
Proof. unfold np_unique. now rewrite drop_repeats_In, sort_rows_In. Qed.

Lemma np_unique_NoDup (l : list A) : NoDup (np_unique cmp l).
Proof. unfold np_unique. apply drop_repeats_NoDup, sort_rows_ascending. Qed.
End UniqueFacts.

Lemma cov_task_trs_inj (t1 t2 : cov_task) :
  cov_task_trs t1 = cov_task_trs t2 -> t1 = t2.
Proof.
  destruct t1 as [[[a b] c] d], t2 as [[[a' b'] c'] d']. simpl.
  intros H. now inversion H.
Qed.

Lemma cov_task_compare_eq (t1 t2 : cov_task) : cov_task_compare t1 t2 = Eq <-> t1 = t2.
Proof.
  unfold cov_task_compare. rewrite row_compare_eq. split.
  - apply cov_task_trs_inj.
  - now intros ->.
Qed.

Lemma cov_tracers_In (data : Data) (t : cov_task) :
  In t (cov_tracers data) <->
  In t (get_cov_trs_names data true) \/ In t (get_cov_trs_names data false).
Proof.
  unfold cov_tracers.
  rewrite (np_unique_In cov_task_compare cov_task_compare_eq), in_app_iff. tauto.
Qed.

Lemma cov_tracers_NoDup (data : Data) : NoDup (cov_tracers data).
Proof.
  unfold cov_tracers. apply np_unique_NoDup.
  - exact cov_task_compare_eq.
  - intros x y. apply row_compare_antisym.
  - intros x y z. apply row_compare_trans.
Qed.

(** C4, as stated, fails: (A,B,A,B) and (B,A,B,A) are two different rows, both
    are kept, and with different masks they fall in two workspace groups. *)
Lemma permuted_tasks_are_kept_apart :
  cov_tracers Sample.permuted = [("A", "B", "A", "B"); ("B", "A", "B", "A")]
  /\ get_jobs_with_same_cwsp Sample.permuted =
     Ok [("out/cov/cw__mA__mB__mA__mB.fits", [("A", "B", "A", "B")]);
         ("out/cov/cw__mB__mA__mB__mA.fits", [("B", "A", "B", "A")])].
Proof.
  split; vm_compute; reflexivity.
Qed.

(** C4, amended. The covariance task list merges the [wsp=True] and
    [wsp=False] partitions and removes exact duplicates only: a task is in
    the list exactly when it is in one of the partitions, with its tracers in
    the same order, and no task is listed twice. *)
Theorem cov_tracers_merges_and_drops_exact_duplicates (data : Data) :
  NoDup (cov_tracers data)
  /\ forall t : cov_task,
       In t (cov_tracers data) <->
       In t (get_cov_trs_names data true) \/ In t (get_cov_trs_names data false).
Proof.
  split; [apply cov_tracers_NoDup|apply cov_tracers_In].
Qed.

(** ** Workspace grouping *)

Lemma append_inv_head (s a b : string) : s ++ a = s ++ b -> a = b.
Proof.
  induction s as [|c s IH]; simpl; intros H; [exact H|].
  inversion H. now apply IH.
Qed.

Lemma list_ascii_of_append (a b : string) :
  list_ascii_of_string (a ++ b) = (list_ascii_of_string a ++ list_ascii_of_string b)%list.
Proof.
  induction a as [|c a IH]; simpl; [reflexivity|]. now rewrite IH.
Qed.

Lemma append_inv_tail (a b s : string) : a ++ s = b ++ s -> a = b.
Proof.
  intros H. apply (f_equal list_ascii_of_string) in H.
  rewrite !list_ascii_of_append in H. apply app_inv_tail in H.
  apply (f_equal string_of_list_ascii) in H.
  now rewrite !string_of_list_ascii_of_string in H.
Qed.

Lemma mask_clean_tail (c : ascii) (m : string) :
  mask_clean (String c m) = true -> mask_clean m = true.
Proof.
  unfold mask_clean. intros H. apply andb_true_iff in H. destruct H as [Hs He].
  apply negb_true_iff in Hs, He. apply andb_true_iff. split; apply negb_true_iff.
  - cbn [Py.str_in] in Hs.
    destruct (String.prefix "__" (String c m)); [discriminate|exact Hs].
  - destruct m as [|d m]; [reflexivity|exact He].
Qed.

(** A clean mask does not begin like the separator followed by anything. *)
Lemma mask_clean_no_sep_start (m r u : string) :
  mask_clean m = true -> m ++ "__" ++ r = "__" ++ u -> m = "".
Proof.
  intros Hc H. destruct m as [|c m]; [reflexivity|]. exfalso.
  simpl in H. inversion H as [[Hc1 H1]]. subst c.
  destruct m as [|d m].
  - vm_compute in Hc. discriminate.
  - simpl in H1. inversion H1 as [[Hd H2]]. subst d.
    unfold mask_clean in Hc. destruct m; cbn in Hc; discriminate.
Qed.

Lemma sep_inj (a a' r r' : string) :
  mask_clean a = true -> mask_clean a' = true ->
  a ++ "__" ++ r = a' ++ "__" ++ r' -> a = a' /\ r = r'.
Proof.
  revert a'. induction a as [|c a IH]; intros a' Ha Ha' H.
  - assert (Ee : a' = "") by (symmetry in H; exact (mask_clean_no_sep_start a' r' r Ha' H)).
    subst a'. simpl in H. inversion H. now split.
  - destruct a' as [|c' a'].
    + pose proof (mask_clean_no_sep_start (String c a) r r' Ha H). discriminate.
    + simpl in H. inversion H as [[Hc H1]]. subst c'.
      destruct (IH a' (mask_clean_tail _ _ Ha) (mask_clean_tail _ _ Ha') H1) as [-> ->].
      now split.
Qed.

Lemma cw_relname_inj (m1 m2 m3 m4 n1 n2 n3 n4 : string) :
  Forall (fun m => mask_clean m = true) [m1; m2; m3; n1; n2; n3] ->
  cw_relname m1 m2 m3 m4 = cw_relname n1 n2 n3 n4 ->
  (m1, m2, m3, m4) = (n1, n2, n3, n4).
Proof.
  intros Hc H.
  repeat match goal with
         | Hf : Forall _ (_ :: _) |- _ => inversion Hf; clear Hf; subst
         end.
  unfold cw_relname in H. apply (append_inv_head "cov/cw__") in H.
  apply sep_inj in H; [|assumption|assumption]. destruct H as [-> H].
  apply sep_inj in H; [|assumption|assumption]. destruct H as [-> H].
  apply sep_inj in H; [|assumption|assumption]. destruct H as [-> H].
  apply append_inv_tail in H. now subst.
Qed.

Lemma cw_path_rel_inj (data : Data) (m1 m2 m3 m4 n1 n2 n3 n4 : string) :
  cw_path data (m1, m2, m3, m4) = cw_path data (n1, n2, n3, n4) ->
  cw_relname m1 m2 m3 m4 = cw_relname n1 n2 n3 n4.
Proof.
  unfold cw_path, Py.os_path_join. cbn [fold_left]. unfold Py.join2.
  change (String.prefix "/" (cw_relname m1 m2 m3 m4)) with false.
  change (String.prefix "/" (cw_relname n1 n2 n3 n4)) with false.
  cbv iota.
  destruct ((output data =? "")%string || Py.endswith "/" (output data)).
  - apply append_inv_head.
  - intros H. apply append_inv_head in H. now apply (append_inv_head "/") in H.
Qed.

Lemma cwsp_get_add_same (cwsp : cwsp_dict) (k : string) (t : cov_task) :
  cwsp_get (cwsp_add cwsp k t) k =
  Some (match cwsp_get cwsp k with Some l => l ++ [t] | None => [t] end)%list.
Proof.
  induction cwsp as [|[k' l] cwsp IH]; simpl.
  - now rewrite String.eqb_refl.
  - destruct (String.eqb_spec k k') as [->|Hne]; simpl.
    + now rewrite String.eqb_refl.
    + destruct (String.eqb_spec k k'); [contradiction|exact IH].
Qed.

Lemma cwsp_get_add_other (cwsp : cwsp_dict) (k k' : string) (t : cov_task) :
  k' <> k -> cwsp_get (cwsp_add cwsp k t) k' = cwsp_get cwsp k'.
Proof.
  intros Hne. induction cwsp as [|[k0 l] cwsp IH]; simpl.
  - destruct (String.eqb_spec k' k); [contradiction|reflexivity].
  - destruct (String.eqb_spec k k0) as [->|Hk]; simpl.
    + destruct (String.eqb_spec k' k0); [contradiction|reflexivity].
    + destruct (String.eqb_spec k' k0); [reflexivity|exact IH].
Qed.

(** After the loop, the entry of a path holds what it held before followed
    by the tasks of that path, in task order. *)
Lemma cwsp_loop_get (data : Data) (tasks : list cov_task) (acc final : cwsp_dict)
    (k : string) :
  cwsp_loop data tasks acc = Ok final ->
  cwsp_get final k =
  match cwsp_get acc k, filter (has_fname data k) tasks with
  | o, [] => o
  | None, l => Some l
  | Some l0, l => Some (l0 ++ l)%list
  end.
Proof.
  revert acc. induction tasks as [|t rest IH]; intros acc H; simpl in H.
  - inversion H. subst. simpl. now destruct (cwsp_get final k).
  - destruct (cwsp_fname data t) as [f|e] eqn:Ef; simpl in H; [|discriminate].
    rewrite (IH _ H). cbn [filter].
    assert (Eh : has_fname data k t = (f =? k)%string)
      by (unfold has_fname; now rewrite Ef).
    rewrite Eh.
    destruct (String.eqb_spec f k) as [->|Hne].
    + rewrite cwsp_get_add_same.
      destruct (cwsp_get acc k) as [l0|]; destruct (filter (has_fname data k) rest);
        try reflexivity; now rewrite <- app_assoc.
    + rewrite cwsp_get_add_other by congruence. reflexivity.
Qed.

Lemma get_jobs_group (data : Data) (cwsp : cwsp_dict) (k : string) :
  get_jobs_with_same_cwsp data = Ok cwsp ->
  cwsp_get cwsp k =
  match filter (has_fname data k) (cov_tracers data) with
  | [] => None
  | l => Some l
  end.
Proof.
  intros H. unfold get_jobs_with_same_cwsp in H.
  rewrite (cwsp_loop_get _ _ _ _ k H). simpl.
  now destruct (filter (has_fname data k) (cov_tracers data)).
Qed.

Lemma in_group_iff (data : Data) (cwsp : cwsp_dict) (k : string) (l : list cov_task)
    (t : cov_task) :
  get_jobs_with_same_cwsp data = Ok cwsp ->
  cwsp_get cwsp k = Some l ->
  (In t l <-> In t (cov_tracers data) /\ cwsp_fname data t = Ok k).
Proof.
  intros Hj Hg. rewrite (get_jobs_group _ _ k Hj) in Hg.
  assert (El : l = filter (has_fname data k) (cov_tracers data)).
  { destruct (filter (has_fname data k) (cov_tracers data)); [discriminate|].
    now inversion Hg. }
  subst l. rewrite filter_In. unfold has_fname.
  destruct (cwsp_fname data t) as [f|e].
  - rewrite String.eqb_eq. split; intros [H1 H2]; (split; [exact H1|congruence]).
  - split; intros [_ H]; discriminate.
Qed.

Lemma group_of_task (data : Data) (cwsp : cwsp_dict) (k : string) (t : cov_task) :
  get_jobs_with_same_cwsp data = Ok cwsp ->
  In t (cov_tracers data) -> cwsp_fname data t = Ok k ->
  exists l, cwsp_get cwsp k = Some l /\ In t l.
Proof.
  intros Hj Hin Hf. rewrite (get_jobs_group _ _ k Hj).
  assert (Hm : In t (filter (has_fname data k) (cov_tracers data))).
  { apply filter_In. split; [exact Hin|]. unfold has_fname. rewrite Hf.
    apply String.eqb_refl. }
  destruct (filter (has_fname data k) (cov_tracers data)) as [|x l]; [contradiction|].
  exists (x :: l). now split.
Qed.

(** C3, as stated, fails: mask names that contain the separator give two
    tasks with different masks the same workspace path, hence one group. *)
Lemma different_masks_same_workspace :
  task_masks Sample.colliding ("G1", "K", "G1", "K")
    = Ok ("gal__north", "kappa", "gal__north", "kappa")
  /\ task_masks Sample.colliding ("G2", "N", "G2", "N")
    = Ok ("gal", "north__kappa", "gal", "north__kappa")
  /\ get_jobs_with_same_cwsp Sample.colliding =
     Ok [("out/cov/cw__gal__north__kappa__gal__north__kappa.fits",
          [("G1", "K", "G1", "K"); ("G2", "N", "G2", "N")])].
Proof.
  repeat split; vm_compute; reflexivity.
Qed.

(** C3, amended. The workspace path of a task is
    [cov/cw__{mask1}__{mask2}__{mask3}__{mask4}.fits] under the output
    directory, with the masks of its four tracers in task order, and the task
    is filed under that path and no other.  Two tasks with the same four
    masks in order are filed in the same group; two tasks filed in the same
    group have the same four masks in order provided the first three masks of
    each contain no [__] and do not end with [_]. *)
Theorem workspace_group_by_masks (data : Data) (cwsp : cwsp_dict)
    (t1 t2 : cov_task) (m1 m2 m3 m4 n1 n2 n3 n4 : string) :
  get_jobs_with_same_cwsp data = Ok cwsp ->
  In t1 (cov_tracers data) -> In t2 (cov_tracers data) ->
  task_masks data t1 = Ok (m1, m2, m3, m4) ->
  task_masks data t2 = Ok (n1, n2, n3, n4) ->
  cwsp_fname data t1 =
    Ok (Py.os_path_join (output data)
          ["cov/cw__" ++ m1 ++ "__" ++ m2 ++ "__" ++ m3 ++ "__" ++ m4 ++ ".fits"])
  /\ (forall k l, cwsp_get cwsp k = Some l -> In t1 l -> cwsp_fname data t1 = Ok k)
  /\ ((m1, m2, m3, m4) = (n1, n2, n3, n4) ->
      exists l, cwsp_get cwsp (cw_path data (m1, m2, m3, m4)) = Some l
                /\ In t1 l /\ In t2 l)
  /\ (Forall (fun m => mask_clean m = true) [m1; m2; m3; n1; n2; n3] ->
      (exists k l, cwsp_get cwsp k = Some l /\ In t1 l /\ In t2 l) ->
      (m1, m2, m3, m4) = (n1, n2, n3, n4)).
Proof.
  intros Hj Hin1 Hin2 Hm1 Hm2.
  assert (Hf1 : cwsp_fname data t1 = Ok (cw_path data (m1, m2, m3, m4)))
    by (unfold cwsp_fname; now rewrite Hm1).
  assert (Hf2 : cwsp_fname data t2 = Ok (cw_path data (n1, n2, n3, n4)))
    by (unfold cwsp_fname; now rewrite Hm2).
  split; [exact Hf1|]. split; [|split].
  - intros k l Hg Hl. now apply (in_group_iff data cwsp k l t1 Hj Hg).
  - intros Heq.
    destruct (group_of_task data cwsp _ t1 Hj Hin1 Hf1) as [l [Hg Hl]].
    exists l. split; [exact Hg|]. split; [exact Hl|].
    apply (in_group_iff data cwsp _ l t2 Hj Hg). split; [exact Hin2|].
    now rewrite Heq.
  - intros Hclean [k [l [Hg [Hl1 Hl2]]]].
    apply (in_group_iff data cwsp k l t1 Hj Hg) in Hl1.
    apply (in_group_iff data cwsp k l t2 Hj Hg) in Hl2.
    destruct Hl1 as [_ Hk1]. destruct Hl2 as [_ Hk2].
    rewrite Hf1 in Hk1. rewrite Hf2 in Hk2.
    apply cw_relname_inj; [exact Hclean|].
    apply (cw_path_rel_inj data). congruence.
Qed.

Lemma workspace_group_by_masks_witness :
  exists l,
    cwsp_get [("out/cov/cw__mA__mB__mA__mB.fits",
               [("A", "B", "A", "B"); ("A2", "B", "A2", "B")])]
             (cw_path Sample.shared ("mA", "mB", "mA", "mB")) = Some l
    /\ In ("A", "B", "A", "B") l /\ In ("A2", "B", "A2", "B") l.
Proof.
  refine (proj1 (proj2 (proj2
    (workspace_group_by_masks Sample.shared
       [("out/cov/cw__mA__mB__mA__mB.fits",
         [("A", "B", "A", "B"); ("A2", "B", "A2", "B")])]
       ("A", "B", "A", "B") ("A2", "B", "A2", "B")
       "mA" "mB" "mA" "mB" "mA" "mB" "mA" "mB" _ _ _ _ _))) eq_refl).
  - vm_compute. reflexivity.
  - vm_compute. left. reflexivity.
  - vm_compute. right. left. reflexivity.
  - vm_compute. reflexivity.
  - vm_compute. reflexivity.
Defined.

(** ** Batched launcher: the skip signals *)

Lemma covs_loop_spec (data : Data) (skip : list string) (a : Args)
    (trs_list : list cov_task) (acc : list string) (w : world) :
  covs_loop data skip a trs_list acc w =
  ((acc ++ map (cov_line (INPUT a)) (filter (task_survives data skip (files w)) trs_list))%list,
   {| files := files w; dirs := dirs w;
      trace := (trace w ++ flat_map (task_probes data skip (files w)) trs_list)%list |}).
Proof.
  revert acc w. induction trs_list as [|t rest IH]; intros acc w.
  - simpl. unfold ret. rewrite !app_nil_r. now destruct w.
  - cbn [covs_loop]. unfold bindIO, os_path_isfile.
    cbn [filter flat_map]. unfold task_survives at 1, task_probes at 1, task_done.
    destruct (Py.list_in (cov_npz (output data) t) (files w)
              && negb (recompute_cov data || recompute_cmcm data)) eqn:Edone.
    + rewrite IH. cbn [files dirs trace negb andb]. now rewrite <- app_assoc.
    + unfold consult_skip. cbn [files dirs trace negb andb].
      destruct (check_skip data skip (cov_task_trs t)) eqn:Eskip.
      * rewrite IH. cbn [files dirs trace negb]. now rewrite <- !app_assoc.
      * rewrite IH. cbn [files dirs trace negb map]. now rewrite <- !app_assoc.
Qed.

(** *** Where the scripts go: the directory that the launcher makes *)

Lemma list_in_app_l (p : string) (l1 l2 : list string) :
  Py.list_in p l1 = true -> Py.list_in p (l1 ++ l2)%list = true.
Proof.
  unfold Py.list_in. rewrite existsb_app. intros ->. reflexivity.
Qed.

Lemma add_path_keeps (p q : string) (fs : list string) :
  Py.list_in p fs = true -> Py.list_in p (add_path q fs) = true.
Proof.
  intros H. unfold add_path. destruct (Py.list_in q fs); [exact H|].
  now apply list_in_app_l.
Qed.

Lemma add_path_in (q : string) (fs : list string) :
  Py.list_in q (add_path q fs) = true.
Proof.
  unfold add_path. destruct (Py.list_in q fs) eqn:E; [exact E|].
  unfold Py.list_in. rewrite existsb_app. simpl.
  rewrite String.eqb_refl. now rewrite orb_true_r.
Qed.

Lemma no_slash_basename_from (s acc : string) :
  no_slash acc = true -> no_slash (Py.basename_from s acc) = true.
Proof.
  revert acc. induction s as [|c s IH]; intros acc Hacc; [exact Hacc|].
  cbn [Py.basename_from]. destruct (Ascii.eqb c "/") eqn:Ec.
  - now apply IH.
  - apply IH. clear IH. induction acc as [|x acc IHa].
    + cbn. now rewrite Ec.
    + cbn in *. destruct (Ascii.eqb x "/"); [discriminate|]. now apply IHa.
Qed.

Lemma no_slash_app (a b : string) :
  no_slash (a ++ b) = no_slash a && no_slash b.
Proof.
  induction a as [|c a IH]; [reflexivity|].
  cbn. destruct (Ascii.eqb c "/"); [reflexivity|exact IH].
Qed.

Lemma split_no_slash (x : string) :
  no_slash x = true -> Py.split_last_slash x = (EmptyString, x).
Proof.
  induction x as [|c x IH]; [reflexivity|].
  cbn. destruct (Ascii.eqb c "/"); [discriminate|].
  intros H. now rewrite (IH H).
Qed.

Lemma split_last_slash_app (a x : string) :
  no_slash x = true -> Py.split_last_slash (a ++ "/" ++ x) = (a ++ "/", x).
Proof.
  intros Hx. induction a as [|c a IH].
  - cbn. now rewrite (split_no_slash x Hx).
  - cbn [String.append Py.split_last_slash]. cbn [String.append] in IH. rewrite IH.
    destruct a; reflexivity.
Qed.

Lemma rstrip_slash_app_slash (s : string) :
  Py.rstrip_slash (s ++ "/") = Py.rstrip_slash s.
Proof.
  induction s as [|c s IH]; [reflexivity|].
  cbn [String.append Py.rstrip_slash]. now rewrite IH.
Qed.

Lemma rstrip_slash_noop (s : string) :
  Py.endswith "/" s = false -> Py.rstrip_slash s = s.
Proof.
  induction s as [|c s IH]; [reflexivity|].
  destruct s as [|c' s'].
  - cbn. intros ->. reflexivity.
  - intros H. change (Py.endswith "/" (String c' s') = false) in H.
    cbn [Py.rstrip_slash] in *. rewrite (IH H).
    now rewrite andb_false_r.
Qed.

Lemma endswith_app (c : ascii) (a b : string) :
  b <> EmptyString -> Py.endswith c (a ++ b) = Py.endswith c b.
Proof.
  intros Hb. induction a as [|x a IH]; [reflexivity|].
  cbn [String.append]. destruct (a ++ b) eqn:E.
  - destruct a; [cbn in E; contradiction|discriminate].
  - exact IH.
Qed.

(** The directory of a file placed in a directory [d] that is spelt without
    a final slash is [d] itself. *)
Lemma dirname_join (d x : string) :
  d <> EmptyString -> Py.endswith "/" d = false -> no_slash x = true ->
  Py.os_path_dirname (Py.os_path_join d [x]) = d.
Proof.
  intros Hd He Hx. unfold Py.os_path_join. cbn [fold_left]. unfold Py.join2.
  assert (Hp : String.prefix "/" x = false).
  { destruct x as [|c x]; [reflexivity|]. cbn [String.prefix].
    destruct (ascii_dec "/" c) as [<-|_]; [|reflexivity].
    cbn in Hx. discriminate. }
  rewrite Hp, He, orb_false_r.
  destruct (d =? "")%string eqn:Ed; [apply String.eqb_eq in Ed; contradiction|].
  unfold Py.os_path_dirname. rewrite (split_last_slash_app d x Hx). cbn [fst].
  rewrite rstrip_slash_app_slash, (rstrip_slash_noop d He), Ed. reflexivity.
Qed.

Lemma run_batches_dir (outdir : string) :
  Py.os_path_join outdir ["run_batches"] <> EmptyString
  /\ Py.endswith "/" (Py.os_path_join outdir ["run_batches"]) = false.
Proof.
  unfold Py.os_path_join. cbn [fold_left]. unfold Py.join2.
  change (String.prefix "/" "run_batches") with false. cbv iota.
  destruct ((outdir =? "")%string || Py.endswith "/" outdir).
  - split; [destruct outdir; discriminate|].
    now rewrite endswith_app by discriminate.
  - split; [destruct outdir; discriminate|].
    now rewrite endswith_app by discriminate.
Qed.

Lemma fold_add_path_keeps (p : string) (l ds : list string) :
  Py.list_in p ds = true ->
  Py.list_in p (fold_left (fun ds d => add_path d ds) l ds) = true.
Proof.
  revert ds. induction l as [|d l IH]; intros ds H; [exact H|].
  cbn [fold_left]. now apply IH, add_path_keeps.
Qed.

Lemma makedirs_makes (name : string) (w : world) :
  Py.list_in name (dirs (snd (os_makedirs name w))) = true
  /\ (forall d, Py.list_in d (dirs w) = true ->
        Py.list_in d (dirs (snd (os_makedirs name w))) = true)
  /\ files (snd (os_makedirs name w)) = files w
  /\ trace (snd (os_makedirs name w)) = trace w.
Proof.
  unfold os_makedirs. cbn [snd dirs files trace]. repeat split.
  - rewrite fold_left_app. cbn [fold_left]. apply add_path_in.
  - intros d Hd. now apply fold_add_path_keeps.
Qed.

(** Once the directory of the batch scripts exists, the script of every
    group can be opened. *)
Lemma group_script_can_be_opened (outdir cw : string) (ds : list string) :
  Py.list_in (Py.os_path_join outdir ["run_batches"]) ds = true ->
  parent_exists (group_sh_name (Py.os_path_join outdir ["run_batches"]) cw) ds = true.
Proof.
  intros Hin. unfold parent_exists, group_sh_name.
  destruct (run_batches_dir outdir) as [Hne Hend].
  rewrite dirname_join; auto.
  - rewrite Hin. apply orb_true_r.
  - rewrite no_slash_app. unfold Py.os_path_basename.
    rewrite no_slash_basename_from; reflexivity.
Qed.

Lemma group_step_cases (data : Data) (skip : list string) (a : Args)
    (remove_cwsp : bool) (outdir_batches cw : string) (trs_list : list cov_task)
    (w : world) :
  let lock := cw ++ ".lock" in
  let sh_name := group_sh_name outdir_batches cw in
  let left := filter (task_survives data skip (files w)) trs_list in
  let probes := flat_map (task_probes data skip (files w)) trs_list in
  group_step data skip a remove_cwsp outdir_batches cw trs_list w =
    (if Py.list_in lock (files w) then
       (Ok None, {| files := files w; dirs := dirs w;
                    trace := (trace w ++ [IsFile lock true])%list |})
     else
       match left with
       | [] =>
           (Ok None, {| files := files w; dirs := dirs w;
                        trace := (trace w ++ IsFile lock false :: probes)%list |})
       | _ :: _ =>
           if parent_exists lock (dirs w) then
             if parent_exists sh_name (dirs w) then
               (Ok (Some sh_name),
                {| files := add_path sh_name (add_path lock (files w));
                   dirs := dirs w;
                   trace := (trace w ++ IsFile lock false :: probes
                             ++ [WriteFile lock [""];
                                 WriteFile sh_name
                                   (group_script cw (map (cov_line (INPUT a)) left)
                                      remove_cwsp)])%list |})
             else
               (Raise (FileNotFoundError sh_name),
                {| files := add_path lock (files w); dirs := dirs w;
                   trace := (trace w ++ IsFile lock false :: probes
                             ++ [WriteFile lock [""]])%list |})
           else
             (Raise (FileNotFoundError lock),
              {| files := files w; dirs := dirs w;
                 trace := (trace w ++ IsFile lock false :: probes)%list |})
       end).
Proof.
  intros lock sh_name left probes.
  unfold group_step, bindE, liftIO, os_path_isfile. fold lock.
  destruct (Py.list_in lock (files w)) eqn:Elock; [reflexivity|].
  rewrite covs_loop_spec. cbn [files dirs trace app]. fold left. fold probes.
  destruct left as [|t l]; cbn [map].
  - unfold retE. now rewrite <- app_assoc.
  - unfold create_lock_file, write_file, retE. cbn [files dirs trace].
    fold lock. fold sh_name.
    destruct (parent_exists lock (dirs w)).
    + cbn [files dirs trace]. destruct (parent_exists sh_name (dirs w)).
      * f_equal. f_equal. rewrite <- !app_assoc. reflexivity.
      * f_equal. f_equal. rewrite <- !app_assoc. reflexivity.
    + f_equal. f_equal. rewrite <- !app_assoc. reflexivity.
Qed.

(** The invocation, step by step: the groups, the directory of the
    scripts, the first loop and the second; an exception at any step ends
    it. *)
Lemma launch_cov_batches2_steps (data : Data) (a : Args) (clk : Clock) (njobs : Z)
    (skip : list string) (remove_cwsp : bool) (nnodes : Z) (w : world) :
  launch_cov_batches2 data a clk njobs skip remove_cwsp nnodes w =
  match get_jobs_with_same_cwsp data with
  | Raise e => Raise e
  | Ok cwsp =>
      let ob := Py.os_path_join (output data) ["run_batches"] in
      match groups_loop data skip a remove_cwsp (njobs * nnodes) ob cwsp 0 []
              (snd (os_makedirs ob w)) with
      | (Raise e, _) => Raise e
      | (Ok r, w1) =>
          match nodes_loop a clk (output data) ob (Py.os_path_join (output data) ["log"])
                  (Z.of_nat (List.length cwsp)) nnodes (snd r) (Py.range nnodes) njobs w1
          with
          | (Ok _, w2) => Ok w2
          | (Raise e, _) => Raise e
          end
      end
  end.
Proof.
  unfold launch_cov_batches2.
  destruct (get_jobs_with_same_cwsp data) as [cwsp|e]; [|reflexivity].
  cbn [bind]. cbv zeta. unfold bindE at 1. unfold liftIO at 1.
  unfold os_makedirs at 1. unfold bindE at 1. unfold os_makedirs. cbn [snd].
  destruct (groups_loop _ _ _ _ _ _ _ _ _ _) as [[r|e] w1]; reflexivity.
Qed.

(** C1, as stated, fails on the order: with the lock present the launcher
    looks at the lock only; the output file of the group's task, which exists,
    is not consulted before it. *)
Lemma lock_is_consulted_first :
  let lock := "out/cov/cw__mA__mB__mA__mB.fits.lock" in
  let out := "out/cov/cov_A_B_A_B.npz" in
  let w := {| files := [lock; out]; dirs := ["out"; "out/cov"]; trace := [] |} in
  let tr := trace (snd (group_step Sample.shared [] Sample.args false "out/run_batches"
                          "out/cov/cw__mA__mB__mA__mB.fits"
                          [("A", "B", "A", "B"); ("A2", "B", "A2", "B")] w)) in
  cov_npz (output Sample.shared) ("A", "B", "A", "B") = out
  /\ tr = [IsFile lock true]
  /\ ~ output_consulted_before_lock lock [out] tr.
Proof.
  intros lock out w tr.
  assert (Etr : tr = [IsFile lock true]) by (vm_compute; reflexivity).
  split; [vm_compute; reflexivity|]. split; [exact Etr|].
  rewrite Etr. intros H.
  destruct (H [] true [] eq_refl out (or_introl eq_refl)) as [b' []].
Qed.

(** C1, amended. For each group reached before the cap, the lock of the
    workspace is consulted first: if it exists, nothing else is consulted and
    the whole group is passed over.  Otherwise each task is consulted in turn,
    its output file first (a task whose output exists is skipped unless
    recomputation is forced) and the skip list second.  When no task is left
    nothing is written.  When at least one task is left the launcher opens
    the lock file, which it can do only if the directory of the workspace
    (the [cov] directory of the output tree, which the launcher does not make)
    exists: if not, [FileNotFoundError] is raised, nothing has been written
    and the invocation ends there.  With the lock created, the script is
    written next, holding the commands of the tasks that are left; in the
    directory that the launcher makes for the scripts the script can always
    be opened.  An exception raised for a group ends the loop and the
    invocation: the second loop is not run and nothing is submitted. *)
Theorem lock_then_output_then_skip_list (data : Data) (skip : list string) (a : Args)
    (remove_cwsp : bool) (cap : Z) (outdir_batches : string)
    (cw : string) (trs_list : list cov_task) (rest : cwsp_dict)
    (c : Z) (sh_tbc : list string) (w : world) :
  let lock := cw ++ ".lock" in
  let sh_name := group_sh_name outdir_batches cw in
  let left := filter (task_survives data skip (files w)) trs_list in
  let probes := flat_map (task_probes data skip (files w)) trs_list in
  group_step data skip a remove_cwsp outdir_batches cw trs_list w =
    (if Py.list_in lock (files w) then
       (Ok None, {| files := files w; dirs := dirs w;
                    trace := (trace w ++ [IsFile lock true])%list |})
     else
       match left with
       | [] =>
           (Ok None, {| files := files w; dirs := dirs w;
                        trace := (trace w ++ IsFile lock false :: probes)%list |})
       | _ :: _ =>
           if parent_exists lock (dirs w) then
             if parent_exists sh_name (dirs w) then
               (Ok (Some sh_name),
                {| files := add_path sh_name (add_path lock (files w));
                   dirs := dirs w;
                   trace := (trace w ++ IsFile lock false :: probes
                             ++ [WriteFile lock [""];
                                 WriteFile sh_name
                                   (group_script cw (map (cov_line (INPUT a)) left)
                                      remove_cwsp)])%list |})
             else
               (Raise (FileNotFoundError sh_name),
                {| files := add_path lock (files w); dirs := dirs w;
                   trace := (trace w ++ IsFile lock false :: probes
                             ++ [WriteFile lock [""]])%list |})
           else
             (Raise (FileNotFoundError lock),
              {| files := files w; dirs := dirs w;
                 trace := (trace w ++ IsFile lock false :: probes)%list |})
       end)
  /\ groups_loop data skip a remove_cwsp cap outdir_batches
       ((cw, trs_list) :: rest) c sh_tbc w =
     (if c >=? cap then (Ok (c, sh_tbc), w)
      else
        match group_step data skip a remove_cwsp outdir_batches cw trs_list w with
        | (Ok None, w') =>
            groups_loop data skip a remove_cwsp cap outdir_batches rest c sh_tbc w'
        | (Ok (Some sh), w') =>
            groups_loop data skip a remove_cwsp cap outdir_batches rest
              (c + 1) (sh_tbc ++ [sh])%list w'
        | (Raise e, w') => (Raise e, w')
        end)
  /\ (forall w0,
        let made := snd (os_makedirs (Py.os_path_join (output data) ["run_batches"]) w0) in
        files made = files w0 /\ trace made = trace w0
        /\ (forall d, Py.list_in d (dirs w0) = true -> Py.list_in d (dirs made) = true)
        /\ parent_exists
             (group_sh_name (Py.os_path_join (output data) ["run_batches"]) cw)
             (dirs made) = true)
  /\ (forall clk njobs nnodes w0,
        launch_cov_batches2 data a clk njobs skip remove_cwsp nnodes w0 =
        match get_jobs_with_same_cwsp data with
        | Raise e => Raise e
        | Ok cwsp =>
            let ob := Py.os_path_join (output data) ["run_batches"] in
            match groups_loop data skip a remove_cwsp (njobs * nnodes) ob cwsp 0 []
                    (snd (os_makedirs ob w0)) with
            | (Raise e, _) => Raise e
            | (Ok r, w1) =>
                match nodes_loop a clk (output data) ob
                        (Py.os_path_join (output data) ["log"])
                        (Z.of_nat (List.length cwsp)) nnodes (snd r) (Py.range nnodes)
                        njobs w1
                with
                | (Ok _, w2) => Ok w2
                | (Raise e, _) => Raise e
                end
            end
        end).
Proof.
  intros lock sh_name left probes. split; [|split; [|split]]; [| | |
    intros clk njobs nnodes w0; apply launch_cov_batches2_steps].
  - apply group_step_cases.
  - cbn [groups_loop]. destruct (c >=? cap); [reflexivity|].
    unfold bindE.
    destruct (group_step data skip a remove_cwsp outdir_batches cw trs_list w)
      as [[[sh|]|e] w']; reflexivity.
  - intros w0 made.
    destruct (makedirs_makes (Py.os_path_join (output data) ["run_batches"]) w0)
      as [Hin [Hkeep [Hf Ht]]].
    repeat split; auto.
    now apply group_script_can_be_opened.
Qed.

(** On an output tree without its [cov] directory the launcher stops at the
    first group that has work: the lock cannot be created, nothing is
    written and nothing is submitted. *)
Example lock_needs_the_cov_directory :
  let w := {| files := []; dirs := ["out"]; trace := [] |} in
  launch_cov_batches2 Sample.shared Sample.args Sample.clock 100000 [] false 1 w
  = Raise (FileNotFoundError "out/cov/cw__mA__mB__mA__mB.fits.lock").
Proof. vm_compute. reflexivity. Qed.

(** ** The script of a group *)

Lemma append_assoc (a b c : string) : (a ++ b) ++ c = a ++ (b ++ c).
Proof.
  induction a as [|x a IH]; simpl; [reflexivity|]. now rewrite IH.
Qed.

Lemma length_append (a b : string) :
  String.length (a ++ b) = (String.length a + String.length b)%nat.
Proof.
  induction a as [|x a IH]; simpl; [reflexivity|]. now rewrite IH.
Qed.

Lemma lock_name_differs (cw : string) : (cw ++ ".lock" =? cw)%string = false.
Proof.
  apply String.eqb_neq. intros H. apply (f_equal String.length) in H.
  rewrite length_append in H. simpl in H. lia.
Qed.

Lemma file_text_app (l1 l2 : list string) :
  file_text (l1 ++ l2)%list = file_text l1 ++ file_text l2.
Proof.
  unfold file_text. induction l1 as [|x l1 IH]; simpl; [reflexivity|].
  now rewrite IH, append_assoc.
Qed.

Lemma cov_line_cmd (input : string) (t : cov_task) :
  cov_line input t = Sh.cov_cmd input t ++ Py.nl.
Proof.
  destruct t as [[[a b] c] d]. unfold cov_line, Sh.cov_cmd.
  now rewrite !append_assoc.
Qed.

Lemma last_cov_line (input : string) (t : cov_task) (l : list cov_task) :
  last (map (cov_line input) (t :: l)) "" =
  last (map (Sh.cov_cmd input) (t :: l)) "" ++ Py.nl.
Proof.
  revert t. induction l as [|u l IH]; intros t.
  - simpl. apply cov_line_cmd.
  - change (last (map (cov_line input) (t :: u :: l)) "")
      with (last (map (cov_line input) (u :: l)) "").
    change (last (map (Sh.cov_cmd input) (t :: u :: l)) "")
      with (last (map (Sh.cov_cmd input) (u :: l)) "").
    apply IH.
Qed.

Lemma task_lines_text (input : string) (tasks : list cov_task) :
  file_text (map Sh.render
               (flat_map (fun t => [Sh.Echo ("Running " ++ Sh.cov_cmd input t); Sh.Blank;
                                    Sh.Run (Sh.cov_cmd input t)]) tasks)) =
  file_text (flat_map (fun covi => ["echo Running " ++ covi ++ Py.nl; covi])
               (map (cov_line input) tasks)).
Proof.
  induction tasks as [|t l IH]; [reflexivity|].
  cbn [flat_map map]. rewrite !map_app, !file_text_app, IH. f_equal.
  rewrite cov_line_cmd. unfold file_text. cbn [map fold_right Sh.render append].
  now rewrite !append_assoc.
Qed.

(** The lines of [Sh.group_cmds], printed, are the text of the file that
    [launch_cov_batches2] writes. *)
Lemma group_cmds_text (cw input : string) (t : cov_task) (l : list cov_task)
    (remove_cwsp : bool) :
  file_text (map Sh.render (Sh.group_cmds cw input (t :: l) remove_cwsp)) =
  file_text (group_script cw (map (cov_line input) (t :: l)) remove_cwsp).
Proof.
  unfold Sh.group_cmds, group_script. cbn [List.concat].
  rewrite !map_app, !file_text_app.
  rewrite task_lines_text, last_cov_line.
  f_equal. f_equal. f_equal.
  - unfold file_text. cbn [map fold_right Sh.render append].
    now rewrite ?append_assoc.
  - f_equal.
    + destruct remove_cwsp; unfold file_text; cbn [map fold_right Sh.render append];
        now rewrite ?append_assoc.
    + unfold file_text. cbn [map fold_right Sh.render append].
      now rewrite ?append_assoc.
Qed.

Lemma exec_all_stopped (run : Sh.process) (script : list Sh.cmd) (st : Sh.run_state) :
  (forall fs, st <> Sh.Running fs) -> Sh.exec_all run script st = st.
Proof.
  intros H. destruct script as [|c rest]; [reflexivity|].
  destruct st as [fs| |]; [now destruct (H fs)|reflexivity|reflexivity].
Qed.

Lemma exec_all_app (run : Sh.process) (s1 s2 : list Sh.cmd) (st : Sh.run_state) :
  Sh.exec_all run (s1 ++ s2)%list st = Sh.exec_all run s2 (Sh.exec_all run s1 st).
Proof.
  revert st. induction s1 as [|c s1 IH]; intros st.
  - cbn. now destruct st.
  - destruct st as [fs|fs|]; cbn [app Sh.exec_all].
    + apply IH.
    + now rewrite exec_all_stopped by discriminate.
    + now rewrite exec_all_stopped by discriminate.
Qed.

Lemma remove_path_keeps_absent (p q : string) (fs : list string) :
  Py.list_in p fs = false -> Py.list_in p (Sh.remove_path q fs) = false.
Proof.
  induction fs as [|x fs IH]; simpl; [reflexivity|].
  intros H. apply orb_false_iff in H. destruct H as [Hx Hfs].
  destruct (x =? q)%string; [now apply IH|].
  simpl. now rewrite Hx, (IH Hfs).
Qed.

Lemma flat_map_no_rm (input cw : string) (tasks : list cov_task) :
  existsb (Sh.is_rm cw)
    (flat_map (fun t => [Sh.Echo ("Running " ++ Sh.cov_cmd input t); Sh.Blank;
                         Sh.Run (Sh.cov_cmd input t)]) tasks) = false.
Proof.
  induction tasks as [|t l IH]; [reflexivity|]. simpl. exact IH.
Qed.

Lemma append_empty_r (a : string) : a ++ "" = a.
Proof. induction a as [|x a IH]; simpl; [reflexivity|]. now rewrite IH. Qed.

Lemma all_chars_app (p : ascii -> bool) (a b : string) :
  Sh.all_chars p (a ++ b) = Sh.all_chars p a && Sh.all_chars p b.
Proof.
  induction a as [|x a IH]; [reflexivity|].
  cbn [String.append Sh.all_chars]. rewrite IH. apply andb_assoc.
Qed.

Lemma plain_words_app (a b : string) :
  Sh.plain_words (a ++ b) = Sh.plain_words a && Sh.plain_words b.
Proof. apply all_chars_app. Qed.

Lemma word_chars_plain_words (s : string) :
  Sh.all_chars Sh.word_char s = true -> Sh.plain_words s = true.
Proof.
  unfold Sh.plain_words. induction s as [|c s IH]; [reflexivity|].
  cbn [Sh.all_chars]. intros H. apply andb_true_iff in H. destruct H as [Hc Hs].
  now rewrite Hc, (IH Hs).
Qed.

Lemma words_from_word (s acc : string) :
  Sh.all_chars Sh.word_char s = true ->
  Sh.words_from s acc = if (acc ++ s =? "")%string then [] else [acc ++ s].
Proof.
  revert acc. induction s as [|c s IH]; intros acc H.
  - cbn [Sh.words_from]. now rewrite append_empty_r.
  - cbn [Sh.all_chars] in H. apply andb_true_iff in H. destruct H as [Hc Hs].
    cbn [Sh.words_from]. destruct (Ascii.eqb c " ") eqn:E.
    + apply Ascii.eqb_eq in E. subst c. discriminate Hc.
    + rewrite (IH _ Hs), append_assoc. reflexivity.
Qed.

(** A plain word is removed as itself: [rm] sees one word, the path. *)
Lemma plain_word_parts (w : string) :
  Sh.plain_word w = true ->
  (w =? "")%string = false /\ Sh.all_chars Sh.word_char w = true
  /\ Sh.first_char_is "-" w = false.
Proof.
  unfold Sh.plain_word. rewrite !andb_true_iff, !negb_true_iff. tauto.
Qed.

(** A plain word is removed as itself: [rm] sees one word, the path. *)
Lemma rm_plain_word (run : Sh.process) (w : string) (fs : list string) :
  Sh.plain_word w = true ->
  Sh.exec run (Sh.Rm w) fs = Sh.Running (Sh.remove_path w fs).
Proof.
  intros H. destruct (plain_word_parts w H) as [He [Hc Hd]].
  unfold Sh.exec, Sh.words. rewrite (word_chars_plain_words w Hc).
  rewrite (words_from_word w "" Hc). cbn [String.append]. rewrite He.
  cbn [existsb fold_left]. now rewrite Hd.
Qed.

Lemma lock_is_plain_word (cw : string) :
  Sh.plain_word cw = true -> Sh.plain_word (cw ++ ".lock") = true.
Proof.
  intros H. destruct (plain_word_parts cw H) as [He [Hc Hd]].
  unfold Sh.plain_word. rewrite all_chars_app, Hc.
  destruct cw; [discriminate|]. cbn in Hd |- *. now rewrite Hd.
Qed.

Lemma cov_cmd_plain (input : string) (t : cov_task) :
  Sh.plain_words input = true -> task_plain t = true ->
  Sh.plain_words (Sh.cov_cmd input t) = true
  /\ Sh.first_char_is "/" (Sh.cov_cmd input t) = true.
Proof.
  destruct t as [[[a b] c] d]. unfold task_plain, cov_task_trs. cbn [forallb].
  intros Hi H. rewrite !andb_true_iff in H. destruct H as [Ha [Hb [Hc [Hd _]]]].
  unfold Sh.cov_cmd. split; [|reflexivity].
  rewrite !plain_words_app, Hi, Ha, Hb, Hc, Hd. reflexivity.
Qed.

Lemma last_cmd_plain (input : string) (tasks : list cov_task) :
  Sh.plain_words input = true -> forallb task_plain tasks = true ->
  Sh.plain_words (last (map (Sh.cov_cmd input) tasks) "") = true.
Proof.
  intros Hi. induction tasks as [|t l IH]; [reflexivity|].
  cbn [forallb]. intros H. apply andb_true_iff in H. destruct H as [Ht Hl].
  destruct l as [|u l'].
  - apply (cov_cmd_plain input t Hi Ht).
  - change (last (map (Sh.cov_cmd input) (t :: u :: l')) "")
      with (last (map (Sh.cov_cmd input) (u :: l')) "").
    now apply IH.
Qed.

Lemma exec_all_cons (run : Sh.process) (c : Sh.cmd) (rest : list Sh.cmd)
    (fs : list string) :
  Sh.exec_all run (c :: rest) (Sh.Running fs) = Sh.exec_all run rest (Sh.exec run c fs).
Proof. reflexivity. Qed.

Lemma exec_blank (run : Sh.process) (fs : list string) :
  Sh.exec run Sh.Blank fs = Sh.Running fs.
Proof. reflexivity. Qed.

Lemma exec_echo (run : Sh.process) (text : string) (fs : list string) :
  Sh.plain_words text = true -> Sh.exec run (Sh.Echo text) fs = Sh.Running fs.
Proof. intros H. unfold Sh.exec. now rewrite H. Qed.

Lemma exec_run (run : Sh.process) (line : string) (fs : list string) :
  Sh.plain_words line = true -> Sh.first_char_is "/" line = true ->
  Sh.exec run (Sh.Run line) fs =
    match run line fs with
    | Sh.Exited fs' _ => Sh.Running fs'
    | Sh.ShellKilled fs' => Sh.Killed fs'
    end.
Proof. intros H1 H2. unfold Sh.exec. now rewrite H1, H2. Qed.

(** The commands of the tasks, run in turn: either all of them exit, with
    whatever status, and the shell goes on; or the job is killed while one
    of them runs, and the run ends there. *)
Lemma task_lines_exec (run : Sh.process) (input : string) (tasks : list cov_task)
    (fs : list string) :
  Sh.plain_words input = true -> forallb task_plain tasks = true ->
  let body := flat_map (fun t => [Sh.Echo ("Running " ++ Sh.cov_cmd input t); Sh.Blank;
                                  Sh.Run (Sh.cov_cmd input t)]) tasks in
  (exists fs', Sh.exec_all run body (Sh.Running fs) = Sh.Running fs')
  \/ (exists fs' u fs0,
        In u tasks /\ run (Sh.cov_cmd input u) fs0 = Sh.ShellKilled fs'
        /\ Sh.exec_all run body (Sh.Running fs) = Sh.Killed fs').
Proof.
  intros Hi. revert fs. induction tasks as [|t l IH]; intros fs Hall body.
  - left. exists fs. reflexivity.
  - cbn [forallb] in Hall. apply andb_true_iff in Hall. destruct Hall as [Ht Hl].
    destruct (cov_cmd_plain input t Hi Ht) as [Hp Hs].
    assert (He : Sh.plain_words ("Running " ++ Sh.cov_cmd input t) = true)
      by (rewrite plain_words_app, Hp; reflexivity).
    unfold body. cbn [flat_map app].
    rewrite exec_all_cons, (exec_echo run _ fs He), exec_all_cons, exec_blank,
      exec_all_cons, (exec_run run _ fs Hp Hs).
    destruct (run (Sh.cov_cmd input t) fs) as [fs1 st|fs1] eqn:Er.
    + destruct (IH fs1 Hl) as [[fs' H]|[fs' [u [fs0 [Hin [Hk H]]]]]].
      * left. exists fs'. exact H.
      * right. exists fs', u, fs0. split; [now right|]. now split.
    + right. exists fs1, t, fs. split; [now left|]. split; [exact Er|].
      apply exec_all_stopped. discriminate.
Qed.

(** C2, as stated, fails on "final step": the removal of the lock is followed
    by the removal of the workspace (when asked for) and by a last [echo].
    It fails on "unconditionally" as well: when the job is killed while a
    task runs, the shell never reaches the removal and the lock stays; and
    when the path of the workspace has a space in it, the unquoted [rm]
    removes other names and the lock stays. *)
Lemma lock_removal_is_not_the_final_step :
  let cw := "out/cov/cw__mA__mB__mA__mB.fits" in
  let script := Sh.group_cmds cw "data.yml" [("A", "B", "A", "B")] true in
  let spaced := "my out/cov/cw__mA__mB__mA__mB.fits" in
  file_text (map Sh.render script) =
    file_text (group_script cw [cov_line "data.yml" ("A", "B", "A", "B")] true)
  /\ script =
     [Sh.Shebang;
      Sh.Echo "Running /usr/bin/python3 -m xcell.cls.cov data.yml A B A B";
      Sh.Blank;
      Sh.Run "/usr/bin/python3 -m xcell.cls.cov data.yml A B A B";
      Sh.Echo "Removing lock file: out/cov/cw__mA__mB__mA__mB.fits.lock";
      Sh.Rm "out/cov/cw__mA__mB__mA__mB.fits.lock";
      Sh.Echo "Removing out/cov/cw__mA__mB__mA__mB.fits";
      Sh.Rm "out/cov/cw__mA__mB__mA__mB.fits";
      Sh.Echo "Finished running /usr/bin/python3 -m xcell.cls.cov data.yml A B A B";
      Sh.Blank; Sh.Blank]
  /\ Sh.final_step script <> Some (Sh.Rm (cw ++ ".lock"))
  /\ Sh.exec_all (fun _ fs => Sh.ShellKilled fs) script (Sh.Running [cw ++ ".lock"; cw])
     = Sh.Killed [cw ++ ".lock"; cw]
  /\ Sh.exec_all (fun _ fs => Sh.Exited fs 0)
       (Sh.group_cmds spaced "data.yml" [("A", "B", "A", "B")] false)
       (Sh.Running [spaced ++ ".lock"])
     = Sh.Running [spaced ++ ".lock"].
Proof.
  repeat split; try (vm_compute; reflexivity).
  vm_compute. discriminate.
Qed.

(** C2, amended. The script written for a group removes the lock after the
    commands of all its tasks: no command runs after the removal, which is
    followed only by the removal of the workspace, present exactly when
    [remove_cwsp] is set, and by the last [echo].  When the path of the
    workspace, the input file and the tracer names are made of plain words
    (letters, digits and [_ - . / :], the path not empty, without a space
    and not starting with a dash), bash runs the lines as they read, and whatever
    the task commands do and whatever status they exit with, a run that
    reaches its end leaves no lock (and no workspace, when [remove_cwsp] is
    set); the run reaches its end whenever every task command exits.  The
    only other outcome is that the job is killed while a task runs: the run
    ends there, before the removal. *)
Theorem lock_removed_after_all_tasks (cw input : string) (t : cov_task)
    (l : list cov_task) (remove_cwsp : bool) (run : Sh.process) (fs : list string) :
  let script := Sh.group_cmds cw input (t :: l) remove_cwsp in
  let final := Sh.exec_all run script (Sh.Running fs) in
  file_text (map Sh.render script) =
    file_text (group_script cw (map (cov_line input) (t :: l)) remove_cwsp)
  /\ (exists before after,
        script = (before ++ Sh.Rm (cw ++ ".lock") :: after)%list
        /\ (forall u, In u (t :: l) -> In (Sh.Run (Sh.cov_cmd input u)) before)
        /\ existsb Sh.is_run after = false
        /\ after = ((if remove_cwsp then [Sh.Echo ("Removing " ++ cw); Sh.Rm cw] else [])
                    ++ [Sh.Echo ("Finished running "
                                 ++ last (map (Sh.cov_cmd input) (t :: l)) "");
                        Sh.Blank; Sh.Blank])%list)
  /\ existsb (Sh.is_rm cw) script = remove_cwsp
  /\ (Sh.plain_word cw = true -> Sh.plain_words input = true ->
      forallb task_plain (t :: l) = true ->
      final <> Sh.Unmodelled
      /\ (forall fs', final = Sh.Running fs' ->
            Py.list_in (cw ++ ".lock") fs' = false
            /\ (remove_cwsp = true -> Py.list_in cw fs' = false))
      /\ ((forall line fs0, exists fs1 status, run line fs0 = Sh.Exited fs1 status) ->
          exists fs', final = Sh.Running fs')
      /\ (forall fs', final = Sh.Killed fs' ->
            exists u fs0,
              In u (t :: l) /\ run (Sh.cov_cmd input u) fs0 = Sh.ShellKilled fs')).
Proof.
  intros script final.
  set (body := flat_map (fun u => [Sh.Echo ("Running " ++ Sh.cov_cmd input u); Sh.Blank;
                                   Sh.Run (Sh.cov_cmd input u)]) (t :: l)).
  set (before := (Sh.Shebang :: body
                  ++ [Sh.Echo ("Removing lock file: " ++ cw ++ ".lock")])%list).
  set (after := ((if remove_cwsp then [Sh.Echo ("Removing " ++ cw); Sh.Rm cw] else [])
                 ++ [Sh.Echo ("Finished running "
                              ++ last (map (Sh.cov_cmd input) (t :: l)) "");
                     Sh.Blank; Sh.Blank])%list).
  assert (Hscript : script = (before ++ Sh.Rm (cw ++ ".lock") :: after)%list).
  { unfold script, Sh.group_cmds, before, after. fold body. cbn [List.concat app].
    rewrite <- app_assoc. reflexivity. }
  split; [apply group_cmds_text|]. split; [|split].
  - exists before, after. split; [exact Hscript|]. split; [|split].
    + intros u Hu. unfold before. right. apply in_or_app. left.
      unfold body. apply in_flat_map. exists u. split; [exact Hu|].
      right. right. now left.
    + unfold after. now destruct remove_cwsp.
    + reflexivity.
  - rewrite Hscript, existsb_app. unfold before.
    cbn [existsb Sh.is_rm orb]. rewrite existsb_app. unfold body.
    rewrite flat_map_no_rm. cbn [existsb Sh.is_rm orb].
    rewrite lock_name_differs. unfold after.
    destruct remove_cwsp; cbn [existsb Sh.is_rm orb app]; [|reflexivity].
    now rewrite String.eqb_refl.
  - intros Hcw Hin Htasks.
    assert (Hcww : Sh.plain_words cw = true).
    { apply word_chars_plain_words. apply (plain_word_parts cw Hcw). }
    assert (Hfinal : final =
              Sh.exec_all run
                ([Sh.Echo ("Removing lock file: " ++ cw ++ ".lock"); Sh.Rm (cw ++ ".lock")]
                 ++ after)%list
                (Sh.exec_all run body (Sh.Running fs))).
    { unfold final. rewrite Hscript. unfold before.
      cbn [app]. rewrite exec_all_cons.
      change (Sh.exec run Sh.Shebang fs) with (Sh.Running fs).
      rewrite <- exec_all_app, <- app_assoc. reflexivity. }
    assert (Hlast : Sh.plain_words
                      ("Finished running " ++ last (map (Sh.cov_cmd input) (t :: l)) "")
                    = true).
    { rewrite plain_words_app, (last_cmd_plain input (t :: l) Hin Htasks). reflexivity. }
    assert (Hecho1 : Sh.plain_words ("Removing lock file: " ++ cw ++ ".lock") = true).
    { rewrite !plain_words_app, Hcww. reflexivity. }
    assert (Hecho2 : Sh.plain_words ("Removing " ++ cw) = true).
    { rewrite plain_words_app, Hcww. reflexivity. }
    assert (Hdone : forall fs1,
              exists fs',
                Sh.exec_all run
                  ([Sh.Echo ("Removing lock file: " ++ cw ++ ".lock");
                    Sh.Rm (cw ++ ".lock")] ++ after)%list (Sh.Running fs1)
                = Sh.Running fs'
                /\ Py.list_in (cw ++ ".lock") fs' = false
                /\ (remove_cwsp = true -> Py.list_in cw fs' = false)).
    { intros fs1. unfold after. cbn [app].
      rewrite exec_all_cons, (exec_echo run _ fs1 Hecho1), exec_all_cons,
        (rm_plain_word run _ fs1 (lock_is_plain_word cw Hcw)).
      pose proof (remove_path_not_in (cw ++ ".lock") fs1) as Hgone.
      destruct remove_cwsp; cbn [app].
      - rewrite exec_all_cons, (exec_echo run _ _ Hecho2), exec_all_cons,
          (rm_plain_word run _ _ Hcw), exec_all_cons, (exec_echo run _ _ Hlast),
          exec_all_cons, exec_blank, exec_all_cons, exec_blank.
        eexists. split; [reflexivity|].
        split; [now apply remove_path_keeps_absent|]. intros _.
        apply remove_path_not_in.
      - rewrite exec_all_cons, (exec_echo run _ _ Hlast),
          exec_all_cons, exec_blank, exec_all_cons, exec_blank.
        eexists. split; [reflexivity|]. split; [exact Hgone|]. discriminate. }
    destruct (task_lines_exec run input (t :: l) fs Hin Htasks)
      as [[fs1 Hb]|[fs1 [u [fs0 [Hu [Hk Hb]]]]]]; fold body in Hb.
    + rewrite Hb in Hfinal. destruct (Hdone fs1) as [fs' [He [Hl Hc]]].
      rewrite He in Hfinal. rewrite Hfinal.
      split; [discriminate|]. split; [|split].
      * intros fs'' E. inversion E. subst fs''. now split.
      * intros _. now exists fs'.
      * intros fs'' E. discriminate.
    + rewrite Hb in Hfinal. rewrite exec_all_stopped in Hfinal by discriminate.
      rewrite Hfinal.
      split; [discriminate|]. split; [|split].
      * intros fs'' E. discriminate.
      * intros Hex. destruct (Hex (Sh.cov_cmd input u) fs0) as [f1 [st E]]. congruence.
      * intros fs'' E. inversion E. subst fs''. now exists u, fs0.
Qed.

Lemma lock_removed_after_all_tasks_witness :
  let cw := "out/cov/cw__mA__mB__mA__mB.fits" in
  let run := fun (_ : string) (fs : list string) => Sh.Exited fs 1 in
  exists fs',
    Sh.exec_all run (Sh.group_cmds cw "data.yml" [("A", "B", "A", "B")] true)
      (Sh.Running [cw ++ ".lock"; cw; "out/cov/cov_A_B_A_B.npz"]) = Sh.Running fs'
    /\ Py.list_in (cw ++ ".lock") fs' = false.
Proof.
  intros cw run.
  destruct (lock_removed_after_all_tasks cw "data.yml" ("A", "B", "A", "B") [] true run
              [cw ++ ".lock"; cw; "out/cov/cov_A_B_A_B.npz"])
    as [_ [_ [_ H]]].
  destruct (H eq_refl eq_refl eq_refl) as [_ [Hgone [Hends _]]].
  destruct Hends as [fs' Hfs'].
  - intros line fs0. exists fs0, 1. reflexivity.
  - exists fs'. split; [exact Hfs'|]. exact (proj1 (Hgone fs' Hfs')).
Defined.

(** ** Job cap of the unbatched drivers *)

Lemma submissions_app (t1 t2 : list event) :
  submissions (t1 ++ t2)%list = (submissions t1 ++ submissions t2)%list.
Proof.
  induction t1 as [|e t1 IH]; [reflexivity|].
  destruct e; simpl; rewrite IH; reflexivity.
Qed.

Lemma firstn_cap_step {A : Type} (N c : Z) (x : A) (l : list A) :
  c < N ->
  firstn (Z.to_nat (N - c)) (x :: l) = x :: firstn (Z.to_nat (N - (c + 1))) l.
Proof.
  intros H. replace (Z.to_nat (N - c)) with (S (Z.to_nat (N - (c + 1)))) by lia.
  reflexivity.
Qed.

Lemma call_get_pyexec_spec (comment : string) (a : Args) (mem_ outdir : string)
    (batches : bool) (logfname : option string) (w : world) :
  exists ds,
    call_get_pyexec comment a mem_ outdir batches logfname w =
      (get_pyexec comment a mem_ outdir batches logfname,
       {| files := files w; dirs := ds; trace := trace w |})
    /\ (forall d, Py.list_in d (dirs w) = true -> Py.list_in d ds = true).
Proof.
  unfold call_get_pyexec, bindIO, ret.
  destruct (negb (onlogin a)).
  - destruct (makedirs_makes (Py.os_path_join outdir ["log"]) w) as [_ [Hk _]].
    unfold os_makedirs in *. cbn [snd dirs] in Hk.
    eexists. split; [reflexivity|exact Hk].
  - exists (dirs w). split; [now destruct w|auto].
Qed.

(** What the loop of [launch_cov] does from counter [c]: it submits the first
    [njobs - c] eligible tasks, in order, counts them, and leaves the files
    alone. *)
Lemma launch_cov_loop_spec (data : Data) (a : Args) (qjobs : string) (njobs : Z)
    (skip : list string) (tasks : list cov_task) (c : Z) (w : world) :
  let sel := firstn (Z.to_nat (njobs - c))
               (filter (cov_eligible data qjobs skip (files w)) tasks) in
  let '(c', w') := launch_cov_loop data a qjobs njobs skip tasks c w in
  c' = c + Z.of_nat (List.length sel)
  /\ submissions (trace w') =
       (submissions (trace w) ++ map (cov_submission data a) sel)%list
  /\ files w' = files w.
Proof.
  revert c w. induction tasks as [|t rest IH]; intros c w.
  - cbn. rewrite firstn_nil. cbn. rewrite app_nil_r. repeat split. lia.
  - cbn [launch_cov_loop].
    destruct (c >=? njobs) eqn:Ecap.
    + unfold ret. replace (Z.to_nat (njobs - c)) with 0%nat by lia.
      cbn. rewrite app_nil_r. repeat split. lia.
    + assert (Hlt : c < njobs) by lia.
      cbn [filter].
      destruct (Py.str_in (cov_comment t) qjobs) eqn:Eq.
      { assert (Eel : cov_eligible data qjobs skip (files w) t = false)
          by (unfold cov_eligible; now rewrite Eq).
        rewrite Eel. apply IH. }
      unfold bindIO, consult_skip.
      destruct (check_skip data skip (cov_task_trs t)) eqn:Es.
      { assert (Eel : cov_eligible data qjobs skip (files w) t = false)
          by (unfold cov_eligible; now rewrite Eq, Es).
        rewrite Eel.
        match goal with |- context [launch_cov_loop _ _ _ _ _ _ _ ?w1] =>
          specialize (IH c w1) end.
        cbn [files dirs trace] in IH.
        destruct (launch_cov_loop _ _ _ _ _ rest c _) as [c' w'].
        rewrite submissions_app in IH. cbn [submissions] in IH.
        rewrite app_nil_r in IH. exact IH. }
      unfold os_path_isfile. cbn [files trace].
      destruct (Py.list_in _ (files w) && negb (recompute_cov data || recompute_cmcm data))
        eqn:Ed.
      { assert (Eel : cov_eligible data qjobs skip (files w) t = false)
          by (unfold cov_eligible; now rewrite Eq, Es, Ed).
        rewrite Eel.
        match goal with |- context [launch_cov_loop _ _ _ _ _ _ _ ?w1] =>
          specialize (IH c w1) end.
        cbn [files dirs trace] in IH.
        destruct (launch_cov_loop _ _ _ _ _ rest c _) as [c' w'].
        rewrite !submissions_app in IH. cbn [submissions] in IH.
        rewrite !app_nil_r in IH. exact IH. }
      assert (Eel : cov_eligible data qjobs skip (files w) t = true)
        by (unfold cov_eligible; now rewrite Eq, Es, Ed).
      rewrite Eel.
      match goal with |- context [call_get_pyexec ?cm ?aa ?mm ?od ?bb ?lf ?w0] =>
        destruct (call_get_pyexec_spec cm aa mm od bb lf w0) as [ds [-> _]] end.
      unfold os_system, emit. cbn [files dirs trace].
      rewrite (firstn_cap_step njobs c t _ Hlt).
      match goal with |- context [launch_cov_loop _ _ _ _ _ _ _ ?w1] =>
        specialize (IH (c + 1) w1) end.
      cbn [files dirs trace] in IH.
      destruct (launch_cov_loop _ _ _ _ _ rest (c + 1) _) as [c' w'].
      rewrite !submissions_app in IH. cbn [submissions] in IH.
        rewrite !app_nil_r in IH.
      destruct IH as [Hc [Hs Hf]]. cbn [List.length map].
      repeat split; [lia| |exact Hf].
      rewrite Hs, <- app_assoc. reflexivity.
Qed.

Lemma launch_cls_loop_spec (data : Data) (a : Args) (qjobs : string) (njobs : Z)
    (fiducial : bool) (skip : list string) (tasks : list cl_task) (c : Z) (w : world) :
  let sel := firstn (Z.to_nat (njobs - c))
               (filter (cl_eligible data qjobs fiducial skip (files w)) tasks) in
  let '(c', w') := launch_cls_loop data a qjobs njobs fiducial skip tasks c w in
  c' = c + Z.of_nat (List.length sel)
  /\ submissions (trace w') =
       (submissions (trace w) ++ map (cl_submission data a fiducial) sel)%list
  /\ files w' = files w.
Proof.
  revert c w. induction tasks as [|t rest IH]; intros c w.
  - cbn. rewrite firstn_nil. cbn. rewrite app_nil_r. repeat split. lia.
  - destruct t as [tr1 tr2]. cbn [launch_cls_loop].
    destruct (c >=? njobs) eqn:Ecap.
    + unfold ret. replace (Z.to_nat (njobs - c)) with 0%nat by lia.
      cbn. rewrite app_nil_r. repeat split. lia.
    + assert (Hlt : c < njobs) by lia.
      cbn [filter].
      destruct (Py.str_in (cl_comment (tr1, tr2)) qjobs) eqn:Eq.
      { assert (Eel : cl_eligible data qjobs fiducial skip (files w) (tr1, tr2) = false)
          by (unfold cl_eligible; now rewrite Eq).
        rewrite Eel. apply IH. }
      unfold bindIO, consult_skip.
      destruct (check_skip data skip [tr1; tr2]) eqn:Es.
      { assert (Eel : cl_eligible data qjobs fiducial skip (files w) (tr1, tr2) = false)
          by (unfold cl_eligible; cbn [cl_task_trs]; now rewrite Eq, Es).
        rewrite Eel.
        match goal with |- context [launch_cls_loop _ _ _ _ _ _ _ _ ?w1] =>
          specialize (IH c w1) end.
        cbn [files dirs trace] in IH.
        destruct (launch_cls_loop _ _ _ _ _ _ rest c _) as [c' w'].
        rewrite submissions_app in IH. cbn [submissions] in IH.
        rewrite app_nil_r in IH. exact IH. }
      unfold os_path_isfile. cbn [files trace].
      destruct (Py.list_in _ (files w) && negb (recompute_cls data || recompute_mcm data))
        eqn:Ed.
      { assert (Eel : cl_eligible data qjobs fiducial skip (files w) (tr1, tr2) = false)
          by (unfold cl_eligible; cbn [cl_task_trs fst snd]; now rewrite Eq, Es, Ed).
        rewrite Eel.
        match goal with |- context [launch_cls_loop _ _ _ _ _ _ _ _ ?w1] =>
          specialize (IH c w1) end.
        cbn [files dirs trace] in IH.
        destruct (launch_cls_loop _ _ _ _ _ _ rest c _) as [c' w'].
        rewrite !submissions_app in IH. cbn [submissions] in IH.
        rewrite !app_nil_r in IH. exact IH. }
      assert (Eel : cl_eligible data qjobs fiducial skip (files w) (tr1, tr2) = true)
        by (unfold cl_eligible; cbn [cl_task_trs fst snd]; now rewrite Eq, Es, Ed).
      rewrite Eel.
      match goal with |- context [call_get_pyexec ?cm ?aa ?mm ?od ?bb ?lf ?w0] =>
        destruct (call_get_pyexec_spec cm aa mm od bb lf w0) as [ds [-> _]] end.
      unfold os_system, emit. cbn [files dirs trace].
      rewrite (firstn_cap_step njobs c (tr1, tr2) _ Hlt).
      match goal with |- context [launch_cls_loop _ _ _ _ _ _ _ _ ?w1] =>
        specialize (IH (c + 1) w1) end.
      cbn [files dirs trace] in IH.
      destruct (launch_cls_loop _ _ _ _ _ _ rest (c + 1) _) as [c' w'].
      rewrite !submissions_app in IH. cbn [submissions] in IH.
        rewrite !app_nil_r in IH.
      destruct IH as [Hc [Hs Hf]]. cbn [List.length map].
      unfold cl_task in *.
      repeat split; [lia| |exact Hf].
      rewrite Hs, <- app_assoc.
      assert (Ecmd : get_pyexec (cl_comment (tr1, tr2)) a (if fiducial then "2" else mem a)
                       (cls_outdir data fiducial) false None
                     ++ " " ++ cl_pyrun (INPUT a) fiducial (tr1, tr2)
                     = cl_submission data a fiducial (tr1, tr2))
        by (unfold cl_submission, cl_pyrun; now destruct fiducial).
      rewrite Ecmd. reflexivity.
Qed.

Lemma firstn_length_cap {A : Type} (N : Z) (l : list A) :
  0 <= N -> N < Z.of_nat (List.length l) ->
  Z.of_nat (List.length (firstn (Z.to_nat N) l)) = N.
Proof.
  intros H0 H. rewrite length_firstn, Nat.min_l; lia.
Qed.

(** C6. Each launcher on its own: with a cap [N] and more than [N] tasks
    eligible for [launch_cov], that launcher hands exactly [N] commands to
    [os.system], those of the first [N] eligible tasks in the order of the
    task list, and its counter ends at [N], the number of submissions made;
    the same holds of [launch_cls] with more than [N] tasks eligible for it,
    whatever the other launcher has to do.  Once the counter is [N] either
    loop does nothing more, whatever tasks remain. *)
Theorem job_cap_exactly_N_submissions (data : Data) (a : Args) (qjobs : string)
    (fiducial : bool) (skip : list string) (N : Z) (w : world) :
  0 <= N ->
  (N < Z.of_nat (List.length (filter (cov_eligible data qjobs skip (files w))
                                (cov_tracers data))) ->
   let sel := firstn (Z.to_nat N)
                (filter (cov_eligible data qjobs skip (files w)) (cov_tracers data)) in
   let '(c, w') := launch_cov data a qjobs N skip w in
   c = N /\ List.length sel = Z.to_nat N
   /\ submissions (trace w') =
        (submissions (trace w) ++ map (cov_submission data a) sel)%list)
  /\ (N < Z.of_nat (List.length (filter (cl_eligible data qjobs fiducial skip (files w))
                                   (cl_tracers data))) ->
      let sel := firstn (Z.to_nat N)
                   (filter (cl_eligible data qjobs fiducial skip (files w))
                      (cl_tracers data)) in
      let '(c, w') := launch_cls data a qjobs N fiducial skip w in
      c = N /\ List.length sel = Z.to_nat N
      /\ submissions (trace w') =
           (submissions (trace w) ++ map (cl_submission data a fiducial) sel)%list)
  /\ (forall tasks w0, launch_cov_loop data a qjobs N skip tasks N w0 = (N, w0))
  /\ (forall tasks w0,
        launch_cls_loop data a qjobs N fiducial skip tasks N w0 = (N, w0)).
Proof.
  intros H0. split; [intros Hcov|split; [intros Hcls|split]].
  - pose proof (launch_cov_loop_spec data a qjobs N skip (cov_tracers data) 0 w) as H.
    unfold launch_cov. cbv zeta in H |- *. rewrite Z.sub_0_r in H.
    destruct (launch_cov_loop data a qjobs N skip (cov_tracers data) 0 w) as [c w'].
    destruct H as [Hc [Hs _]].
    pose proof (firstn_length_cap N _ H0 Hcov) as Hl.
    repeat split; [lia|lia|exact Hs].
  - pose proof (launch_cls_loop_spec data a qjobs N fiducial skip (cl_tracers data) 0 w)
      as H.
    unfold launch_cls. cbv zeta in H |- *. rewrite Z.sub_0_r in H.
    destruct (launch_cls_loop data a qjobs N fiducial skip (cl_tracers data) 0 w)
      as [c w'].
    destruct H as [Hc [Hs _]].
    pose proof (firstn_length_cap N _ H0 Hcls) as Hl.
    repeat split; [lia|lia|exact Hs].
  - intros [|t rest] w0; cbn [launch_cov_loop]; [reflexivity|].
    replace (N >=? N) with true by lia. reflexivity.
  - intros [|[tr1 tr2] rest] w0; cbn [launch_cls_loop]; [reflexivity|].
    replace (N >=? N) with true by lia. reflexivity.
Qed.

Lemma job_cap_exactly_N_submissions_witness :
  let data := Sample.with_cls Sample.four_groups [("A", "B"); ("A", "C")] in
  fst (launch_cov data Sample.args "" 1 [] Sample.empty_world) = 1
  /\ fst (launch_cls data Sample.args "" 1 false [] Sample.empty_world) = 1
  /\ fst (launch_cov Sample.four_groups Sample.args "" 3 [] Sample.empty_world) = 3.
Proof.
  intros data.
  destruct (job_cap_exactly_N_submissions data Sample.args "" false [] 1
              Sample.empty_world) as [Hcov [Hcls _]]; [lia|].
  destruct (job_cap_exactly_N_submissions Sample.four_groups Sample.args "" false [] 3
              Sample.empty_world) as [Hcov3 _]; [lia|].
  assert (H1 : 1 < Z.of_nat (List.length
                   (filter (cov_eligible data "" [] (files Sample.empty_world))
                      (cov_tracers data)))) by (vm_compute; reflexivity).
  assert (H2 : 1 < Z.of_nat (List.length
                   (filter (cl_eligible data "" false [] (files Sample.empty_world))
                      (cl_tracers data)))) by (vm_compute; reflexivity).
  assert (H3 : 3 < Z.of_nat (List.length
                   (filter (cov_eligible Sample.four_groups "" []
                              (files Sample.empty_world))
                      (cov_tracers Sample.four_groups)))) by (vm_compute; reflexivity).
  specialize (Hcov H1). specialize (Hcls H2). specialize (Hcov3 H3).
  cbv zeta in Hcov, Hcls, Hcov3.
  destruct (launch_cov data Sample.args "" 1 [] Sample.empty_world) as [c1 w1].
  destruct (launch_cls data Sample.args "" 1 false [] Sample.empty_world) as [c2 w2].
  destruct (launch_cov Sample.four_groups Sample.args "" 3 [] Sample.empty_world)
    as [c3 w3].
  split; [exact (proj1 Hcov)|split; [exact (proj1 Hcls)|exact (proj1 Hcov3)]].
Defined.

(** ** Distribution of the group scripts over the nodes *)

(** C7 fails on the code. With the default cap, two nodes and four groups to
    run, the outer script of node 0 invokes the scripts of groups A, B, C and
    that of node 1 the scripts of groups B, C, D: the slice starts at
    [nodei], not at [nodei * njobs], so the scripts of B and C are invoked by
    both nodes. *)
Theorem node_chunks_overlap :
  let sA := "out/run_batches/cw__mA__mA__mA__mA.fits.sh" in
  let sB := "out/run_batches/cw__mB__mB__mB__mB.fits.sh" in
  let sC := "out/run_batches/cw__mC__mC__mC__mC.fits.sh" in
  let sD := "out/run_batches/cw__mD__mD__mD__mD.fits.sh" in
  node_chunks 4 2 [sA; sB; sC; sD] (Py.range 2) 100000 = [[sA; sB; sC]; [sB; sC; sD]]
  /\ exists w,
       launch_cov_batches2 Sample.four_groups Sample.args Sample.clock 100000 [] false 2
         Sample.empty_world = Ok w
       /\ map fst (firstn 8 (written (trace w))) =
            ["out/cov/cw__mA__mA__mA__mA.fits.lock"; sA;
             "out/cov/cw__mB__mB__mB__mB.fits.lock"; sB;
             "out/cov/cw__mC__mC__mC__mC.fits.lock"; sC;
             "out/cov/cw__mD__mD__mD__mD.fits.lock"; sD]
       /\ skipn 8 (written (trace w)) =
            [("out/run_batches/batch0-3_20240101000000.sh", node_script [sA; sB; sC]);
             ("out/run_batches/batch1-3_20240101000000.sh", node_script [sB; sC; sD])].
Proof.
  intros sA sB sC sD. split; [vm_compute; reflexivity|].
  eexists. split; [vm_compute; reflexivity|].
  split; vm_compute; reflexivity.
Qed.

(** ** Worked examples *)

Example get_mem_two_spins :
  let data := {| output := "out";
                 recompute_cls := false; recompute_mcm := false;
                 recompute_cov := false; recompute_cmcm := false;
                 has_tracer := fun _ => true;
                 mask_name := fun _ => None;
                 get_mapper_spin := fun tr => if (tr =? "B__2")%string then Ok 2 else Ok 0;
                 get_tracer_bare_name := Sample.before_sep;
                 get_tracers_bare_name_pair := fun a b sep => a ++ sep ++ b;
                 get_cl_trs_names := fun _ => [];
                 get_cov_trs_names := fun _ => [] |} in
  get_mem data ["A__0"; "B__2"] "cls" = Ok 41
  /\ get_mem data ["A__0"; "B__2"] "cov" = Ok 63
  /\ get_mem data ["A__0"; "B__2"] "sacc" = Raise (ValueError "sacc not defined").
Proof. repeat split; reflexivity. Qed.

Example check_skip_by_bare_name :
  check_skip Sample.shared ["SURVEY"] ["SURVEY__0"; "OTHER__1"] = true
  /\ check_skip Sample.shared ["SURVEY__0"] ["SURVEY__0"; "OTHER__1"] = true
  /\ check_skip Sample.shared ["SURVEY__1"] ["SURVEY__0"; "OTHER__1"] = false.
Proof. repeat split; reflexivity. Qed.

Example slice_of_second_node :
  Py.slice ["s0"; "s1"; "s2"; "s3"] 1 6 = ["s1"; "s2"; "s3"]
  /\ Py.slice ["s0"; "s1"; "s2"; "s3"] 0 3 = ["s0"; "s1"; "s2"].
Proof. split; reflexivity. Qed.

(** * Further properties of the code *)

(** ** [save_wsp] and [read_wsp]: bounds, errors, composition *)

(** X1. Whatever the workspace object does, [save_wsp] calls [write_to] at
    most twice and never calls [read_from]. *)
Theorem save_wsp_at_most_two_writes (wsp : Tools.Workspace) (fname : string)
    (s : Tools.state) :
  (Tools.writes s <= Tools.writes (snd (Tools.save_wsp wsp fname s))
   <= Tools.writes s + 2)%nat
  /\ Tools.reads (snd (Tools.save_wsp wsp fname s)) = Tools.reads s.
Proof.
  unfold Tools.save_wsp.
  destruct (Tools.isfile fname s); [simpl; lia|].
  unfold Tools.call_write_to.
  destruct (Tools.write_to wsp (Tools.writes s)) as [|e leaves]; [simpl; lia|].
  destruct e as [m|k|msg|p|m]; try (simpl; lia).
  destruct (Py.str_in "Error writing" msg); [|simpl; lia].
  unfold Tools.os_remove.
  match goal with |- context [Tools.isfile fname ?s1] =>
    destruct (Tools.isfile fname s1) end; [|simpl; lia].
  cbn [Tools.writes Tools.reads Tools.files].
  destruct (Tools.write_to wsp (S (Tools.writes s))); simpl; lia.
Qed.

Lemma save_wsp_ok_isfile (wsp : Tools.Workspace) (fname : string)
    (s : Tools.state) :
  fst (Tools.save_wsp wsp fname s) = Ok tt ->
  Tools.isfile fname (snd (Tools.save_wsp wsp fname s)) = true.
Proof.
  unfold Tools.save_wsp.
  destruct (Tools.isfile fname s) eqn:E; [intros _; exact E|].
  unfold Tools.call_write_to.
  destruct (Tools.write_to wsp (Tools.writes s)) as [|e leaves].
  - intros _. apply list_in_add_file.
  - destruct e as [m|k|msg|p|m]; try discriminate.
    destruct (Py.str_in "Error writing" msg); [|discriminate].
    unfold Tools.os_remove.
    match goal with |- context [Tools.isfile fname ?s1] =>
      destruct (Tools.isfile fname s1) end; [|discriminate].
    cbn [Tools.writes Tools.reads Tools.files].
    destruct (Tools.write_to wsp (S (Tools.writes s))); [|discriminate].
    intros _. apply list_in_add_file.
Qed.

(** X2. When [save_wsp] returns normally, a file exists at the path. *)
Theorem save_wsp_ok_file_exists (wsp : Tools.Workspace) (fname : string)
    (s : Tools.state) :
  fst (Tools.save_wsp wsp fname s) = Ok tt ->
  Tools.isfile fname (snd (Tools.save_wsp wsp fname s)) = true.
Proof. apply save_wsp_ok_isfile. Qed.

Lemma save_wsp_ok_file_exists_witness :
  let wsp := {| Tools.write_to := fun k =>
                  match k with
                  | O => Tools.Raises (RuntimeError "Error writing workspace") true
                  | S _ => Tools.Returns
                  end;
                Tools.read_from := fun _ => Tools.Returns |} in
  let s := {| Tools.files := []; Tools.writes := 0; Tools.reads := 0 |} in
  Tools.isfile "out/cov/cw.fits" (snd (Tools.save_wsp wsp "out/cov/cw.fits" s)) = true.
Proof.
  intros wsp s. apply save_wsp_ok_file_exists. reflexivity.
Defined.

(** X3. When the failed write left no file behind, [os.remove] raises
    [FileNotFoundError]: this is what the caller gets, and the write is not
    tried again. *)
Theorem save_wsp_no_partial_file (wsp : Tools.Workspace) (fname msg : string)
    (s : Tools.state) :
  Tools.isfile fname s = false ->
  Tools.write_to wsp (Tools.writes s) = Tools.Raises (RuntimeError msg) false ->
  Py.str_in "Error writing" msg = true ->
  Tools.save_wsp wsp fname s =
    (Raise (FileNotFoundError fname),
     {| Tools.files := Tools.files s;
        Tools.writes := S (Tools.writes s);
        Tools.reads := Tools.reads s |}).
Proof.
  intros Habs Hw Hm. unfold Tools.save_wsp. rewrite Habs.
  unfold Tools.call_write_to. rewrite Hw, Hm.
  unfold Tools.os_remove, Tools.isfile. cbn [Tools.files].
  unfold Tools.isfile in Habs. rewrite Habs. reflexivity.
Qed.

Lemma save_wsp_no_partial_file_witness :
  let wsp := {| Tools.write_to := fun _ => Tools.Raises (RuntimeError "Error writing") false;
                Tools.read_from := fun _ => Tools.Returns |} in
  let s := {| Tools.files := ["out/other.fits"]; Tools.writes := 0; Tools.reads := 0 |} in
  Tools.save_wsp wsp "out/cov/cw.fits" s =
    (Raise (FileNotFoundError "out/cov/cw.fits"),
     {| Tools.files := ["out/other.fits"]; Tools.writes := 1; Tools.reads := 0 |}).
Proof.
  intros wsp s.
  apply (save_wsp_no_partial_file wsp "out/cov/cw.fits" "Error writing" s);
    reflexivity.
Defined.

(** X4. An exception of [write_to] that is not a [RuntimeError] mentioning
    ['Error writing'] reaches the caller as it is, after a single call, and
    nothing is deleted. *)
Theorem save_wsp_other_errors_propagate (wsp : Tools.Workspace) (fname : string)
    (s : Tools.state) (e : exn) (leaves : bool) :
  Tools.isfile fname s = false ->
  Tools.write_to wsp (Tools.writes s) = Tools.Raises e leaves ->
  (forall msg, e = RuntimeError msg -> Py.str_in "Error writing" msg = false) ->
  Tools.save_wsp wsp fname s =
    (Raise e,
     {| Tools.files := if leaves then Tools.add_file fname (Tools.files s)
                       else Tools.files s;
        Tools.writes := S (Tools.writes s);
        Tools.reads := Tools.reads s |}).
Proof.
  intros Habs Hw He. unfold Tools.save_wsp. rewrite Habs.
  unfold Tools.call_write_to. rewrite Hw.
  destruct e as [m|k|msg|p|m]; try reflexivity.
  now rewrite (He msg eq_refl).
Qed.

Lemma save_wsp_other_errors_propagate_witness :
  let wsp := {| Tools.write_to := fun _ => Tools.Raises (RuntimeError "Disk quota") true;
                Tools.read_from := fun _ => Tools.Returns |} in
  let s := {| Tools.files := []; Tools.writes := 0; Tools.reads := 0 |} in
  Tools.save_wsp wsp "out/cov/cw.fits" s =
    (Raise (RuntimeError "Disk quota"),
     {| Tools.files := ["out/cov/cw.fits"]; Tools.writes := 1; Tools.reads := 0 |}).
Proof.
  intros wsp s.
  apply (save_wsp_other_errors_propagate wsp "out/cov/cw.fits" s
           (RuntimeError "Disk quota") true); try reflexivity.
  intros msg H. inversion H. reflexivity.
Defined.

Lemma remove_path_subset (p q : string) (fs : list string) :
  Py.list_in p (Sh.remove_path q fs) = true -> Py.list_in p fs = true.
Proof.
  intros H. destruct (Py.list_in p fs) eqn:E; [reflexivity|].
  now rewrite (remove_path_keeps_absent p q fs E) in H.
Qed.

(** X5. [read_wsp] calls [read_from] exactly once and [write_to] never; it
    returns normally exactly when that call returns; and it creates no file. *)
Theorem read_wsp_reads_once (wsp : Tools.Workspace) (fname : string) (mcm : bool)
    (s : Tools.state) :
  let r := Tools.read_wsp wsp fname mcm s in
  Tools.reads (snd r) = S (Tools.reads s)
  /\ Tools.writes (snd r) = Tools.writes s
  /\ (fst r = Ok tt <-> Tools.read_from wsp (Tools.reads s) = Tools.Returns)
  /\ (forall p, Tools.isfile p (snd r) = true -> Tools.isfile p s = true).
Proof.
  unfold Tools.read_wsp, Tools.call_read_from.
  destruct (Tools.read_from wsp (Tools.reads s)) as [|e leaves].
  - cbn. repeat split; auto.
  - destruct e as [m|k|msg|p0|m];
      try (cbn; repeat split; auto; discriminate).
    destruct (Py.str_in "Error reading" msg);
      [|cbn; repeat split; auto; discriminate].
    unfold Tools.os_remove, Tools.isfile. cbn [Tools.files].
    destruct (Py.list_in fname (Tools.files s));
      cbn; repeat split; auto; try discriminate.
    intros p. apply remove_path_subset.
Qed.

(** X6. A read that fails on a corrupt file deletes it, so that the next
    [save_wsp] does not take the file for done: it calls [write_to], and when
    that call returns the file is there again. *)
Theorem corrupt_read_then_save_rewrites (wsp : Tools.Workspace) (fname msg : string)
    (mcm left_behind : bool) (s : Tools.state) :
  Tools.isfile fname s = true ->
  Tools.read_from wsp (Tools.reads s) = Tools.Raises (RuntimeError msg) left_behind ->
  Py.str_in "Error reading" msg = true ->
  Tools.write_to wsp (Tools.writes s) = Tools.Returns ->
  let s1 := snd (Tools.read_wsp wsp fname mcm s) in
  Tools.isfile fname s1 = false
  /\ Tools.save_wsp wsp fname s1 =
       (Ok tt,
        {| Tools.files := Tools.add_file fname (Sh.remove_path fname (Tools.files s));
           Tools.writes := S (Tools.writes s);
           Tools.reads := S (Tools.reads s) |})
  /\ Tools.isfile fname (snd (Tools.save_wsp wsp fname s1)) = true.
Proof.
  intros Hex Hr Hm Hw s1.
  assert (Es1 : s1 = {| Tools.files := Sh.remove_path fname (Tools.files s);
                        Tools.writes := Tools.writes s;
                        Tools.reads := S (Tools.reads s) |}).
  { unfold s1, Tools.read_wsp, Tools.call_read_from. rewrite Hr, Hm.
    unfold Tools.os_remove, Tools.isfile. cbn [Tools.files].
    unfold Tools.isfile in Hex. now rewrite Hex. }
  assert (Habs : Tools.isfile fname s1 = false).
  { rewrite Es1. unfold Tools.isfile. cbn [Tools.files]. apply remove_path_not_in. }
  assert (Hsave : Tools.save_wsp wsp fname s1 =
       (Ok tt,
        {| Tools.files := Tools.add_file fname (Sh.remove_path fname (Tools.files s));
           Tools.writes := S (Tools.writes s);
           Tools.reads := S (Tools.reads s) |})).
  { unfold Tools.save_wsp. rewrite Habs. rewrite Es1.
    unfold Tools.call_write_to. cbn [Tools.writes Tools.files Tools.reads].
    now rewrite Hw. }
  split; [exact Habs|]. split; [exact Hsave|].
  rewrite Hsave. unfold Tools.isfile. cbn [snd Tools.files]. apply list_in_add_file.
Qed.

Lemma corrupt_read_then_save_rewrites_witness :
  let wsp := {| Tools.write_to := fun _ => Tools.Returns;
                Tools.read_from := fun _ =>
                  Tools.Raises (RuntimeError "Error reading workspace") false |} in
  let s := {| Tools.files := ["out/cov/cw.fits"]; Tools.writes := 0; Tools.reads := 0 |} in
  Tools.isfile "out/cov/cw.fits"
    (snd (Tools.save_wsp wsp "out/cov/cw.fits"
            (snd (Tools.read_wsp wsp "out/cov/cw.fits" false s)))) = true.
Proof.
  intros wsp s.
  refine (proj2 (proj2 (corrupt_read_then_save_rewrites wsp "out/cov/cw.fits"
            "Error reading workspace" false false s _ _ _ _))); reflexivity.
Defined.

(** ** [check_skip] and [get_mem]: composition, errors, bounds *)

Lemma check_skip_app (data : Data) (skip l1 l2 : list string) :
  check_skip data skip (l1 ++ l2)%list =
  check_skip data skip l1 || check_skip data skip l2.
Proof.
  induction l1 as [|tr l1 IH]; simpl; [reflexivity|].
  destruct (Py.list_in tr skip); [reflexivity|].
  destruct (Py.list_in (get_tracer_bare_name data tr) skip); [reflexivity|exact IH].
Qed.

Lemma check_skip_true_iff (data : Data) (skip trs : list string) :
  check_skip data skip trs = true <->
  exists tr, In tr trs /\ (In tr skip \/ In (get_tracer_bare_name data tr) skip).
Proof.
  induction trs as [|tr rest IH]; simpl.
  - split; [discriminate|]. intros [tr [[] _]].
  - destruct (Py.list_in tr skip) eqn:E1.
    + split; [|reflexivity]. intros _. exists tr. split; [now left|].
      left. now apply list_in_iff.
    + destruct (Py.list_in (get_tracer_bare_name data tr) skip) eqn:E2.
      * split; [|reflexivity]. intros _. exists tr. split; [now left|].
        right. now apply list_in_iff.
      * rewrite IH. split.
        -- intros [x [Hx Hs]]. exists x. split; [now right|exact Hs].
        -- intros [x [[Hx|Hx] Hs]].
           ++ subst x. apply list_in_false_iff in E1, E2. tauto.
           ++ exists x. split; assumption.
Qed.

(** X7. A task made of two tracer lists is excluded exactly when one of the
    lists is; an empty skip list excludes nothing; and a longer skip list
    excludes at least as much. *)
Theorem check_skip_composes (data : Data) (skip skip' l1 l2 : list string) :
  check_skip data skip (l1 ++ l2)%list =
    check_skip data skip l1 || check_skip data skip l2
  /\ check_skip data [] l1 = false
  /\ (incl skip skip' -> check_skip data skip l1 = true ->
      check_skip data skip' l1 = true).
Proof.
  split; [apply check_skip_app|]. split.
  - induction l1 as [|tr l IH]; simpl; [reflexivity|exact IH].
  - intros Hincl H. apply check_skip_true_iff.
    apply check_skip_true_iff in H.
    destruct H as [tr [Hin [Hs|Hs]]]; exists tr; (split; [exact Hin|]);
      [left|right]; now apply Hincl.
Qed.

Lemma get_mem_loop_ok_iff (data : Data) (d : list (Z * Z)) (trs : list string) (m0 : Z) :
  (exists m, get_mem_loop data d trs m0 = Ok m) <->
  (forall tr, In tr trs ->
     exists s c, get_mapper_spin data tr = Ok s /\ dict_get d s = Ok c).
Proof.
  revert m0. induction trs as [|tr rest IH]; intros m0; simpl.
  - split; [intros _ tr []|intros _; now exists m0].
  - split.
    + intros [m Hm] tr' [<-|Hin].
      * destruct (get_mapper_spin data tr) as [s|e]; [|discriminate].
        simpl in Hm. destruct (dict_get d s) as [c|e] eqn:Ec; [|discriminate].
        exists s, c. split; [reflexivity|exact Ec].
      * destruct (get_mapper_spin data tr) as [s|e]; [|discriminate].
        simpl in Hm. destruct (dict_get d s) as [c|e]; [|discriminate].
        simpl in Hm. apply (proj1 (IH (m0 + c))); [now exists m|exact Hin].
    + intros H. destruct (H tr (or_introl eq_refl)) as [s [c [Hs Hc]]].
      rewrite Hs. simpl. rewrite Hc. simpl. apply IH.
      intros tr' Hin. apply H. now right.
Qed.

Lemma dict_get_cls_ok (s : Z) :
  (exists c, dict_get [(0, 16); (2, 25)] s = Ok c) <-> s = 0 \/ s = 2.
Proof.
  simpl. destruct (Z.eqb_spec s 0) as [->|H0].
  - split; [now left|intros _; now exists 16].
  - destruct (Z.eqb_spec s 2) as [->|H2].
    + split; [now right|intros _; now exists 25].
    + split; [intros [c Hc]; discriminate|intros [?|?]; contradiction].
Qed.

Lemma dict_get_cov_ok (s : Z) :
  (exists c, dict_get [(0, 16); (2, 47)] s = Ok c) <-> s = 0 \/ s = 2.
Proof.
  simpl. destruct (Z.eqb_spec s 0) as [->|H0].
  - split; [now left|intros _; now exists 16].
  - destruct (Z.eqb_spec s 2) as [->|H2].
    + split; [now right|intros _; now exists 47].
    + split; [intros [c Hc]; discriminate|intros [?|?]; contradiction].
Qed.

(** X8. [get_mem] returns a number exactly when the mode is [cls] or [cov]
    and every tracer has a mapper whose spin is 0 or 2; in every other case
    it raises. *)
Theorem get_mem_ok_iff (data : Data) (trs : list string) (compute : string) :
  (exists m, get_mem data trs compute = Ok m) <->
  (compute = "cls" \/ compute = "cov")
  /\ (forall tr, In tr trs ->
        get_mapper_spin data tr = Ok 0 \/ get_mapper_spin data tr = Ok 2).
Proof.
  unfold get_mem, mem_table.
  destruct (String.eqb_spec compute "cls") as [->|Hcls].
  - simpl. rewrite get_mem_loop_ok_iff. split.
    + intros H. split; [now left|]. intros tr Hin.
      destruct (H tr Hin) as [s [c [Hs Hc]]].
      destruct (proj1 (dict_get_cls_ok s) (ex_intro _ c Hc)) as [->| ->]; auto.
    + intros [_ H] tr Hin.
      destruct (H tr Hin) as [Hs|Hs]; rewrite Hs.
      * exists 0, 16. split; reflexivity.
      * exists 2, 25. split; reflexivity.
  - destruct (String.eqb_spec compute "cov") as [->|Hcov].
    + simpl. rewrite get_mem_loop_ok_iff. split.
      * intros H. split; [now right|]. intros tr Hin.
        destruct (H tr Hin) as [s [c [Hs Hc]]].
        destruct (proj1 (dict_get_cov_ok s) (ex_intro _ c Hc)) as [->| ->]; auto.
      * intros [_ H] tr Hin.
        destruct (H tr Hin) as [Hs|Hs]; rewrite Hs.
        -- exists 0, 16. split; reflexivity.
        -- exists 2, 47. split; reflexivity.
    + simpl. split; [intros [m Hm]; discriminate|].
      intros [[?|?] _]; contradiction.
Qed.

Lemma get_mem_loop_bounds (data : Data) (d : list (Z * Z)) (hi : Z)
    (trs : list string) (m0 m : Z) :
  (forall s c, dict_get d s = Ok c -> 16 <= c <= hi) ->
  get_mem_loop data d trs m0 = Ok m ->
  m0 + 16 * Z.of_nat (List.length trs) <= m <= m0 + hi * Z.of_nat (List.length trs).
Proof.
  intros Hd. revert m0. induction trs as [|tr rest IH]; intros m0 H.
  - simpl in H. inversion H. simpl. lia.
  - cbn [get_mem_loop] in H.
    destruct (get_mapper_spin data tr) as [s|e]; [|discriminate]. simpl in H.
    destruct (dict_get d s) as [c|e] eqn:Ec; [|discriminate]. simpl in H.
    specialize (IH _ H). specialize (Hd s c Ec).
    cbn [List.length]. rewrite Nat2Z.inj_succ. nia.
Qed.

(** X9. The memory returned for [n] tracers lies between [16 n] and [25 n]
    in mode [cls], and between [16 n] and [47 n] in mode [cov]. *)
Theorem get_mem_bounds (data : Data) (trs : list string) (compute : string) (m : Z) :
  get_mem data trs compute = Ok m ->
  let n := Z.of_nat (List.length trs) in
  16 * n <= m <= (if (compute =? "cls")%string then 25 else 47) * n.
Proof.
  intros H n. unfold get_mem, mem_table in H.
  assert (Hcls : forall s c, dict_get [(0, 16); (2, 25)] s = Ok c -> 16 <= c <= 25).
  { intros s c. simpl. destruct (s =? 0); [intros E; inversion E; lia|].
    destruct (s =? 2); [intros E; inversion E; lia|discriminate]. }
  assert (Hcov : forall s c, dict_get [(0, 16); (2, 47)] s = Ok c -> 16 <= c <= 47).
  { intros s c. simpl. destruct (s =? 0); [intros E; inversion E; lia|].
    destruct (s =? 2); [intros E; inversion E; lia|discriminate]. }
  destruct (compute =? "cls")%string.
  - simpl in H. pose proof (get_mem_loop_bounds data _ 25 _ _ _ Hcls H). unfold n. lia.
  - destruct (compute =? "cov")%string; [|discriminate].
    simpl in H. pose proof (get_mem_loop_bounds data _ 47 _ _ _ Hcov H). unfold n. lia.
Qed.

Lemma get_mem_bounds_witness :
  get_mem Sample.shared ["A"; "B"] "cov" = Ok 32 /\ 16 * 2 <= 32 <= 47 * 2.
Proof.
  split; [reflexivity|].
  exact (get_mem_bounds Sample.shared ["A"; "B"] "cov" 32 eq_refl).
Defined.

(** ** The task list and the groups: order, partition, errors *)

Section UniqueOrder.
Context {A : Type} (cmp : A -> A -> comparison).
Hypothesis cmp_eq : forall x y, cmp x y = Eq <-> x = y.
Hypothesis cmp_antisym : forall x y, cmp x y = CompOpp (cmp y x).
Hypothesis cmp_trans : forall x y z, cmp x y = Lt -> cmp y z = Lt -> cmp x z = Lt.

Lemma drop_repeats_ascending (l : list A) :
  ascending cmp l -> ascending cmp (drop_repeats cmp l).
Proof.
  induction l as [|x l IH]; [intros _; exact I|].
  destruct l as [|z l]; [intros _; simpl; split; [constructor|exact I]|].
  intros Hasc.
  assert (Htl : ascending cmp (z :: l)) by (destruct Hasc as [_ H]; exact H).
  change (drop_repeats cmp (x :: z :: l))
    with (match cmp x z with
          | Eq => drop_repeats cmp (z :: l)
          | _ => x :: drop_repeats cmp (z :: l)
          end).
  assert (Hx : Forall (not_after cmp x) (drop_repeats cmp (z :: l))).
  { destruct Hasc as [Hx _]. rewrite Forall_forall in *. intros w Hw.
    apply Hx. exact (proj1 (drop_repeats_In cmp cmp_eq w (z :: l)) Hw). }
  destruct (cmp x z); [now apply IH| |]; (split; [exact Hx|now apply IH]).
Qed.

Lemma not_after_both (x y : A) : not_after cmp x y -> not_after cmp y x -> x = y.
Proof.
  unfold not_after. intros Hxy Hyx. apply cmp_eq.
  rewrite (cmp_antisym y x) in Hyx.
  destruct (cmp x y); simpl in Hyx; congruence.
Qed.

Lemma ascending_head_least (x y : A) (l : list A) :
  ascending cmp (x :: l) -> In y (x :: l) -> not_after cmp x y.
Proof.
  intros [Hx _] [<-|Hin].
  - unfold not_after. rewrite (proj2 (cmp_eq x x) eq_refl). discriminate.
  - rewrite Forall_forall in Hx. now apply Hx.
Qed.

(** Two ascending lists without repetition that hold the same rows are the
    same list. *)
Lemma ascending_NoDup_ext (l1 l2 : list A) :
  ascending cmp l1 -> NoDup l1 -> ascending cmp l2 -> NoDup l2 ->
  (forall x, In x l1 <-> In x l2) -> l1 = l2.
Proof.
  revert l2. induction l1 as [|x t1 IH]; intros [|y t2] Ha1 Hn1 Ha2 Hn2 Hext.
  - reflexivity.
  - destruct (proj2 (Hext y) (or_introl eq_refl)).
  - destruct (proj1 (Hext x) (or_introl eq_refl)).
  - assert (Exy : x = y).
    { apply not_after_both.
      - apply (ascending_head_least x y t1 Ha1). apply Hext. now left.
      - apply (ascending_head_least y x t2 Ha2). apply Hext. now left. }
    subst y. f_equal.
    inversion Hn1 as [|? ? Hx1 Hn1']; inversion Hn2 as [|? ? Hx2 Hn2']; subst.
    apply IH; [now destruct Ha1|exact Hn1'|now destruct Ha2|exact Hn2'|].
    intros z. split; intros Hz.
    + destruct (proj1 (Hext z) (or_intror Hz)) as [<-|H]; [contradiction|exact H].
    + destruct (proj2 (Hext z) (or_intror Hz)) as [<-|H]; [contradiction|exact H].
Qed.

Lemma np_unique_ext (l1 l2 : list A) :
  (forall x, In x l1 <-> In x l2) -> np_unique cmp l1 = np_unique cmp l2.
Proof.
  intros Hext. apply ascending_NoDup_ext.
  - apply drop_repeats_ascending, (sort_rows_ascending cmp cmp_eq cmp_antisym cmp_trans).
  - apply (np_unique_NoDup cmp cmp_eq cmp_antisym cmp_trans).
  - apply drop_repeats_ascending, (sort_rows_ascending cmp cmp_eq cmp_antisym cmp_trans).
  - apply (np_unique_NoDup cmp cmp_eq cmp_antisym cmp_trans).
  - intros x. rewrite !(np_unique_In cmp cmp_eq). apply Hext.
Qed.
End UniqueOrder.

(** X10. The covariance task list depends only on which tasks the two
    partitions hold between them, not on their order, their repetitions or
    the partition they come from: two configurations with the same tasks get
    the same list, in the same (ascending) order. *)
Theorem cov_tracers_canonical (d1 d2 : Data) :
  (forall t,
     In t (get_cov_trs_names d1 true ++ get_cov_trs_names d1 false)%list <->
     In t (get_cov_trs_names d2 true ++ get_cov_trs_names d2 false)%list) ->
  cov_tracers d1 = cov_tracers d2.
Proof.
  intros H. unfold cov_tracers. apply np_unique_ext; [| | |exact H].
  - exact cov_task_compare_eq.
  - intros x y. apply row_compare_antisym.
  - intros x y z. apply row_compare_trans.
Qed.

Lemma cov_tracers_canonical_witness :
  cov_tracers Sample.permuted = cov_tracers Sample.permuted_swapped.
Proof.
  apply cov_tracers_canonical. intros t. simpl. tauto.
Defined.

Lemma cwsp_add_keys (cwsp : cwsp_dict) (k : string) (t : cov_task) :
  map fst (cwsp_add cwsp k t) =
  if Py.list_in k (map fst cwsp) then map fst cwsp else (map fst cwsp ++ [k])%list.
Proof.
  induction cwsp as [|[k' l] cwsp IH]; [reflexivity|].
  cbn [cwsp_add map fst]. unfold Py.list_in in *. cbn [existsb].
  destruct (k =? k')%string; [reflexivity|].
  cbn [map fst orb]. rewrite IH.
  now destruct (existsb (String.eqb k) (map fst cwsp)).
Qed.

Lemma cwsp_add_NoDup (cwsp : cwsp_dict) (k : string) (t : cov_task) :
  NoDup (map fst cwsp) -> NoDup (map fst (cwsp_add cwsp k t)).
Proof.
  intros H. rewrite cwsp_add_keys.
  destruct (Py.list_in k (map fst cwsp)) eqn:E; [exact H|].
  apply list_in_false_iff in E.
  apply NoDup_app; [exact H|constructor; [intros []|constructor]|].
  intros x Hx [<-|[]]. contradiction.
Qed.

Lemma cwsp_add_length (cwsp : cwsp_dict) (k : string) (t : cov_task) :
  (List.length (cwsp_add cwsp k t) <= S (List.length cwsp))%nat.
Proof.
  induction cwsp as [|[k' l] cwsp IH]; simpl; [lia|].
  destruct (k =? k')%string; simpl; lia.
Qed.

Lemma cwsp_loop_shape (data : Data) (tasks : list cov_task) (acc final : cwsp_dict) :
  cwsp_loop data tasks acc = Ok final ->
  NoDup (map fst acc) ->
  NoDup (map fst final)
  /\ (List.length final <= List.length acc + List.length tasks)%nat.
Proof.
  revert acc. induction tasks as [|t rest IH]; intros acc H Hn; simpl in H.
  - inversion H. subst. split; [exact Hn|lia].
  - destruct (cwsp_fname data t) as [f|e]; [|discriminate]. simpl in H.
    destruct (IH _ H (cwsp_add_NoDup acc f t Hn)) as [H1 H2].
    split; [exact H1|]. pose proof (cwsp_add_length acc f t). simpl. lia.
Qed.

Lemma cwsp_get_In (cwsp : cwsp_dict) (k : string) (l : list cov_task) :
  cwsp_get cwsp k = Some l -> In (k, l) cwsp.
Proof.
  induction cwsp as [|[k' l'] cwsp IH]; simpl; [discriminate|].
  destruct (String.eqb_spec k k') as [->|Hne].
  - intros H. inversion H. now left.
  - intros H. right. now apply IH.
Qed.

Lemma In_cwsp_get (cwsp : cwsp_dict) (k : string) (l : list cov_task) :
  NoDup (map fst cwsp) -> In (k, l) cwsp -> cwsp_get cwsp k = Some l.
Proof.
  induction cwsp as [|[k' l'] cwsp IH]; simpl; [intros _ []|].
  intros Hn [H|H].
  - inversion H. subst. now rewrite String.eqb_refl.
  - inversion Hn as [|? ? Hk Hn']; subst.
    destruct (String.eqb_spec k k') as [->|Hne]; [|now apply IH].
    exfalso. apply Hk. apply in_map_iff. now exists (k', l).
Qed.

(** X11. The groups are a partition of the task list: the paths are pairwise
    distinct, no group is empty, the group of a path holds exactly the tasks
    of that path in task order, each task is in one group and only one, and
    there are at most as many groups as tasks. *)
Theorem groups_partition_tasks (data : Data) (cwsp : cwsp_dict) :
  get_jobs_with_same_cwsp data = Ok cwsp ->
  NoDup (map fst cwsp)
  /\ (forall k l, In (k, l) cwsp ->
        l <> [] /\ l = filter (has_fname data k) (cov_tracers data))
  /\ (forall t, In t (cov_tracers data) ->
        exists k l, In (k, l) cwsp /\ In t l
                    /\ forall k' l', In (k', l') cwsp -> In t l' -> k' = k)
  /\ (List.length cwsp <= List.length (cov_tracers data))%nat.
Proof.
  intros H.
  destruct (cwsp_loop_shape data _ _ _ H (NoDup_nil _)) as [Hn Hlen].
  split; [exact Hn|]. split; [|split; [|exact Hlen]].
  - intros k l Hin. pose proof (In_cwsp_get _ _ _ Hn Hin) as Hg.
    rewrite (get_jobs_group _ _ k H) in Hg.
    destruct (filter (has_fname data k) (cov_tracers data)) as [|x r];
      [discriminate|]. inversion Hg. split; [discriminate|reflexivity].
  - intros t Ht.
    assert (Hf : exists k, cwsp_fname data t = Ok k).
    { destruct (cwsp_fname data t) as [k|e] eqn:Ef; [now exists k|].
      exfalso. unfold get_jobs_with_same_cwsp in H.
      clear Hn Hlen. revert H. generalize (@nil (string * list cov_task)).
      induction (cov_tracers data) as [|u rest IH]; [destruct Ht|].
      intros acc Hl. simpl in Hl. destruct Ht as [->|Ht].
      - rewrite Ef in Hl. discriminate.
      - destruct (cwsp_fname data u); [|discriminate]. simpl in Hl.
        exact (IH Ht _ Hl). }
    destruct Hf as [k Hk].
    destruct (group_of_task data cwsp k t H Ht Hk) as [l [Hg Hl]].
    exists k, l. split; [now apply cwsp_get_In|]. split; [exact Hl|].
    intros k' l' Hin' Hl'.
    pose proof (In_cwsp_get _ _ _ Hn Hin') as Hg'.
    apply (in_group_iff data cwsp k' l' t H Hg') in Hl'.
    destruct Hl' as [_ Hk']. congruence.
Qed.

Lemma groups_partition_tasks_witness :
  NoDup (map fst [("out/cov/cw__mA__mB__mA__mB.fits",
                   [("A", "B", "A", "B"); ("A2", "B", "A2", "B")])])
  /\ get_jobs_with_same_cwsp Sample.shared =
     Ok [("out/cov/cw__mA__mB__mA__mB.fits",
          [("A", "B", "A", "B"); ("A2", "B", "A2", "B")])].
Proof.
  assert (H : get_jobs_with_same_cwsp Sample.shared =
     Ok [("out/cov/cw__mA__mB__mA__mB.fits",
          [("A", "B", "A", "B"); ("A2", "B", "A2", "B")])])
    by (vm_compute; reflexivity).
  split; [|exact H].
  exact (proj1 (groups_partition_tasks Sample.shared _ H)).
Defined.

Lemma lookup_mask_ok_iff (data : Data) (tr : string) :
  (exists m, lookup_mask data tr = Ok m) <->
  has_tracer data tr = true /\ mask_name data tr <> None.
Proof.
  unfold lookup_mask. destruct (has_tracer data tr).
  - destruct (mask_name data tr) as [m|].
    + split; [intros _; split; [reflexivity|discriminate]|intros _; now exists m].
    + split; [intros [m Hm]; discriminate|intros [_ H]; now elim H].
  - split; [intros [m Hm]; discriminate|intros [H _]; discriminate].
Qed.

Lemma lookup_mask_raise (data : Data) (tr : string) (e : exn) :
  lookup_mask data tr = Raise e ->
  (has_tracer data tr = false /\ e = KeyError tr)
  \/ (has_tracer data tr = true /\ mask_name data tr = None
      /\ e = KeyError "mask_name").
Proof.
  unfold lookup_mask. destruct (has_tracer data tr).
  - destruct (mask_name data tr); [discriminate|].
    intros H. inversion H. right. auto.
  - intros H. inversion H. left. auto.
Qed.

Lemma task_masks_ok_iff (data : Data) (t : cov_task) :
  (exists ms, task_masks data t = Ok ms) <->
  (forall tr, In tr (cov_task_trs t) -> exists m, lookup_mask data tr = Ok m).
Proof.
  destruct t as [[[a b] c] d]. unfold task_masks. simpl. split.
  - intros [ms H] tr Htr.
    destruct (lookup_mask data a) eqn:Ea; [|discriminate]. simpl in H.
    destruct (lookup_mask data b) eqn:Eb; [|discriminate]. simpl in H.
    destruct (lookup_mask data c) eqn:Ec; [|discriminate]. simpl in H.
    destruct (lookup_mask data d) eqn:Ed; [|discriminate].
    destruct Htr as [<-|[<-|[<-|[<-|[]]]]]; eexists; eassumption.
  - intros H.
    destruct (H a) as [ma Ha]; [auto|]. destruct (H b) as [mb Hb]; [auto|].
    destruct (H c) as [mc Hc]; [auto|]. destruct (H d) as [md Hd]; [auto 6|].
    rewrite Ha, Hb, Hc, Hd. simpl. eexists. reflexivity.
Qed.

Lemma task_masks_raise (data : Data) (t : cov_task) (e : exn) :
  task_masks data t = Raise e ->
  exists tr, In tr (cov_task_trs t) /\ lookup_mask data tr = Raise e.
Proof.
  destruct t as [[[a b] c] d]. unfold task_masks. simpl.
  destruct (lookup_mask data a) eqn:Ea;
    [|intros H; inversion H; subst; exists a; auto]. simpl.
  destruct (lookup_mask data b) eqn:Eb;
    [|intros H; inversion H; subst; exists b; auto]. simpl.
  destruct (lookup_mask data c) eqn:Ec;
    [|intros H; inversion H; subst; exists c; auto 6]. simpl.
  destruct (lookup_mask data d) eqn:Ed;
    [discriminate|intros H; inversion H; subst; exists d; auto 7].
Qed.

Lemma cwsp_loop_ok_iff (data : Data) (tasks : list cov_task) (acc : cwsp_dict) :
  (exists final, cwsp_loop data tasks acc = Ok final) <->
  (forall t, In t tasks -> exists ms, task_masks data t = Ok ms).
Proof.
  revert acc. induction tasks as [|t rest IH]; intros acc; simpl.
  - split; [intros _ t []|intros _; now exists acc].
  - unfold cwsp_fname at 1.
    destruct (task_masks data t) as [ms|e] eqn:Em; simpl.
    + rewrite IH. split.
      * intros H u [<-|Hu]; [now exists ms|now apply H].
      * intros H u Hu. apply H. now right.
    + split; [intros [f Hf]; discriminate|].
      intros H. destruct (H t (or_introl eq_refl)) as [ms Hms]. congruence.
Qed.

Lemma cwsp_loop_raise (data : Data) (tasks : list cov_task) (acc : cwsp_dict) (e : exn) :
  cwsp_loop data tasks acc = Raise e ->
  exists t, In t tasks /\ task_masks data t = Raise e.
Proof.
  revert acc. induction tasks as [|t rest IH]; intros acc; simpl; [discriminate|].
  unfold cwsp_fname at 1.
  destruct (task_masks data t) as [ms|e'] eqn:Em; simpl.
  - intros H. destruct (IH _ H) as [u [Hu He]]. exists u. split; [now right|exact He].
  - intros H. inversion H. subst. exists t. split; [now left|exact Em].
Qed.

(** X12. The grouping succeeds exactly when every tracer of every task is
    in the configuration and has a ['mask_name'] entry.  Otherwise it raises
    [KeyError]: with the tracer as key for a tracer of the task list that is
    not configured, with ['mask_name'] as key for a configured tracer that
    has no such entry. *)
Theorem grouping_fails_on_missing_mask (data : Data) :
  ((exists cwsp, get_jobs_with_same_cwsp data = Ok cwsp) <->
   (forall t tr, In t (cov_tracers data) -> In tr (cov_task_trs t) ->
      has_tracer data tr = true /\ mask_name data tr <> None))
  /\ (forall e, get_jobs_with_same_cwsp data = Raise e ->
        exists t tr, In t (cov_tracers data) /\ In tr (cov_task_trs t)
          /\ ((has_tracer data tr = false /\ e = KeyError tr)
              \/ (has_tracer data tr = true /\ mask_name data tr = None
                  /\ e = KeyError "mask_name"))).
Proof.
  unfold get_jobs_with_same_cwsp. split.
  - rewrite cwsp_loop_ok_iff. split.
    + intros H t tr Ht Htr. apply lookup_mask_ok_iff.
      now apply (proj1 (task_masks_ok_iff data t) (H t Ht)).
    + intros H t Ht. apply task_masks_ok_iff. intros tr Htr.
      apply lookup_mask_ok_iff. now apply (H t).
  - intros e H. destruct (cwsp_loop_raise _ _ _ _ H) as [t [Ht Hm]].
    destruct (task_masks_raise _ _ _ Hm) as [tr [Htr Hl]].
    exists t, tr. split; [exact Ht|]. split; [exact Htr|].
    now apply lookup_mask_raise.
Qed.

(** ** The first loop of [launch_cov_batches2]: what a pass does *)

Lemma written_app (t1 t2 : list event) :
  written (t1 ++ t2)%list = (written t1 ++ written t2)%list.
Proof.
  induction t1 as [|e t1 IH]; [reflexivity|].
  destruct e; simpl; rewrite IH; reflexivity.
Qed.

Lemma written_probes (data : Data) (skip fs : list string) (trs_list : list cov_task) :
  written (flat_map (task_probes data skip fs) trs_list) = []
  /\ submissions (flat_map (task_probes data skip fs) trs_list) = [].
Proof.
  induction trs_list as [|t l [IH1 IH2]]; [split; reflexivity|].
  cbn [flat_map]. rewrite written_app, submissions_app, IH1, IH2.
  unfold task_probes. destruct (task_done data fs t); split; reflexivity.
Qed.

Lemma task_survives_mono (data : Data) (skip fs fs' : list string) (t : cov_task) :
  (forall p, Py.list_in p fs = true -> Py.list_in p fs' = true) ->
  task_survives data skip fs' t = true -> task_survives data skip fs t = true.
Proof.
  intros Hsub. unfold task_survives, task_done.
  destruct (Py.list_in (cov_npz (output data) t) fs) eqn:E.
  - now rewrite (Hsub _ E).
  - simpl. intros H. apply andb_true_iff in H. apply (proj2 H).
Qed.

Lemma survivors_mono (data : Data) (skip fs fs' : list string) (l : list cov_task) :
  (forall p, Py.list_in p fs = true -> Py.list_in p fs' = true) ->
  filter (task_survives data skip fs) l = [] ->
  filter (task_survives data skip fs') l = [].
Proof.
  intros Hsub. induction l as [|t l IH]; [reflexivity|]. cbn [filter].
  destruct (task_survives data skip fs t) eqn:E; [discriminate|].
  intros H. destruct (task_survives data skip fs' t) eqn:E'.
  - rewrite (task_survives_mono data skip fs fs' t Hsub E') in E. discriminate.
  - now apply IH.
Qed.

Lemma group_settled_mono (data : Data) (skip fs fs' : list string)
    (g : string * list cov_task) :
  (forall p, Py.list_in p fs = true -> Py.list_in p fs' = true) ->
  group_settled data skip fs g -> group_settled data skip fs' g.
Proof.
  intros Hsub [H|H]; [left; now apply Hsub|right].
  now apply (survivors_mono data skip fs fs').
Qed.

(** What one group costs: nothing is written for a group passed over, the
    lock and then the script for a group dispatched; a group whose lock or
    script cannot be opened stops the pass.  No file disappears, no directory
    is made, nothing is submitted. *)
Lemma group_step_effects (data : Data) (skip : list string) (a : Args)
    (remove_cwsp : bool) (outdir_batches cw : string) (trs_list : list cov_task)
    (w : world) :
  let '(r, w') := group_step data skip a remove_cwsp outdir_batches cw trs_list w in
  submissions (trace w') = submissions (trace w)
  /\ dirs w' = dirs w
  /\ (forall p, Py.list_in p (files w) = true -> Py.list_in p (files w') = true)
  /\ match r with
     | Ok None => files w' = files w /\ written (trace w') = written (trace w)
                  /\ group_settled data skip (files w) (cw, trs_list)
     | Ok (Some sh) =>
         sh = group_sh_name outdir_batches cw
         /\ Py.list_in (cw ++ ".lock") (files w) = false
         /\ Py.list_in (cw ++ ".lock") (files w') = true
         /\ exists chunks,
              written (trace w') =
              (written (trace w) ++ lock_and_script outdir_batches (cw, chunks))%list
     | Raise e =>
         Py.list_in (cw ++ ".lock") (files w) = false
         /\ ((e = FileNotFoundError (cw ++ ".lock")
              /\ parent_exists (cw ++ ".lock") (dirs w) = false
              /\ files w' = files w
              /\ written (trace w') = written (trace w))
             \/ (e = FileNotFoundError (group_sh_name outdir_batches cw)
                 /\ parent_exists (group_sh_name outdir_batches cw) (dirs w) = false
                 /\ written (trace w') =
                      (written (trace w) ++ [((cw ++ ".lock")%string, [""])])%list))
     end.
Proof.
  rewrite group_step_cases.
  destruct (written_probes data skip (files w) trs_list) as [Hwp Hsp].
  destruct (Py.list_in (cw ++ ".lock") (files w)) eqn:Elock.
  - cbn [files dirs trace]. rewrite submissions_app, written_app. cbn.
    rewrite !app_nil_r. repeat split; auto; now left.
  - destruct (filter (task_survives data skip (files w)) trs_list) as [|t l] eqn:Ef.
    + cbn [files dirs trace].
      change (IsFile (cw ++ ".lock") false
              :: flat_map (task_probes data skip (files w)) trs_list)
        with ([IsFile (cw ++ ".lock") false]
              ++ flat_map (task_probes data skip (files w)) trs_list)%list.
      rewrite !submissions_app, !written_app, Hwp, Hsp. cbn.
      rewrite !app_nil_r. repeat split; auto; now right.
    + destruct (parent_exists (cw ++ ".lock") (dirs w)) eqn:Epl;
        [destruct (parent_exists (group_sh_name outdir_batches cw) (dirs w)) eqn:Eps|].
      * cbn [files dirs trace].
        change (IsFile (cw ++ ".lock") false
                :: flat_map (task_probes data skip (files w)) trs_list ++ ?x)%list
          with ([IsFile (cw ++ ".lock") false]
                ++ flat_map (task_probes data skip (files w)) trs_list ++ x)%list.
        rewrite !submissions_app, !written_app, Hwp, Hsp. cbn [submissions written app].
        rewrite !app_nil_r.
        assert (Hlock : Py.list_in (cw ++ ".lock")
                          (add_path (group_sh_name outdir_batches cw)
                             (add_path (cw ++ ".lock") (files w))) = true)
          by apply add_path_keeps, add_path_in.
        repeat split; auto.
        -- intros p Hp. now apply add_path_keeps, add_path_keeps.
        -- eexists. reflexivity.
      * cbn [files dirs trace].
        change (IsFile (cw ++ ".lock") false
                :: flat_map (task_probes data skip (files w)) trs_list ++ ?x)%list
          with ([IsFile (cw ++ ".lock") false]
                ++ flat_map (task_probes data skip (files w)) trs_list ++ x)%list.
        rewrite !submissions_app, !written_app, Hwp, Hsp. cbn [submissions written app].
        rewrite !app_nil_r.
        repeat split; auto.
        intros p Hp. now apply add_path_keeps.
      * cbn [files dirs trace].
        change (IsFile (cw ++ ".lock") false
                :: flat_map (task_probes data skip (files w)) trs_list)
          with ([IsFile (cw ++ ".lock") false]
                ++ flat_map (task_probes data skip (files w)) trs_list)%list.
        rewrite !submissions_app, !written_app, Hwp, Hsp. cbn.
        rewrite !app_nil_r. repeat split; auto.
Qed.

(** What a pass of the first loop does.  [disp] are the groups dispatched,
    with the chunks of their scripts; [orphan] is the lock of the group at
    which the pass was stopped because its script could not be opened. *)
Lemma groups_loop_effects (data : Data) (skip : list string) (a : Args)
    (remove_cwsp : bool) (cap : Z) (outdir_batches : string)
    (groups : cwsp_dict) (c : Z) (sh_tbc : list string) (w : world) :
  exists disp orphan : list (string * list string),
    let '(r, w') :=
      groups_loop data skip a remove_cwsp cap outdir_batches groups c sh_tbc w in
    written (trace w') =
      (written (trace w) ++ flat_map (lock_and_script outdir_batches) disp ++ orphan)%list
    /\ Z.of_nat (List.length disp + List.length orphan) <= Z.max 0 (cap - c)
    /\ (List.length disp + List.length orphan <= List.length groups)%nat
    /\ submissions (trace w') = submissions (trace w)
    /\ dirs w' = dirs w
    /\ (forall p, Py.list_in p (files w) = true -> Py.list_in p (files w') = true)
    /\ (forall d, In d disp ->
          In (fst d) (map fst groups)
          /\ Py.list_in (fst d ++ ".lock") (files w) = false
          /\ Py.list_in (fst d ++ ".lock") (files w') = true)
    /\ match r with
       | Ok (c', sh') =>
           orphan = []
           /\ sh' = (sh_tbc ++ map (fun d => group_sh_name outdir_batches (fst d)) disp)%list
           /\ c' = c + Z.of_nat (List.length disp)
           /\ (c + Z.of_nat (List.length groups) <= cap ->
               forall g, In g groups -> group_settled data skip (files w') g)
       | Raise e =>
           exists cw,
             In cw (map fst groups)
             /\ Py.list_in (cw ++ ".lock") (files w) = false
             /\ ((e = FileNotFoundError (cw ++ ".lock")
                  /\ parent_exists (cw ++ ".lock") (dirs w) = false
                  /\ orphan = [])
                 \/ (e = FileNotFoundError (group_sh_name outdir_batches cw)
                     /\ parent_exists (group_sh_name outdir_batches cw) (dirs w) = false
                     /\ orphan = [((cw ++ ".lock")%string, [""])]))
       end.
Proof.
  revert c sh_tbc w. induction groups as [|[cw trs_list] rest IH]; intros c sh_tbc w.
  - exists [], []. cbn. rewrite !app_nil_r.
    repeat split; auto; try lia; try (intros ? []); try (intros _ ? []).
  - cbn [groups_loop]. destruct (c >=? cap) eqn:Ecap.
    + exists [], []. cbn [retE List.length map flat_map app]. rewrite !app_nil_r.
      repeat split; auto; try lia; try (intros ? []);
        try (match goal with H : In _ [] |- _ => destruct H end).
    + unfold bindE.
      pose proof (group_step_effects data skip a remove_cwsp outdir_batches cw
                    trs_list w) as Hstep.
      destruct (group_step data skip a remove_cwsp outdir_batches cw trs_list w)
        as [[[sh1|]|e] w1].
      * destruct Hstep as [Hsub1 [Hdirs1 [Hmono1 [Hsh [Habs [Hpres [chunks Hwr]]]]]]].
        destruct (IH (c + 1) (sh_tbc ++ [sh1])%list w1) as [disp [orphan Hrest]].
        exists ((cw, chunks) :: disp), orphan.
        destruct (groups_loop data skip a remove_cwsp cap outdir_batches rest
                    (c + 1) (sh_tbc ++ [sh1])%list w1) as [r w'].
        destruct Hrest as [Hw [Hb [Hl [Hsu [Hdi [Hm [Hd Hr]]]]]]].
        cbn [List.length map flat_map fst snd].
        split; [rewrite Hw, Hwr, <- !app_assoc; reflexivity|].
        split; [lia|]. split; [lia|].
        split; [congruence|]. split; [congruence|].
        split; [intros p Hp; now apply Hm, Hmono1|].
        split.
        -- intros d [<-|Hin].
           ++ cbn [fst]. split; [now left|]. split; [exact Habs|now apply Hm].
           ++ destruct (Hd d Hin) as [H1 [H2 H3]].
              split; [now right|]. split; [|exact H3].
              destruct (Py.list_in (fst d ++ ".lock") (files w)) eqn:E; [|reflexivity].
              rewrite (Hmono1 _ E) in H2. discriminate.
        -- destruct r as [[c' sh']|e].
           ++ destruct Hr as [Ho [Hs [Hc Hst]]].
              split; [exact Ho|].
              split; [rewrite Hs, <- app_assoc, Hsh; reflexivity|].
              split; [lia|].
              intros Hc' g [<-|Hin].
              ** apply Hm in Hpres. now left.
              ** apply Hst; [lia|exact Hin].
           ++ destruct Hr as [cw' [Hin [Hab Hcase]]].
              exists cw'. split; [now right|]. split.
              { destruct (Py.list_in (cw' ++ ".lock") (files w)) eqn:E; [|reflexivity].
                rewrite (Hmono1 _ E) in Hab. discriminate. }
              rewrite <- Hdirs1. exact Hcase.
      * destruct Hstep as [Hsub1 [Hdirs1 [Hmono1 [Hf [Hwr Hset0]]]]].
        destruct (IH c sh_tbc w1) as [disp [orphan Hrest]].
        exists disp, orphan.
        destruct (groups_loop data skip a remove_cwsp cap outdir_batches rest
                    c sh_tbc w1) as [r w'].
        destruct Hrest as [Hw [Hb [Hl [Hsu [Hdi [Hm [Hd Hr]]]]]]].
        cbn [List.length map].
        split; [rewrite Hw, Hwr; reflexivity|].
        split; [exact Hb|]. split; [lia|].
        split; [congruence|]. split; [congruence|].
        split; [intros p Hp; now apply Hm, Hmono1|].
        split.
        -- intros d Hin. destruct (Hd d Hin) as [H1 [H2 H3]].
           split; [now right|]. split; [|exact H3]. now rewrite <- Hf.
        -- destruct r as [[c' sh']|e].
           ++ destruct Hr as [Ho [Hs [Hc Hst]]].
              split; [exact Ho|]. split; [exact Hs|]. split; [exact Hc|].
              intros Hc' g [<-|Hin].
              ** apply (group_settled_mono data skip (files w)); [|exact Hset0].
                 intros p Hp. now apply Hm, Hmono1.
              ** apply Hst; [lia|exact Hin].
           ++ destruct Hr as [cw' [Hin [Hab Hcase]]].
              exists cw'. split; [now right|]. split; [now rewrite <- Hf|].
              rewrite <- Hdirs1. exact Hcase.
      * destruct Hstep as [Hsub1 [Hdirs1 [Hmono1 [Habs Hcase]]]].
        destruct Hcase as [[He [Hpe [Hf Hwr]]]|[He [Hpe Hwr]]].
        -- exists [], []. cbn [List.length map flat_map app].
           rewrite app_nil_r.
           split; [exact Hwr|]. split; [lia|]. split; [lia|].
           split; [exact Hsub1|]. split; [exact Hdirs1|]. split; [exact Hmono1|].
           split; [intros ? []|].
           exists cw. split; [now left|]. split; [exact Habs|]. left. now repeat split.
        -- exists [], [((cw ++ ".lock")%string, [""])]. cbn [List.length map flat_map app].
           split; [exact Hwr|]. split; [lia|]. split; [lia|].
           split; [exact Hsub1|]. split; [exact Hdirs1|]. split; [exact Hmono1|].
           split; [intros ? []|].
           exists cw. split; [now left|]. split; [exact Habs|]. right. now repeat split.
Qed.

(** X13. One pass of the first loop of [launch_cov_batches2] writes at most
    [njobs * nnodes] group scripts (none when that cap is not positive) and
    never more than there are groups; its counter is the number of scripts
    written; and the pass itself submits nothing.  The same bounds hold of
    the files written when the pass is stopped by a file that cannot be
    opened: at most two per group and per unit of the cap. *)
Theorem group_scripts_bounded_by_cap (data : Data) (skip : list string) (a : Args)
    (remove_cwsp : bool) (cap : Z) (outdir_batches : string)
    (groups : cwsp_dict) (w : world) :
  let '(r, w') :=
    groups_loop data skip a remove_cwsp cap outdir_batches groups 0 [] w in
  submissions (trace w') = submissions (trace w)
  /\ Z.of_nat (List.length (written (trace w')))
       <= Z.of_nat (List.length (written (trace w))) + 2 * Z.max 0 cap
  /\ (List.length (written (trace w'))
       <= List.length (written (trace w)) + 2 * List.length groups)%nat
  /\ match r with
     | Ok (c, sh_tbc) =>
         c = Z.of_nat (List.length sh_tbc)
         /\ Z.of_nat (List.length sh_tbc) <= Z.max 0 cap
         /\ (List.length sh_tbc <= List.length groups)%nat
         /\ List.length (written (trace w')) =
              (List.length (written (trace w)) + 2 * List.length sh_tbc)%nat
     | Raise e => exists path, e = FileNotFoundError path
     end.
Proof.
  destruct (groups_loop_effects data skip a remove_cwsp cap outdir_batches groups
              0 [] w) as [disp [orphan H]].
  destruct (groups_loop data skip a remove_cwsp cap outdir_batches groups 0 [] w)
    as [r w'].
  destruct H as [Hw [Hb [Hl [Hsu [_ [_ [_ Hr]]]]]]].
  rewrite Z.sub_0_r in Hb.
  assert (Hlen : List.length (written (trace w')) =
                 (List.length (written (trace w)) + 2 * List.length disp
                  + List.length orphan)%nat).
  { assert (Hfm : forall l : list (string * list string),
               List.length (flat_map (lock_and_script outdir_batches) l)
               = (2 * List.length l)%nat).
    { induction l as [|d l IHl]; [reflexivity|].
      cbn [flat_map lock_and_script app List.length]. rewrite IHl. lia. }
    rewrite Hw, !length_app, Hfm. lia. }
  split; [exact Hsu|]. split; [lia|]. split; [lia|].
  destruct r as [[c sh]|e].
  - destruct Hr as [Ho [Hs [Hc _]]]. cbn [app] in Hs. subst sh orphan.
    rewrite length_map. cbn [List.length] in *. repeat split; lia.
  - destruct Hr as [cw [_ [_ [[He _]|[He _]]]]]; eexists; exact He.
Qed.

(** X14. A pass writes files in pairs, the lock of a group and then its
    script, and nothing else.  The groups dispatched are groups of the list
    that had no lock when the pass began and have one when it ends, and no
    file that was there disappears.  A lock is left without its script only
    when the script cannot be opened, which stops the pass; this does not
    happen in the directory that the launcher makes for the scripts, so
    that no lock is left without a script there. *)
Theorem locks_and_scripts_in_pairs (data : Data) (skip : list string) (a : Args)
    (remove_cwsp : bool) (cap : Z) (outdir_batches : string)
    (groups : cwsp_dict) (w : world) :
  let '(r, w') :=
    groups_loop data skip a remove_cwsp cap outdir_batches groups 0 [] w in
  exists disp orphan : list (string * list string),
    written (trace w') =
      (written (trace w) ++ flat_map (lock_and_script outdir_batches) disp ++ orphan)%list
    /\ (forall d, In d disp ->
          In (fst d) (map fst groups)
          /\ Py.list_in (fst d ++ ".lock") (files w) = false
          /\ Py.list_in (fst d ++ ".lock") (files w') = true)
    /\ (forall p, Py.list_in p (files w) = true -> Py.list_in p (files w') = true)
    /\ match r with
       | Ok (c, sh_tbc) =>
           orphan = []
           /\ sh_tbc = map (fun d => group_sh_name outdir_batches (fst d)) disp
       | Raise e =>
           exists cw,
             In cw (map fst groups)
             /\ ((e = FileNotFoundError (cw ++ ".lock") /\ orphan = [])
                 \/ (e = FileNotFoundError (group_sh_name outdir_batches cw)
                     /\ parent_exists (group_sh_name outdir_batches cw) (dirs w) = false
                     /\ orphan = [((cw ++ ".lock")%string, [""])]))
       end
    /\ (outdir_batches = Py.os_path_join (output data) ["run_batches"] ->
        Py.list_in outdir_batches (dirs w) = true -> orphan = []).
Proof.
  destruct (groups_loop_effects data skip a remove_cwsp cap outdir_batches groups
              0 [] w) as [disp [orphan H]].
  destruct (groups_loop data skip a remove_cwsp cap outdir_batches groups 0 [] w)
    as [r w'].
  destruct H as [Hw [_ [_ [_ [_ [Hm [Hd Hr]]]]]]].
  exists disp, orphan.
  split; [exact Hw|]. split; [exact Hd|]. split; [exact Hm|].
  destruct r as [[c sh]|e].
  - destruct Hr as [Ho [Hs _]]. cbn [app] in Hs. repeat split; auto.
  - destruct Hr as [cw [Hin [_ [[He [_ Ho]]|[He [Hp Ho]]]]]].
    + split; [exists cw; split; [exact Hin|left; now split]|]. now intros _ _.
    + split; [exists cw; split; [exact Hin|right; now repeat split]|].
      intros -> Hdir.
      rewrite (group_script_can_be_opened (output data) cw (dirs w) Hdir) in Hp.
      discriminate.
Qed.

Lemma group_step_settled (data : Data) (skip : list string) (a : Args)
    (remove_cwsp : bool) (outdir_batches cw : string) (trs_list : list cov_task)
    (w : world) :
  group_settled data skip (files w) (cw, trs_list) ->
  fst (group_step data skip a remove_cwsp outdir_batches cw trs_list w) = Ok None.
Proof.
  intros Hset.
  rewrite group_step_cases.
  destruct (Py.list_in (cw ++ ".lock") (files w)) eqn:Elock; [reflexivity|].
  destruct Hset as [Hl|Hf]; cbn [fst snd] in *; [congruence|].
  now rewrite Hf.
Qed.

Lemma settled_pass (data : Data) (skip : list string) (a : Args)
    (remove_cwsp : bool) (cap : Z) (outdir_batches : string)
    (groups : cwsp_dict) (c : Z) (sh_tbc : list string) (w : world) :
  (forall g, In g groups -> group_settled data skip (files w) g) ->
  exists w',
    groups_loop data skip a remove_cwsp cap outdir_batches groups c sh_tbc w
      = (Ok (c, sh_tbc), w')
    /\ files w' = files w
    /\ written (trace w') = written (trace w).
Proof.
  revert w. induction groups as [|[cw trs_list] rest IH]; intros w Hset.
  - exists w. cbn. auto.
  - cbn [groups_loop]. destruct (c >=? cap); [exists w; cbn; auto|].
    unfold bindE.
    pose proof (group_step_effects data skip a remove_cwsp outdir_batches cw
                  trs_list w) as Hstep.
    pose proof (group_step_settled data skip a remove_cwsp outdir_batches cw
                  trs_list w (Hset _ (or_introl eq_refl))) as Hnone.
    destruct (group_step data skip a remove_cwsp outdir_batches cw trs_list w)
      as [[[sh1|]|e] w1]; try discriminate.
    destruct Hstep as [_ [_ [_ [Hf [Hwr _]]]]].
    assert (Hset1 : forall g, In g rest -> group_settled data skip (files w1) g).
    { intros g Hg. rewrite Hf. apply Hset. now right. }
    destruct (IH w1 Hset1) as [w' [Hl [Hf' Hw']]].
    exists w'. rewrite Hl. repeat split; congruence.
Qed.

(** X15. Running the pass again at once dispatches nothing: when the cap
    lets the first pass reach every group and that pass returns, a second
    pass over the same groups returns as well, writes no lock and no script
    and leaves the files as they are. *)
Theorem second_pass_dispatches_nothing (data : Data) (skip : list string) (a : Args)
    (remove_cwsp : bool) (cap : Z) (outdir_batches : string)
    (groups : cwsp_dict) (w w1 : world) (r1 : Z * list string) :
  Z.of_nat (List.length groups) <= cap ->
  groups_loop data skip a remove_cwsp cap outdir_batches groups 0 [] w = (Ok r1, w1) ->
  exists w2,
    groups_loop data skip a remove_cwsp cap outdir_batches groups 0 [] w1
      = (Ok (0, []), w2)
    /\ files w2 = files w1
    /\ written (trace w2) = written (trace w1).
Proof.
  intros Hcap Hfirst.
  destruct (groups_loop_effects data skip a remove_cwsp cap outdir_batches groups
              0 [] w) as [disp [orphan H]].
  rewrite Hfirst in H. destruct r1 as [c1 sh1].
  destruct H as [_ [_ [_ [_ [_ [_ [_ [_ [_ [_ Hset]]]]]]]]]].
  apply settled_pass. apply Hset. lia.
Qed.

Lemma second_pass_dispatches_nothing_witness :
  let groups := [("out/cov/cw__mA__mB__mA__mB.fits",
                  [("A", "B", "A", "B"); ("A2", "B", "A2", "B")])] in
  let w1 := snd (groups_loop Sample.shared [] Sample.args false 100000
                   "out/run_batches" groups 0 [] Sample.empty_world) in
  fst (groups_loop Sample.shared [] Sample.args false 100000
         "out/run_batches" groups 0 [] w1) = Ok (0, []).
Proof.
  intros groups w1.
  assert (Hcap : Z.of_nat (List.length groups) <= 100000) by (cbn; lia).
  destruct (groups_loop Sample.shared [] Sample.args false 100000
              "out/run_batches" groups 0 [] Sample.empty_world) as [r0 w0] eqn:E.
  destruct r0 as [r0|e]; [|vm_compute in E; discriminate].
  destruct (second_pass_dispatches_nothing Sample.shared [] Sample.args false
              100000 "out/run_batches" groups Sample.empty_world w0 r0 Hcap E)
    as [w2 [H2 _]].
  unfold w1. cbn [snd]. rewrite H2. reflexivity.
Defined.

(** ** The second loop of [launch_cov_batches2]: one job per node *)

(** When the second loop returns it has written one outer script and made
    one submission per node; stopped by an outer script that cannot be
    opened, it has made fewer. *)
Lemma nodes_loop_effects (a : Args) (clk : Clock) (outdir outdir_batches logfolder : string)
    (n_total_jobs nnodes : Z) (sh_tbc : list string) (nodes : list Z) (njobs : Z)
    (w : world) :
  let '(r, w') := nodes_loop a clk outdir outdir_batches logfolder n_total_jobs nnodes
                    sh_tbc nodes njobs w in
  match r with
  | Ok _ =>
      List.length (submissions (trace w')) =
        (List.length (submissions (trace w)) + List.length nodes)%nat
      /\ exists outer,
           written (trace w') = (written (trace w) ++ outer)%list
           /\ map snd outer =
                map node_script (node_chunks n_total_jobs nnodes sh_tbc nodes njobs)
  | Raise e =>
      (List.length (submissions (trace w')) <
         List.length (submissions (trace w)) + List.length nodes)%nat
      /\ exists path, e = FileNotFoundError path
  end.
Proof.
  revert njobs w. induction nodes as [|nodei rest IH]; intros njobs w.
  - cbn. split; [lia|]. exists []. now rewrite app_nil_r.
  - cbn [nodes_loop node_chunks]. unfold bindE at 1. unfold write_file.
    destruct (parent_exists _ (dirs w)).
    + unfold bindE at 1. unfold liftIO at 1.
      match goal with |- context [call_get_pyexec ?cm ?aa ?mm ?od ?bb ?lf ?w0] =>
        destruct (call_get_pyexec_spec cm aa mm od bb lf w0) as [ds [-> _]] end.
      unfold bindE, liftIO, os_system, emit. cbn [files dirs trace].
      match goal with |- context [nodes_loop _ _ _ _ _ _ _ _ rest ?nj ?w1] =>
        specialize (IH nj w1); destruct (nodes_loop a clk outdir outdir_batches logfolder
                                           n_total_jobs nnodes sh_tbc rest nj w1)
          as [r w'] end.
      cbn [files dirs trace] in IH.
      rewrite !submissions_app in IH. cbn [submissions] in IH.
      rewrite !length_app in IH. cbn [List.length] in IH.
      rewrite !written_app in IH. cbn [written] in IH.
      destruct r as [u|e].
      * destruct IH as [Hs [outer [Hw Ho]]].
        split; [cbn [List.length]; lia|].
        eexists (_ :: outer). split.
        -- rewrite Hw, app_nil_r, <- app_assoc. reflexivity.
        -- cbn [map snd]. now rewrite Ho.
      * destruct IH as [Hs Hp]. split; [cbn [List.length]; lia|exact Hp].
    + split; [cbn [List.length]; lia|]. eexists. reflexivity.
Qed.

Lemma range_length (n : Z) : List.length (Py.range n) = Z.to_nat n.
Proof. unfold Py.range. now rewrite length_map, length_seq. Qed.

Lemma node_chunks_length (n_total_jobs nnodes : Z) (sh_tbc : list string)
    (nodes : list Z) (njobs : Z) :
  List.length (node_chunks n_total_jobs nnodes sh_tbc nodes njobs) = List.length nodes.
Proof.
  revert njobs. induction nodes as [|x l IH]; intros njobs; [reflexivity|].
  cbn [node_chunks List.length]. now rewrite IH.
Qed.

(** X16. An invocation of [launch_cov_batches2] that returns normally has
    submitted exactly one job per node, whatever the number of group scripts
    it wrote (also when it wrote none).  What it wrote is, in order: a lock
    and a script for each group dispatched, then one outer script per node,
    which invokes the slice [sh_tbc[nodei : (nodei + 1) * njobs]] of the
    group scripts. *)
Theorem one_submission_per_node (data : Data) (a : Args) (clk : Clock) (njobs : Z)
    (skip : list string) (remove_cwsp : bool) (nnodes : Z) (w w' : world) :
  launch_cov_batches2 data a clk njobs skip remove_cwsp nnodes w = Ok w' ->
  List.length (submissions (trace w')) =
    (List.length (submissions (trace w)) + Z.to_nat nnodes)%nat
  /\ exists cwsp disp outer,
       get_jobs_with_same_cwsp data = Ok cwsp
       /\ written (trace w') =
            (written (trace w)
             ++ flat_map (lock_and_script (Py.os_path_join (output data) ["run_batches"]))
                  disp
             ++ outer)%list
       /\ List.length outer = Z.to_nat nnodes
       /\ map snd outer =
            map node_script
              (node_chunks (Z.of_nat (List.length cwsp)) nnodes
                 (map (fun d => group_sh_name
                                  (Py.os_path_join (output data) ["run_batches"]) (fst d))
                      disp)
                 (Py.range nnodes) njobs).
Proof.
  rewrite launch_cov_batches2_steps.
  destruct (get_jobs_with_same_cwsp data) as [cwsp|e]; [|discriminate].
  cbv zeta.
  set (ob := Py.os_path_join (output data) ["run_batches"]).
  destruct (makedirs_makes ob w) as [_ [_ [Hf0 Ht0]]].
  set (w0 := snd (os_makedirs ob w)) in *.
  destruct (groups_loop_effects data skip a remove_cwsp (njobs * nnodes) ob cwsp 0 [] w0)
    as [disp [orphan H1]].
  destruct (groups_loop data skip a remove_cwsp (njobs * nnodes) ob cwsp 0 [] w0)
    as [[[c sh]|e] w1]; [|discriminate].
  destruct H1 as [Hw1 [_ [_ [Hsu1 [_ [_ [_ [Ho [Hs _]]]]]]]]]. cbn [app] in Hs.
  subst orphan. rewrite app_nil_r in Hw1. cbn [snd].
  pose proof (nodes_loop_effects a clk (output data) ob
                (Py.os_path_join (output data) ["log"])
                (Z.of_nat (List.length cwsp)) nnodes sh (Py.range nnodes) njobs w1) as H2.
  destruct (nodes_loop a clk (output data) ob (Py.os_path_join (output data) ["log"])
              (Z.of_nat (List.length cwsp)) nnodes sh (Py.range nnodes) njobs w1)
    as [[u|e] w2]; [|discriminate].
  intros Hok. inversion Hok. subst w2.
  destruct H2 as [Hsu2 [outer [Hw2 Hou]]].
  split; [rewrite Hsu2, Hsu1, Ht0, range_length; reflexivity|].
  exists cwsp, disp, outer. split; [reflexivity|].
  split; [rewrite Hw2, Hw1, Ht0, <- app_assoc; reflexivity|].
  split; [|rewrite Hou, Hs; reflexivity].
  apply (f_equal (@List.length _)) in Hou. rewrite !length_map in Hou.
  now rewrite Hou, node_chunks_length, range_length.
Qed.

Lemma one_submission_per_node_witness :
  match launch_cov_batches2 Sample.four_groups Sample.args Sample.clock 100000 [] false 2
          Sample.empty_world with
  | Ok w' => List.length (submissions (trace w')) = 2%nat
  | Raise _ => False
  end.
Proof.
  destruct (launch_cov_batches2 Sample.four_groups Sample.args Sample.clock 100000 []
              false 2 Sample.empty_world) as [w'|e] eqn:E.
  - exact (proj1 (one_submission_per_node _ _ _ _ _ _ _ _ _ E)).
  - vm_compute in E. discriminate.
Defined.

Lemma slice_from_start_all {A : Type} (l : list A) (b : Z) :
  Z.of_nat (List.length l) <= b \/ l = [] -> Py.slice l 0 b = l.
Proof.
  intros H. unfold Py.slice, Py.slice_bound.
  replace (Z.to_nat (Z.min (Z.of_nat (List.length l)) (Z.max 0 (if 0 <? 0 then 0 + Z.of_nat (List.length l) else 0))))
    with 0%nat by (cbn; lia).
  cbn [skipn]. destruct H as [H| ->]; [|now rewrite firstn_nil].
  destruct (b <? 0) eqn:Eb.
  - assert (List.length l = 0%nat) by lia. destruct l; [now rewrite firstn_nil|discriminate].
  - replace (Z.to_nat (Z.min (Z.of_nat (List.length l)) (Z.max 0 b)))
      with (List.length l) by lia.
    apply firstn_all.
Qed.

(** X17. With one node (the default), the single outer script invokes every
    group script written by the invocation, once each and in the order of
    the groups. *)
Theorem single_node_runs_every_script (data : Data) (a : Args) (clk : Clock) (njobs : Z)
    (skip : list string) (remove_cwsp : bool) (w w' : world) :
  launch_cov_batches2 data a clk njobs skip remove_cwsp 1 w = Ok w' ->
  exists disp name,
    written (trace w') =
      (written (trace w)
       ++ flat_map (lock_and_script (Py.os_path_join (output data) ["run_batches"])) disp
       ++ [(name,
            node_script
              (map (fun d => group_sh_name
                               (Py.os_path_join (output data) ["run_batches"]) (fst d))
                   disp))])%list.
Proof.
  rewrite launch_cov_batches2_steps.
  destruct (get_jobs_with_same_cwsp data) as [cwsp|e]; [|discriminate].
  cbv zeta.
  set (ob := Py.os_path_join (output data) ["run_batches"]).
  destruct (makedirs_makes ob w) as [_ [_ [Hf0 Ht0]]].
  set (w0 := snd (os_makedirs ob w)) in *.
  destruct (groups_loop_effects data skip a remove_cwsp (njobs * 1) ob cwsp 0 [] w0)
    as [disp [orphan H1]].
  destruct (groups_loop data skip a remove_cwsp (njobs * 1) ob cwsp 0 [] w0)
    as [[[c sh]|e] w1]; [|discriminate].
  destruct H1 as [Hw1 [Hb [Hl [_ [_ [_ [_ [Ho [Hs _]]]]]]]]]. cbn [app] in Hs.
  subst orphan. rewrite app_nil_r in Hw1. rewrite Nat.add_0_r in Hb, Hl. cbn [snd].
  change (Py.range 1) with [0].
  cbn [nodes_loop]. unfold bindE at 1. unfold write_file.
  destruct (parent_exists _ (dirs w1)); [|discriminate].
  unfold bindE at 1. unfold liftIO at 1.
  match goal with |- context [call_get_pyexec ?cm ?aa ?mm ?od ?bb ?lf ?wx] =>
    destruct (call_get_pyexec_spec cm aa mm od bb lf wx) as [ds [-> _]] end.
  unfold bindE, liftIO, os_system, emit, retE. cbn [files dirs trace].
  intros Hok. inversion Hok. subst w'. clear Hok.
  cbn [trace]. rewrite !written_app. cbn [written]. rewrite Hw1, Ht0, app_nil_r.
  exists disp. eexists. rewrite <- app_assoc. f_equal. f_equal. f_equal.
  f_equal. f_equal. rewrite <- Hs.
  unfold node_chunk. apply slice_from_start_all.
  assert (Hlen : List.length sh = List.length disp) by (rewrite Hs; apply length_map).
  rewrite Z.sub_0_r in Hb. unfold njobs_per_node.
  destruct (njobs * 1 >? Z.of_nat (List.length cwsp)) eqn:E.
  - left. rewrite Z.div_1_r. lia.
  - destruct (Z_lt_le_dec njobs 0) as [Hneg|Hpos].
    + right. destruct sh; [reflexivity|]. cbn [List.length] in Hlen. lia.
    + left. lia.
Qed.

Lemma single_node_runs_every_script_witness :
  match launch_cov_batches2 Sample.shared Sample.args Sample.clock 100000 [] false 1
          Sample.empty_world with
  | Ok w' =>
      exists disp name,
        written (trace w') =
          (flat_map (lock_and_script "out/run_batches") disp
           ++ [(name, node_script (map (fun d => group_sh_name "out/run_batches" (fst d))
                                       disp))])%list
  | Raise _ => False
  end.
Proof.
  destruct (launch_cov_batches2 Sample.shared Sample.args Sample.clock 100000 []
              false 1 Sample.empty_world) as [w'|e] eqn:E.
  - exact (single_node_runs_every_script _ _ _ _ _ _ _ _ E).
  - vm_compute in E. discriminate.
Defined.

(** ** The unbatched drivers below and at the cap *)

(** X18. Whatever the cap [njobs], [launch_cov] and [launch_cls] submit the
    first [njobs] eligible tasks in list order, all of them when there are
    fewer, none when [njobs] is not positive: the number of submissions is
    the smaller of [max 0 njobs] and the number of eligible tasks.  The
    launcher changes no file. *)
Theorem submissions_up_to_cap (data : Data) (a : Args) (qjobs : string)
    (fiducial : bool) (skip : list string) (njobs : Z) (w : world) :
  (let eligible := filter (cov_eligible data qjobs skip (files w)) (cov_tracers data) in
   let '(c, w') := launch_cov data a qjobs njobs skip w in
   c = Z.min (Z.max 0 njobs) (Z.of_nat (List.length eligible))
   /\ submissions (trace w') =
        (submissions (trace w)
         ++ map (cov_submission data a) (firstn (Z.to_nat njobs) eligible))%list
   /\ files w' = files w)
  /\ (let eligible := filter (cl_eligible data qjobs fiducial skip (files w))
                        (cl_tracers data) in
      let '(c, w') := launch_cls data a qjobs njobs fiducial skip w in
      c = Z.min (Z.max 0 njobs) (Z.of_nat (List.length eligible))
      /\ submissions (trace w') =
           (submissions (trace w)
            ++ map (cl_submission data a fiducial) (firstn (Z.to_nat njobs) eligible))%list
      /\ files w' = files w).
Proof.
  split.
  - pose proof (launch_cov_loop_spec data a qjobs njobs skip (cov_tracers data) 0 w) as H.
    unfold launch_cov. cbv zeta in H |- *. rewrite Z.sub_0_r in H.
    destruct (launch_cov_loop data a qjobs njobs skip (cov_tracers data) 0 w) as [c w'].
    destruct H as [Hc [Hs Hf]]. split; [|split; assumption].
    rewrite Hc, length_firstn. lia.
  - pose proof (launch_cls_loop_spec data a qjobs njobs fiducial skip (cl_tracers data)
                  0 w) as H.
    unfold launch_cls. cbv zeta in H |- *. rewrite Z.sub_0_r in H.
    destruct (launch_cls_loop data a qjobs njobs fiducial skip (cl_tracers data) 0 w)
      as [c w'].
    destruct H as [Hc [Hs Hf]]. split; [|split; assumption].
    rewrite Hc, length_firstn. lia.
Qed.

(** ** [launch_cov_batches]: scripts and submissions go in pairs *)





(** ** [MapperBase.get_beam]: product of the factors, and what an error leaves *)

Lemma beam_loop_ok (N : Mapper.Numerics) (nside : Z)
    (infos : list (Mapper.info N)) (fs : list (Mapper.array N)) (b : Mapper.array N) :
  Forall2 (fun i f => Mapper.factor N nside i = Mapper.Returned f) infos fs ->
  Mapper.beam_loop N nside infos b = (Mapper.Returned tt, fold_left (Mapper.mul N) fs b).
Proof.
  intros H. revert b. induction H as [|i f infos fs Hi _ IH]; intros b.
  - reflexivity.
  - cbn [Mapper.beam_loop fold_left]. rewrite Hi. apply IH.
Qed.

Lemma beam_loop_raises (N : Mapper.Numerics) (nside : Z)
    (infos : list (Mapper.info N)) (b b' : Mapper.array N) (e : Mapper.beam_exn) :
  Mapper.beam_loop N nside infos b = (Mapper.Raised e, b') ->
  exists pre i post fs,
    infos = (pre ++ i :: post)%list
    /\ Forall2 (fun i f => Mapper.factor N nside i = Mapper.Returned f) pre fs
    /\ Mapper.factor N nside i = Mapper.Raised e
    /\ b' = fold_left (Mapper.mul N) fs b.
Proof.
  revert b. induction infos as [|i rest IH]; intros b; cbn [Mapper.beam_loop].
  - discriminate.
  - destruct (Mapper.factor N nside i) as [f|e0] eqn:Ef.
    + intros H. destruct (IH _ H) as [pre [j [post [fs [E1 [E2 [E3 E4]]]]]]].
      exists (i :: pre), j, post, (f :: fs). subst rest.
      split; [reflexivity|]. split; [now constructor|]. split; assumption.
    + intros H. inversion H. subst.
      exists [], i, rest, []. split; [reflexivity|]. split; [constructor|].
      split; [exact Ef|reflexivity].
Qed.

(** X20. When every entry of [beam_info] gives its factor, the first call of
    [get_beam] returns the product of [np.ones(3 nside)] with the factors in
    the order of the list (the array of ones for an empty list) and keeps
    it; a second call returns the same array without computing anything. *)
Theorem get_beam_is_cached_product (N : Mapper.Numerics) (s : Mapper.state N)
    (fs : list (Mapper.array N)) :
  Mapper.beam s = None ->
  Forall2 (fun i f => Mapper.factor N (Mapper.nside s) i = Mapper.Returned f)
    (Mapper.beam_info s) fs ->
  let b := fold_left (Mapper.mul N) fs (Mapper.ones N (3 * Mapper.nside s)) in
  let s' := snd (Mapper.get_beam N s) in
  fst (Mapper.get_beam N s) = Mapper.Returned b
  /\ Mapper.beam s' = Some b
  /\ Mapper.get_beam N s' = (Mapper.Returned b, s').
Proof.
  intros Hnone Hfs b s'. unfold s', Mapper.get_beam. rewrite Hnone.
  rewrite (beam_loop_ok N _ _ fs _ Hfs). cbn. repeat split.
Qed.

Lemma get_beam_is_cached_product_witness :
  let s := Mapper.Build_state Mapper.toy 1024
             (["Gaussian"; "PixWin"] : list string) (None : option Z) in
  fst (Mapper.get_beam Mapper.toy s) = Mapper.Returned 6.
Proof.
  intros s.
  refine (proj1 (get_beam_is_cached_product Mapper.toy s [2; 3] eq_refl _)).
  repeat constructor.
Defined.

(** X21. When an entry of [beam_info] raises (an unknown type, a custom
    beam on a mapper that has none, a failing factor), the first call of
    [get_beam] raises, but the beam multiplied so far stays in [self.beam]:
    a second call raises nothing and returns that partial product, which
    lacks the failing entry and all the entries after it. *)
Theorem get_beam_error_leaves_partial_beam (N : Mapper.Numerics) (s : Mapper.state N)
    (e : Mapper.beam_exn) :
  Mapper.beam s = None ->
  fst (Mapper.get_beam N s) = Mapper.Raised e ->
  let s' := snd (Mapper.get_beam N s) in
  exists pre i post fs,
    Mapper.beam_info s = (pre ++ i :: post)%list
    /\ Forall2 (fun i f => Mapper.factor N (Mapper.nside s) i = Mapper.Returned f) pre fs
    /\ Mapper.factor N (Mapper.nside s) i = Mapper.Raised e
    /\ Mapper.get_beam N s' =
         (Mapper.Returned
            (fold_left (Mapper.mul N) fs (Mapper.ones N (3 * Mapper.nside s))), s').
Proof.
  intros Hnone. unfold Mapper.get_beam. rewrite Hnone.
  destruct (Mapper.beam_loop N (Mapper.nside s) (Mapper.beam_info s)
              (Mapper.ones N (3 * Mapper.nside s))) as [r b] eqn:El.
  destruct r as [u|e0]; [discriminate|]. cbn [fst snd]. intros He. inversion He. subst e0.
  destruct (beam_loop_raises N _ _ _ _ _ El) as [pre [i [post [fs [E1 [E2 [E3 E4]]]]]]].
  exists pre, i, post, fs. cbn [Mapper.beam]. subst b. repeat split; auto.
Qed.

Lemma get_beam_error_leaves_partial_beam_witness :
  let s := Mapper.Build_state Mapper.toy 1024
             (["Gaussian"; "Tophat"; "PixWin"] : list string) (None : option Z) in
  fst (Mapper.get_beam Mapper.toy s)
    = Mapper.Raised (Mapper.NotImplementedError "Unknown beam type.")
  /\ exists pre i post fs,
       Mapper.beam_info s = (pre ++ i :: post)%list
       /\ Forall2 (fun i f => Mapper.factor Mapper.toy 1024 i = Mapper.Returned f) pre fs
       /\ Mapper.factor Mapper.toy 1024 i
            = Mapper.Raised (Mapper.NotImplementedError "Unknown beam type.")
       /\ Mapper.get_beam Mapper.toy (snd (Mapper.get_beam Mapper.toy s)) =
            (Mapper.Returned (fold_left Z.mul fs 1), snd (Mapper.get_beam Mapper.toy s)).
Proof.
  intros s. split; [reflexivity|].
  exact (get_beam_error_leaves_partial_beam Mapper.toy s _ eq_refl eq_refl).
Defined.

(** ** Every group script reaches a node *)

Lemma njobs_per_node_idem (njobs n nn : Z) :
  0 < nn -> 0 <= n ->
  njobs_per_node (njobs_per_node njobs n nn) n nn = njobs_per_node njobs n nn.
Proof.
  intros Hnn Hn. unfold njobs_per_node.
  destruct (njobs * nn >? n) eqn:E; [|now rewrite E].
  assert (H : (n / nn + 1) * nn > n).
  { pose proof (Z.div_mod n nn ltac:(lia)) as Hd.
    pose proof (Z.mod_pos_bound n nn Hnn) as Hm. nia. }
  replace ((n / nn + 1) * nn >? n) with true by lia. reflexivity.
Qed.

Lemma node_chunks_map (n nn : Z) (sh_tbc : list string) (nodes : list Z) (njobs : Z) :
  0 < nn -> 0 <= n ->
  node_chunks n nn sh_tbc nodes njobs =
  map (fun nodei => node_chunk sh_tbc nodei (njobs_per_node njobs n nn)) nodes.
Proof.
  intros Hnn Hn. revert njobs. induction nodes as [|i rest IH]; intros njobs.
  - reflexivity.
  - cbn [node_chunks map]. now rewrite IH, njobs_per_node_idem.
Qed.

Lemma slice_In {A : Type} (l : list A) (a b : Z) (k : nat) (x : A) :
  nth_error l k = Some x -> 0 <= a -> a <= Z.of_nat k < b -> In x (Py.slice l a b).
Proof.
  intros Hk Ha Hab.
  assert (Hlen : (k < List.length l)%nat)
    by (apply nth_error_Some; congruence).
  unfold Py.slice, Py.slice_bound.
  replace (a <? 0) with false by lia. replace (b <? 0) with false by lia.
  set (lo := Z.to_nat (Z.min (Z.of_nat (List.length l)) (Z.max 0 a))).
  set (hi := Z.to_nat (Z.min (Z.of_nat (List.length l)) (Z.max 0 b))).
  assert (Hlo : (lo <= k)%nat) by (unfold lo; lia).
  assert (Hhi : (k < hi)%nat) by (unfold hi; lia).
  apply (nth_error_In _ (k - lo)).
  rewrite nth_error_skipn, nth_error_firstn.
  replace (lo + (k - lo))%nat with k by lia.
  replace (k <? hi)%nat with true by (symmetry; apply Nat.ltb_lt; exact Hhi).
  exact Hk.
Qed.

Lemma range_In (n : Z) (i : nat) : (i < Z.to_nat n)%nat -> In (Z.of_nat i) (Py.range n).
Proof.
  intros H. unfold Py.range. apply in_map. apply in_seq. lia.
Qed.

(** X22. With at least one node, no group script is lost: every script
    written by a pass that returns is invoked by the outer script of at
    least one node (possibly of several, as the slices may overlap). *)
Theorem every_script_reaches_a_node (data : Data) (skip : list string) (a : Args)
    (remove_cwsp : bool) (njobs nnodes : Z) (outdir_batches : string)
    (cwsp : cwsp_dict) (w w1 : world) (c : Z) (sh_tbc : list string) :
  1 <= nnodes ->
  groups_loop data skip a remove_cwsp (njobs * nnodes) outdir_batches cwsp 0 [] w
    = (Ok (c, sh_tbc), w1) ->
  forall sh, In sh sh_tbc ->
    exists chunk,
      In chunk (node_chunks (Z.of_nat (List.length cwsp)) nnodes sh_tbc
                  (Py.range nnodes) njobs)
      /\ In sh chunk.
Proof.
  intros Hnn Hpass.
  destruct (groups_loop_effects data skip a remove_cwsp (njobs * nnodes)
              outdir_batches cwsp 0 [] w) as [disp [orphan H]].
  rewrite Hpass in H.
  destruct H as [_ [Hb [Hl [_ [_ [_ [_ [Ho [Hs _]]]]]]]]]. cbn [app] in Hs.
  subst orphan. rewrite Nat.add_0_r in Hb, Hl.
  assert (Hlen : List.length sh_tbc = List.length disp)
    by (rewrite Hs; apply length_map).
  rewrite Z.sub_0_r in Hb. rewrite <- Hlen in Hb, Hl. clear Hs Hlen disp.
  intros sh Hin. apply In_nth_error in Hin. destruct Hin as [k Hk].
  assert (Hk' : (k < List.length sh_tbc)%nat) by (apply nth_error_Some; congruence).
  set (n := Z.of_nat (List.length cwsp)) in *.
  set (nj := njobs_per_node njobs n nnodes).
  rewrite (node_chunks_map n nnodes sh_tbc _ njobs) by lia. fold nj.
  assert (Hnj : 1 <= nj /\ Z.of_nat (List.length sh_tbc) <= nnodes * nj).
  { unfold nj, njobs_per_node. destruct (njobs * nnodes >? n) eqn:E.
    - pose proof (Z.div_mod n nnodes ltac:(lia)) as Hd.
      pose proof (Z.mod_pos_bound n nnodes ltac:(lia)) as Hm.
      pose proof (Z.div_pos n nnodes ltac:(lia) ltac:(lia)) as Hq.
      split; [lia|]. unfold n in *. nia.
    - split; [nia|]. lia. }
  destruct Hnj as [Hnj1 Hnj2].
  set (i := Nat.min k (Z.to_nat nnodes - 1)).
  exists (node_chunk sh_tbc (Z.of_nat i) nj). split.
  - apply in_map_iff. exists (Z.of_nat i). split; [reflexivity|].
    apply range_In. unfold i. lia.
  - unfold node_chunk. apply (slice_In _ _ _ k); [exact Hk|lia|].
    unfold i. split; [lia|].
    destruct (Nat.le_gt_cases k (Z.to_nat nnodes - 1)) as [Hle|Hgt].
    + rewrite Nat.min_l by exact Hle. nia.
    + rewrite Nat.min_r by lia. nia.
Qed.

Lemma every_script_reaches_a_node_witness :
  let sB := "out/run_batches/cw__mB__mB__mB__mB.fits.sh" in
  match fst (groups_loop Sample.four_groups [] Sample.args false
               (100000 * 2) "out/run_batches"
               [("out/cov/cw__mA__mA__mA__mA.fits", [("A", "A", "A", "A")]);
                ("out/cov/cw__mB__mB__mB__mB.fits", [("B", "B", "B", "B")]);
                ("out/cov/cw__mC__mC__mC__mC.fits", [("C", "C", "C", "C")]);
                ("out/cov/cw__mD__mD__mD__mD.fits", [("D", "D", "D", "D")])]
               0 [] Sample.empty_world) with
  | Ok (_, sh_tbc) =>
      exists chunk,
        In chunk (node_chunks 4 2 sh_tbc (Py.range 2) 100000) /\ In sB chunk
  | Raise _ => False
  end.
Proof.
  intros sB.
  destruct (groups_loop Sample.four_groups [] Sample.args false (100000 * 2)
              "out/run_batches" _ 0 [] Sample.empty_world) as [[[c sh]|e] w1] eqn:E;
    [|vm_compute in E; discriminate].
  cbn [fst].
  apply (every_script_reaches_a_node Sample.four_groups [] Sample.args false
           100000 2 "out/run_batches" _ Sample.empty_world w1 c sh ltac:(lia) E).
  vm_compute in E. inversion E. right. left. reflexivity.
Defined.

(** ** Further composition facts *)

(** X23. [save_wsp] is idempotent on success: once it has returned normally,
    calling it again on the same path returns at once, without any call of
    [write_to], and changes nothing. *)
Theorem save_wsp_twice (wsp : Tools.Workspace) (fname : string) (s : Tools.state) :
  fst (Tools.save_wsp wsp fname s) = Ok tt ->
  Tools.save_wsp wsp fname (snd (Tools.save_wsp wsp fname s)) =
    (Ok tt, snd (Tools.save_wsp wsp fname s)).
Proof.
  intros H. pose proof (save_wsp_ok_isfile wsp fname s H) as Hex.
  unfold Tools.save_wsp at 1. now rewrite Hex.
Qed.

Lemma save_wsp_twice_witness :
  let wsp := {| Tools.write_to := fun k =>
                  match k with
                  | O => Tools.Returns
                  | S _ => Tools.Raises (RuntimeError "Error writing workspace") true
                  end;
                Tools.read_from := fun _ => Tools.Returns |} in
  let s := {| Tools.files := []; Tools.writes := 0; Tools.reads := 0 |} in
  Tools.save_wsp wsp "out/cov/cw.fits" (snd (Tools.save_wsp wsp "out/cov/cw.fits" s)) =
    (Ok tt, {| Tools.files := ["out/cov/cw.fits"]; Tools.writes := 1; Tools.reads := 0 |}).
Proof.
  intros wsp s.
  exact (save_wsp_twice wsp "out/cov/cw.fits" s eq_refl).
Defined.


